(** * HabitTracker: the schedule, streak and storage logic, embedded in Rocq

    The development follows the repository file by file:
    - [Py]         the interpreter primitives the code calls
                   ([str.strip], [str.split], [str.join], [int], [str],
                   true division);
    - [Db]         [habit_tracker/db.py], the SQLite layer, as a store of rows
                   with explicit connections;
    - [Metrics]    [habit_tracker/metrics.py];
    - [HabitsPage] the parser and the writer of the custom days and the
                   button "Save" of [pages/1_Habits.py];
    - [CheckinPage] the button "Mark all done" of [pages/2_Check_in.py];
    - [Dashboard]  [parse_hhmm], [daily_progress_frame] and the totals of the
                   month of [Habit_Tracker.py];
    - [Gregorian]  the calendar arithmetic of [datetime]: ordinals, year, month
                   and day, and [date.isoformat];
    - [MonthPicker] [month_bounds] of [Habit_Tracker.py];
    - [Spec]       the notions the specification speaks of (maximum run, due
                   days marked done);
    - [Examples]   the data of the worked examples.
    The properties come after the definitions, one module per subject.

    Conventions.  A [datetime.date] is its proleptic Gregorian ordinal
    ([date.toordinal()], day 1 is Monday 0001-01-01), an integer; adding a
    [timedelta] of [n] days is adding [n].  The two end points of the calendar
    ([date.min], [date.max]) are not part of the model: dates are plain day
    numbers, and date arithmetic does not overflow.  A [str] is the sequence
    of its code points, and the model covers the code points below 256.  A
    [float] obtained by dividing two integers is represented by the exact
    quotient in [Q].  The metrics are stated for any [Calendar], the pair of
    [date.isoformat] and [date.day]; [Gregorian.calendar] is the one of
    [datetime]. *)

From Stdlib Require Import ZArith String Ascii List QArith Lia Bool.
From Stdlib Require Import DecimalString DecimalPos.
From stdpp Require Import gmap strings list sorting.

Open Scope Z_scope.

(* ================================================================== *)
(** * Interpreter primitives *)
(* ================================================================== *)

Module Py.

(** Exceptions the modelled code can meet. *)
Inductive exn := ValueError | ZeroDivisionError | IntegrityError.

Inductive result (A : Type) :=
| Ok (a : A)
| Raise (e : exn).
Arguments Ok {A} a.
Arguments Raise {A} e.

Definition bind {A B} (r : result A) (k : A -> result B) : result B :=
  match r with Ok a => k a | Raise e => Raise e end.

(** [str.isspace] on one code point below 256: TAB..CR, FS..US, space,
    NEL and the no-break space. *)
Definition isspace (c : ascii) : bool :=
  let n := Z.of_N (N_of_ascii c) in
  ((9 <=? n) && (n <=? 13)) || ((28 <=? n) && (n <=? 32))
  || (n =? 133) || (n =? 160).

Fixpoint lstrip (s : string) : string :=
  match s with
  | EmptyString => EmptyString
  | String c r => if isspace c then lstrip r else s
  end.

Definition rstrip (s : string) : string := String.rev (lstrip (String.rev s)).

(** [s.strip()] *)
Definition strip (s : string) : string := rstrip (lstrip s).

(** [s.split(sep)] for a one-character separator: never the empty list. *)
Fixpoint split (sep : ascii) (s : string) : list string :=
  match s with
  | EmptyString => [EmptyString]
  | String c r =>
      if Ascii.eqb c sep then EmptyString :: split sep r
      else match split sep r with
           | [] => [String c EmptyString]
           | w :: ws => String c w :: ws
           end
  end.

Definition digit_of (c : ascii) : option Z :=
  let n := Z.of_N (N_of_ascii c) in
  if (48 <=? n) && (n <=? 57) then Some (n - 48) else None.

(** [sys.int_info.default_max_str_digits]: a longer digit string makes
    [int] raise [ValueError]. *)
Definition int_max_str_digits : nat := 4300.

(** The digits of a base-10 literal as [int] reads them: at least one digit,
    single underscores allowed between digits only.  [acc] is the value read
    so far, [count] the number of digits, [prev_digit] whether the previous
    character was a digit. *)
Fixpoint int_digits (s : string) (acc : Z) (count : nat) (prev_digit : bool)
  : option (Z * nat) :=
  match s with
  | EmptyString => if prev_digit then Some (acc, count) else None
  | String c r =>
      match digit_of c with
      | Some v => int_digits r (10 * acc + v) (S count) true
      | None =>
          if Ascii.eqb c "_" && prev_digit then int_digits r acc count false
          else None
      end
  end.

Definition int_unsigned (s : string) : result Z :=
  match int_digits s 0 0%nat false with
  | Some (v, count) =>
      if (int_max_str_digits <? count)%nat then Raise ValueError else Ok v
  | None => Raise ValueError
  end.

(** [int(s)] for a [str] argument, base 10. *)
Definition int (s : string) : result Z :=
  match strip s with
  | String "+" r => int_unsigned r
  | String "-" r => bind (int_unsigned r) (fun v => Ok (- v))
  | t => int_unsigned t
  end.

(** [str(n)] for an [int]: the decimal digits, after a minus sign for a
    negative number; more than [int_max_str_digits] digits make it raise
    [ValueError]. *)
Definition str (n : Z) : result string :=
  let d := Z.to_int n in
  let digits :=
    match d with Decimal.Pos u | Decimal.Neg u => Decimal.nb_digits u end in
  if (int_max_str_digits <? digits)%nat then Raise ValueError
  else Ok (NilZero.string_of_int d).

(** A list built from a generator whose elements can raise. *)
Fixpoint map_result {A B} (f : A -> result B) (l : list A) : result (list B) :=
  match l with
  | [] => Ok []
  | x :: r =>
      bind (f x) (fun y => bind (map_result f r) (fun ys => Ok (y :: ys)))
  end.
(** [a / b] on integers. *)
Definition truediv (a b : Z) : result Q :=
  if b =? 0 then Raise ZeroDivisionError else Ok (inject_Z a / inject_Z b)%Q.

End Py.

(* ================================================================== *)
(** * Rows and mappings *)
(* ================================================================== *)

(** A habit as the code passes it around: the mapping [dict(row)] of a row of
    [habits].  For [description], [schedule_type] and [custom_days], [None]
    stands for a key that is absent or holds Python's [None]; the code reads
    the last two only through [habit.get(key, default)] followed by a test
    that treats both cases alike. *)
Record habit := mk_habit {
  id : Z;
  name : string;
  description : option string;
  schedule_type : option string;
  custom_days : option string;
  created_at : string
}.

(** A row of [checkins]. *)
Record checkin_row := mk_checkin_row {
  row_id : Z;
  row_habit_id : Z;
  row_day : string;
  row_done : Z;
  row_note : option string;
  row_created_at : string
}.

(** A check-in as [list_checkins_for_habit] yields it: the columns
    [day], [done], [note]. *)
Record checkin := mk_checkin {
  day : string;
  done : Z;
  note : option string
}.

(** A [datetime.date], by ordinal. *)
Definition date := Z.

(** [d.weekday()]: Monday is 0. *)
Definition weekday (d : date) : Z := (d + 6) mod 7.

(* ================================================================== *)
(** * habit_tracker/db.py *)
(* ================================================================== *)

Module Db.
Import Py.

(** The content of the database file: the three tables and the two
    AUTOINCREMENT counters. *)
Record database := mk_database {
  habits : list habit;
  checkins : list checkin_row;
  settings : gmap string string;
  habits_seq : Z;
  checkins_seq : Z
}.

(** An open connection: the data it sees and its own [foreign_keys] pragma. *)
Record connection := mk_connection {
  foreign_keys : bool;
  data : database
}.

(** SQLite opens every connection with foreign-key enforcement off; the
    pragma is a property of one connection, not of the file. *)
Definition sqlite_default_foreign_keys : bool := false.

(** [sqlite3.connect(db_path)] *)
Definition sqlite3_connect (db : database) : connection :=
  {| foreign_keys := sqlite_default_foreign_keys; data := db |}.

(** [with connect(db_path) as conn: body]: a fresh connection, the body,
    then commit and close.  When the body raises, nothing is committed. *)
Definition connect (db : database) (body : connection -> result connection)
  : result database :=
  match body (sqlite3_connect db) with
  | Ok conn => Ok (data conn)
  | Raise e => Raise e
  end.

(** The same for a body that only reads. *)
Definition connect_read {A} (db : database) (body : connection -> A) : A :=
  body (sqlite3_connect db).

Definition with_data (conn : connection) (db : database) : connection :=
  {| foreign_keys := foreign_keys conn; data := db |}.

(** [PRAGMA foreign_keys = ON] *)
Definition pragma_foreign_keys_on (conn : connection) : connection :=
  {| foreign_keys := true; data := data conn |}.

(** [CREATE TABLE IF NOT EXISTS ...]: the tables of [database] exist. *)
Definition create_table_if_not_exists (conn : connection) : connection := conn.

Definition init_db (db : database) : result database :=
  connect db (fun conn =>
    let conn := create_table_if_not_exists conn in
    let conn := create_table_if_not_exists conn in
    let conn := create_table_if_not_exists conn in
    Ok (pragma_foreign_keys_on conn)).

(** The file before the first [init_db]. *)
Definition empty_database : database :=
  {| habits := []; checkins := []; settings := ∅;
     habits_seq := 0; checkins_seq := 0 |}.

Definition habit_exists (hid : Z) (db : database) : bool :=
  existsb (fun h => id h =? hid) (habits db).

Definition name_taken (nm : string) (except : option Z) (db : database) : bool :=
  existsb (fun h => String.eqb (name h) nm
                    && match except with
                       | Some i => negb (id h =? i)
                       | None => true
                       end) (habits db).

(* --- Habit CRUD ------------------------------------------------- *)

(** [SELECT ... FROM habits ORDER BY name] *)
Definition list_habits (db : database) : list habit :=
  connect_read db (fun conn =>
    merge_sort (fun a b => Is_true (String.leb (name a) (name b)))
               (habits (data conn))).

Definition get_habit (habit_id : Z) (db : database) : option habit :=
  connect_read db (fun conn =>
    List.find (fun h => id h =? habit_id) (habits (data conn))).

(** [INSERT INTO habits (...) VALUES (...)]: [name] is UNIQUE. *)
Definition insert_habit (nm desc st cd cat : string) (conn : connection)
  : result connection :=
  let db := data conn in
  if name_taken nm None db then Raise IntegrityError
  else
    let i := habits_seq db + 1 in
    Ok (with_data conn
          {| habits := habits db ++
               [ {| id := i; name := nm; description := Some desc;
                    schedule_type := Some st; custom_days := Some cd;
                    created_at := cat |} ];
             checkins := checkins db; settings := settings db;
             habits_seq := i; checkins_seq := checkins_seq db |}).

Definition create_habit (nm desc st cd cat : string) (db : database)
  : result database :=
  connect db (insert_habit (strip nm) (strip desc) st (strip cd) cat).

(** [UPDATE habits SET ... WHERE id = ?] *)
Definition update_habit_row (habit_id : Z) (nm desc st cd : string)
  (conn : connection) : result connection :=
  let db := data conn in
  if habit_exists habit_id db && name_taken nm (Some habit_id) db
  then Raise IntegrityError
  else
    Ok (with_data conn
          {| habits := map (fun h =>
               if id h =? habit_id
               then {| id := id h; name := nm; description := Some desc;
                       schedule_type := Some st; custom_days := Some cd;
                       created_at := created_at h |}
               else h) (habits db);
             checkins := checkins db; settings := settings db;
             habits_seq := habits_seq db; checkins_seq := checkins_seq db |}).

Definition update_habit (habit_id : Z) (nm desc st cd : string) (db : database)
  : result database :=
  connect db (update_habit_row habit_id (strip nm) (strip desc) st (strip cd)).

(** [DELETE FROM habits WHERE id = ?].  The rows of [checkins] that refer to
    a deleted habit go with it (ON DELETE CASCADE) on a connection that
    enforces foreign keys, and stay on one that does not. *)
Definition delete_habit_row (habit_id : Z) (conn : connection) : result connection :=
  let db := data conn in
  Ok (with_data conn
        {| habits := List.filter (fun h => negb (id h =? habit_id)) (habits db);
           checkins :=
             if foreign_keys conn && habit_exists habit_id db
             then List.filter (fun r => negb (row_habit_id r =? habit_id)) (checkins db)
             else checkins db;
           settings := settings db;
           habits_seq := habits_seq db; checkins_seq := checkins_seq db |}).

Definition delete_habit (habit_id : Z) (db : database) : result database :=
  connect db (delete_habit_row habit_id).

(* --- Check-ins -------------------------------------------------- *)

Definition same_key (habit_id : Z) (dy : string) (r : checkin_row) : bool :=
  (row_habit_id r =? habit_id) && String.eqb (row_day r) dy.

(** [DO UPDATE SET done=excluded.done, note=excluded.note] on one row. *)
Definition update_row (dn : Z) (nt : string) (r : checkin_row) : checkin_row :=
  {| row_id := row_id r; row_habit_id := row_habit_id r;
     row_day := row_day r; row_done := dn; row_note := Some nt;
     row_created_at := row_created_at r |}.

(** [INSERT INTO checkins (...) VALUES (...)
     ON CONFLICT(habit_id, day) DO UPDATE SET done=excluded.done,
                                              note=excluded.note] *)
Definition upsert_checkin_row (habit_id : Z) (dy : string) (dn : Z)
  (nt cat : string) (conn : connection) : result connection :=
  let db := data conn in
  if foreign_keys conn && negb (habit_exists habit_id db)
  then Raise IntegrityError
  else if existsb (same_key habit_id dy) (checkins db)
  then
    Ok (with_data conn
          {| habits := habits db;
             checkins := map (fun r =>
               if same_key habit_id dy r then update_row dn nt r else r)
               (checkins db);
             settings := settings db;
             habits_seq := habits_seq db; checkins_seq := checkins_seq db |})
  else
    let i := checkins_seq db + 1 in
    Ok (with_data conn
          {| habits := habits db;
             checkins := checkins db ++
               [ {| row_id := i; row_habit_id := habit_id; row_day := dy;
                    row_done := dn; row_note := Some nt;
                    row_created_at := cat |} ];
             settings := settings db;
             habits_seq := habits_seq db; checkins_seq := i |}).

Definition upsert_checkin (habit_id : Z) (dy : string) (dn : bool)
  (nt cat : string) (db : database) : result database :=
  connect db (upsert_checkin_row habit_id dy (if dn then 1 else 0) (strip nt) cat).

Definition get_checkin (habit_id : Z) (dy : string) (db : database)
  : option checkin_row :=
  connect_read db (fun conn =>
    List.find (same_key habit_id dy) (checkins (data conn))).

Definition checkin_of_row (r : checkin_row) : checkin :=
  {| day := row_day r; done := row_done r; note := row_note r |}.

(** [SELECT day, done, note FROM checkins WHERE habit_id = ? ORDER BY day] *)
Definition list_checkins_for_habit (habit_id : Z) (db : database) : list checkin :=
  connect_read db (fun conn =>
    merge_sort (fun a b => Is_true (String.leb (day a) (day b)))
      (map checkin_of_row
         (List.filter (fun r => row_habit_id r =? habit_id)
                      (checkins (data conn))))).

(** [SELECT habit_id, day, done, note FROM checkins
     WHERE day >= ? AND day <= ?]: each row as the pair of its [habit_id]
    and its other three columns.  The comparison of two texts is SQLite's
    BINARY collation, the order of the code points. *)
Definition list_checkins_between (start_day end_day : string) (db : database)
  : list (Z * checkin) :=
  connect_read db (fun conn =>
    map (fun r => (row_habit_id r, checkin_of_row r))
        (List.filter (fun r => String.leb start_day (row_day r)
                               && String.leb (row_day r) end_day)
                     (checkins (data conn)))).

(* --- Settings --------------------------------------------------- *)

Definition get_setting (key default : string) (db : database) : string :=
  connect_read db (fun conn =>
    match settings (data conn) !! key with
    | Some v => v
    | None => default
    end).

Definition set_setting (key value : string) (db : database) : result database :=
  connect db (fun conn =>
    let db := data conn in
    Ok (with_data conn
          {| habits := habits db; checkins := checkins db;
             settings := <[key := value]> (settings db);
             habits_seq := habits_seq db; checkins_seq := checkins_seq db |})).

(** What the application can do to the file. *)
Inductive op :=
| OpInit
| OpCreateHabit (nm desc st cd cat : string)
| OpUpdateHabit (habit_id : Z) (nm desc st cd : string)
| OpDeleteHabit (habit_id : Z)
| OpUpsertCheckin (habit_id : Z) (dy : string) (dn : bool) (nt cat : string)
| OpSetSetting (key value : string).

Definition run_op (o : op) (db : database) : result database :=
  match o with
  | OpInit => init_db db
  | OpCreateHabit nm desc st cd cat => create_habit nm desc st cd cat db
  | OpUpdateHabit i nm desc st cd => update_habit i nm desc st cd db
  | OpDeleteHabit i => delete_habit i db
  | OpUpsertCheckin i dy dn nt cat => upsert_checkin i dy dn nt cat db
  | OpSetSetting k v => set_setting k v db
  end.

(** An operation that raises leaves the file as it was. *)
Definition apply_op (db : database) (o : op) : database :=
  match run_op o db with
  | Ok db' => db'
  | Raise _ => db
  end.

Definition run (ops : list op) : database := fold_left apply_op ops empty_database.

Definition key_of (r : checkin_row) : Z * string := (row_habit_id r, row_day r).

(** The constraint [UNIQUE(habit_id, day)] of [checkins]. *)
Definition checkins_unique (db : database) : Prop :=
  NoDup (map key_of (checkins db)).

(** The rows of [checkins] for one pair. *)
Definition rows_for (habit_id : Z) (dy : string) (db : database) : list checkin_row :=
  List.filter (same_key habit_id dy) (checkins db).

(** The well-formedness of the table of habits: names and ids are unique,
    and no id is above the AUTOINCREMENT counter. *)
Definition habits_wf (db : database) : Prop :=
  NoDup (map name (habits db))
  /\ NoDup (map id (habits db))
  /\ 0 <= habits_seq db
  /\ forall h, In h (habits db) -> 1 <= id h <= habits_seq db.

(** A column that holds a text, not NULL, on which [strip] has no effect. *)
Definition stripped (v : option string) : Prop :=
  exists t, v = Some t /\ strip t = t.

(** The texts of the two tables are as the write functions leave them. *)
Definition text_stripped (db : database) : Prop :=
  (forall h, In h (habits db) ->
     strip (name h) = name h /\ stripped (description h)
     /\ schedule_type h <> None /\ stripped (custom_days h))
  /\ (forall r, In r (checkins db) -> stripped (row_note r)).

End Db.

(* ================================================================== *)
(** * habit_tracker/metrics.py *)
(* ================================================================== *)

(** The two methods of [datetime.date] that turn a date into text or into a
    day of the month.  The code only calls them; what it needs of them is
    stated where it is used. *)
Class Calendar := {
  isoformat : date -> string;
  day_of_month : date -> Z
}.

Module Metrics.
Import Py.

(** One pass of the loop body of [parse_custom_days]. *)
Definition add_token (out : gset Z) (p : string) : gset Z :=
  let p := strip p in
  if String.eqb p "" then out
  else match int p with
       | Ok n => {[ n ]} ∪ out
       | Raise _ => out
       end.

Definition parse_custom_days (custom_days : option string) : gset Z :=
  let custom_days := strip (default EmptyString custom_days) in
  if String.eqb custom_days "" then ∅
  else foldl add_token ∅ (split "," custom_days).

Definition is_due_on (habit : habit) (d : date) : bool :=
  let st := default "daily"%string (schedule_type habit) in
  if String.eqb st "daily" then true
  else if String.eqb st "weekdays" then weekday d <? 5
  else if String.eqb st "custom" then
    bool_decide (weekday d ∈ parse_custom_days (custom_days habit))
  else true.

Fixpoint daterange_from (n : nat) (cur : date) : list date :=
  match n with
  | O => []
  | S k => cur :: daterange_from k (cur + 1)
  end.

(** The loop [while cur <= end] runs [end - start + 1] times, or not at all. *)
Definition daterange (start end_ : date) : list date :=
  daterange_from (Z.to_nat (end_ - start + 1)) start.

Definition due_days_for_habit (habit : habit) (start end_ : date) : list date :=
  List.filter (is_due_on habit) (daterange start end_).

(** [{c["day"]: int(c.get("done", 0)) for c in checkins}]: a later entry
    for the same day replaces an earlier one. *)
Definition checkin_lookup (checkins : list checkin) : gmap string Z :=
  foldl (fun m c => <[day c := done c]> m) ∅ checkins.

(** [lookup.get(key, 0) == 1] *)
Definition is_done (lookup : gmap string Z) (key : string) : bool :=
  default 0 (lookup !! key) =? 1.

Section WithCalendar.
Context `{Calendar}.

(** The [while True] loop of [current_streak], with a bound on the number
    of iterations; [None] when the bound is reached. *)
Fixpoint current_streak_loop (fuel : nat) (habit : habit)
  (lookup : gmap string Z) (today cur : date) (streak : Z) : option Z :=
  match fuel with
  | O => None
  | S fuel =>
      if negb (is_due_on habit cur) then
        let cur := cur - 1 in
        if (streak =? 0) && (60 <? today - cur) then Some 0
        else current_streak_loop fuel habit lookup today cur streak
      else if is_done lookup (isoformat cur) then
        current_streak_loop fuel habit lookup today (cur - 1) (streak + 1)
      else Some streak
  end.

(** Enough iterations for every input (see [current_streak_terminates]). *)
Definition current_streak_fuel (checkins : list checkin) : nat :=
  61 + 7 * S (length checkins).

Definition current_streak (habit : habit) (checkins : list checkin)
  (today : date) : option Z :=
  current_streak_loop (current_streak_fuel checkins) habit
    (checkin_lookup checkins) today today 0.

(** The body of the [for] loop of [longest_streak] on the pair
    [(longest, cur_streak)]. *)
Definition longest_streak_step (habit : habit) (lookup : gmap string Z)
  (st : Z * Z) (d : date) : Z * Z :=
  let '(longest, cur_streak) := st in
  if negb (is_due_on habit d) then (longest, cur_streak)
  else if is_done lookup (isoformat d) then
    let cur_streak := cur_streak + 1 in
    (Z.max longest cur_streak, cur_streak)
  else (longest, 0).

(** The pair [(longest, cur_streak)] after the [for] loop over [days]. *)
Definition longest_streak_scan (habit : habit) (lookup : gmap string Z)
  (days : list date) : Z * Z :=
  foldl (longest_streak_step habit lookup) (0, 0) days.

Definition longest_streak (habit : habit) (checkins : list checkin)
  (start end_ : date) : Z :=
  let lookup := checkin_lookup checkins in
  fst (longest_streak_scan habit lookup (daterange start end_)).

Definition success_rate (habit : habit) (checkins : list checkin)
  (start end_ : date) : result Q :=
  let due := due_days_for_habit habit start end_ in
  match due with
  | [] => Ok 0%Q
  | _ =>
      let lookup := checkin_lookup checkins in
      let done :=
        length (List.filter (fun d => is_done lookup (isoformat d)) due) in
      truediv (Z.of_nat done) (Z.of_nat (length due))
  end.

(** A row of the frame built by [heatmap_frame]. *)
Record heatmap_row := mk_heatmap_row {
  hm_day : date;
  hm_day_num : option Z;
  hm_done : option Z;
  hm_due : Z;
  hm_dow : Z;
  hm_week : Z
}.

Definition heatmap_cell (habit : habit) (lookup : gmap string Z)
  (month_start month_end first_monday d : date) : heatmap_row :=
  let in_month := (month_start <=? d) && (d <=? month_end) in
  let due := if is_due_on habit d && in_month then 1 else 0 in
  let done := if due =? 0 then None else lookup !! isoformat d in
  let week := (d - first_monday) / 7 in
  {| hm_day := d;
     hm_day_num := if in_month then Some (day_of_month d) else None;
     hm_done := done;
     hm_due := due;
     hm_dow := weekday d;
     hm_week := week |}.

Definition heatmap_frame (habit : habit) (checkins : list checkin)
  (month_start month_end : date) : list heatmap_row :=
  let lookup := checkin_lookup checkins in
  let first_monday := month_start - weekday month_start in
  map (heatmap_cell habit lookup month_start month_end first_monday)
      (daterange first_monday month_end).

End WithCalendar.

End Metrics.

(* ================================================================== *)
(** * pages/1_Habits.py *)
(* ================================================================== *)

Module HabitsPage.
Import Py.

Definition append_token (out : list Z) (p : string) : list Z :=
  let p := strip p in
  if String.eqb p "" then out
  else match int p with
       | Ok n => out ++ [n]
       | Raise _ => out
       end.

Definition string_to_days (s : option string) : list Z :=
  let s := strip (default EmptyString s) in
  if String.eqb s "" then []
  else
    let out := foldl append_token [] (split "," s) in
    let kept : gset Z :=
      list_to_set (List.filter (fun d => (0 <=? d) && (d <=? 6)) out) in
    merge_sort Z.le (elements kept).

(** [",".join(str(d) for d in sorted(selected))] *)
Definition days_to_string (selected : list Z) : result string :=
  bind (map_result str (merge_sort Z.le selected)) (fun parts =>
  Ok (String.concat "," parts)).
(** The loop over the seven check boxes: [new_selected]. *)
Definition new_selected (ticked : Z -> bool) : list Z :=
  List.filter ticked [0; 1; 2; 3; 4; 5; 6].

(** How a click on "Save" ends. *)
Inductive saved :=
| NoName
| NotSaved (e : exn)
| SavedAs (db : Db.database).

(** The form of [main] when "Save" is clicked: [habit] is the habit being
    edited, if any; [ticked] the state of the check boxes; [now] what
    [now_iso()] returns.  The text of the custom days is built before the
    click is looked at, outside the [try]. *)
Definition save (db : Db.database) (habit : option habit)
  (name desc schedule_type : string) (ticked : Z -> bool) (now : string)
  : result saved :=
  bind (if String.eqb schedule_type "custom"
        then days_to_string (new_selected ticked)
        else Ok ""%string) (fun custom_days =>
  if String.eqb (strip name) "" then Ok NoName
  else
    match
      match habit with
      | Some h => Db.update_habit (id h) name desc schedule_type custom_days db
      | None => Db.create_habit name desc schedule_type custom_days now db
      end
    with
    | Ok db' => Ok (SavedAs db')
    | Raise e => Ok (NotSaved e)
    end).
End HabitsPage.

(* ================================================================== *)
(** * pages/2_Check_in.py *)
(* ================================================================== *)

Module CheckinPage.
Import Py.

(** How a click on the page ends: the store after the writes, an exception
    of the store, or the [AttributeError] of [None.strip()]. *)
Inductive outcome :=
| Saved (db : Db.database)
| StoreError (e : exn)
| AttributeError.

Section WithCalendar.
Context `{Calendar}.

(** [due = [h for h in habits if is_due_on(h, chosen)]] *)
Definition due (habits : list habit) (chosen : date) : list habit :=
  List.filter (fun h => Metrics.is_due_on h chosen) habits.

(** [existing = {h["id"]: db.get_checkin(h["id"], chosen.isoformat())
                 for h in due}] *)
Definition existing (db : Db.database) (due : list habit) (chosen : date)
  : gmap Z (option checkin_row) :=
  foldl (fun m h => <[id h := Db.get_checkin (id h) (isoformat chosen) db]> m)
        ∅ due.

(** [c = existing.get(h["id"])] and [c.get("note", "") if c else ""]: the
    stored note, which is [None] when the column holds NULL. *)
Definition note_of (c : option (option checkin_row)) : option string :=
  match c with
  | Some (Some r) => row_note r
  | _ => Some ""%string
  end.

(** The loop of the button "Mark all done"; [now_iso k] is the text the
    [k]-th call of [now_iso()] returns. *)
Fixpoint mark_all (ex : gmap Z (option checkin_row)) (chosen : date)
  (now_iso : nat -> string) (k : nat) (due : list habit) (db : Db.database)
  : outcome :=
  match due with
  | [] => Saved db
  | h :: rest =>
      match note_of (ex !! id h) with
      | None => AttributeError
      | Some nt =>
          match Db.upsert_checkin (id h) (isoformat chosen) true nt (now_iso k) db with
          | Ok db' => mark_all ex chosen now_iso (S k) rest db'
          | Raise e => StoreError e
          end
      end
  end.

(** The button "Mark all done" of [main], for the habits [db.list_habits()]
    returned. *)
Definition mark_all_done (db : Db.database) (chosen : date)
  (now_iso : nat -> string) : outcome :=
  let due := due (Db.list_habits db) chosen in
  let ex := existing db due chosen in
  mark_all ex chosen now_iso 0 due db.

End WithCalendar.
End CheckinPage.

(* ================================================================== *)
(** * Habit_Tracker.py *)
(* ================================================================== *)

Module Dashboard.
Import Py.

(** [parse_hhmm]: any exception of the body gives the default. *)
Definition parse_hhmm (text : string) : Z * Z :=
  match split ":" (strip text) with
  | [hh; mm] =>
      match int hh, int mm with
      | Ok h, Ok m => (h, m)
      | _, _ => (18, 0)
      end
  | _ => (18, 0)
  end.
(** [df["col"].cumsum()] *)
Fixpoint cumsum_from (acc : Z) (l : list Z) : list Z :=
  match l with
  | [] => []
  | x :: r => (acc + x) :: cumsum_from (acc + x) r
  end.

Definition cumsum (l : list Z) : list Z := cumsum_from 0 l.

(** A row of the frame built by [daily_progress_frame]. *)
Record progress_row := mk_progress_row {
  pr_day : date;
  pr_due : Z;
  pr_done : Z;
  pr_cum_due : Z;
  pr_cum_done : Z;
  pr_completion_rate : Q
}.

(** [(r["done"] / r["due"]) if r["due"] else 0.0] *)
Definition completion_rate (due done : Z) : result Q :=
  if due =? 0 then Ok 0%Q else truediv done due.

(** Rows of the frame from its first five columns, left to right. *)
Fixpoint frame_rows (days : list date) (due done cum_due cum_done : list Z)
  : result (list progress_row) :=
  match days, due, done, cum_due, cum_done with
  | d :: days, u :: due, n :: done, cu :: cum_due, cn :: cum_done =>
      bind (completion_rate u n) (fun rate =>
      bind (frame_rows days due done cum_due cum_done) (fun rows =>
      Ok ({| pr_day := d; pr_due := u; pr_done := n; pr_cum_due := cu;
             pr_cum_done := cn; pr_completion_rate := rate |} :: rows)))
  | _, _, _, _, _ => Ok []
  end.

(** The three metrics of "This month" in [main]:
    [int(df["done"].sum())], [int(df["due"].sum())] and
    [(total_done / total_due) if total_due else 0.0]. *)
Definition month_totals (df : list progress_row) : result (Z * Z * Q) :=
  let total_due := fold_right Z.add 0 (map pr_due df) in
  let total_done := fold_right Z.add 0 (map pr_done df) in
  bind (if total_due =? 0 then Ok 0%Q else truediv total_done total_due)
       (fun rate => Ok (total_done, total_due, rate)).

(** [counts[day] += 1] *)
Definition incr (day : date) (counts : gmap Z Z) : gmap Z Z :=
  alter (fun n => n + 1) day counts.

(** [{d.date(): 0 for d in days}] *)
Definition zero_counts (days : list date) : gmap Z Z :=
  foldl (fun m d => <[d := 0]> m) ∅ days.

Section WithCalendar.
Context `{Calendar}.

(** [load_checkins_for_habit]: the cached read is the read. *)
Definition load_checkins_for_habit (db : Db.database) (habit_id : Z)
  : list checkin :=
  Db.list_checkins_for_habit habit_id db.

(** The body of the inner loop [for ts in days]. *)
Definition count_day (h : habit) (done_lookup : gmap string Z)
  (counts : gmap Z Z * gmap Z Z) (day : date) : gmap Z Z * gmap Z Z :=
  let '(due_counts, done_counts) := counts in
  if Metrics.is_due_on h day then
    let due_counts := incr day due_counts in
    if Metrics.is_done done_lookup (isoformat day)
    then (due_counts, incr day done_counts)
    else (due_counts, done_counts)
  else (due_counts, done_counts).

(** The body of the outer loop [for h in habits]. *)
Definition count_habit (db : Db.database) (days : list date)
  (counts : gmap Z Z * gmap Z Z) (h : habit) : gmap Z Z * gmap Z Z :=
  let checkins := load_checkins_for_habit db (id h) in
  let done_lookup := Metrics.checkin_lookup checkins in
  foldl (count_day h done_lookup) counts days.

Definition daily_progress_frame (db : Db.database) (habits : list habit)
  (month_start month_end : date) : result (list progress_row) :=
  let days := Metrics.daterange month_start month_end in
  let '(due_counts, done_counts) :=
    foldl (count_habit db days) (zero_counts days, zero_counts days) habits in
  let due := map (fun d => default 0 (due_counts !! d)) days in
  let done := map (fun d => default 0 (done_counts !! d)) days in
  frame_rows days due done (cumsum due) (cumsum done).

End WithCalendar.

End Dashboard.

(* ================================================================== *)
(** * The Gregorian calendar of [datetime] *)
(* ================================================================== *)

Module Gregorian.

Definition is_leap (year : Z) : bool :=
  (year mod 4 =? 0) && (negb (year mod 100 =? 0) || (year mod 400 =? 0)).

Definition days_before_year (year : Z) : Z :=
  let y := year - 1 in
  y * 365 + y / 4 - y / 100 + y / 400.

Definition days_in_month (leap : bool) (month : Z) : Z :=
  if month =? 2 then (if leap then 29 else 28)
  else if (month =? 4) || (month =? 6) || (month =? 9) || (month =? 11)
  then 30 else 31.

(** [_DAYS_BEFORE_MONTH[month] + (month > 2 and leap)] *)
Definition days_before_month (leap : bool) (month : Z) : Z :=
  nth (Z.to_nat month) [0; 0; 31; 59; 90; 120; 151; 181; 212; 243; 273; 304; 334] 0
  + (if (2 <? month) && leap then 1 else 0).

(** [date(year, month, day).toordinal()] *)
Definition ymd2ord (year month day : Z) : date :=
  days_before_year year + days_before_month (is_leap year) month + day.

(** The month and the day of the month of the [n]-th day (from 0) of a year,
    as [_ord2ymd] finds them: an estimate of the month that is either exact
    or one too large. *)
Definition month_day (leapyear : bool) (n : Z) : Z * Z :=
  let month := Z.shiftr (n + 50) 5 in
  let preceding := days_before_month leapyear month in
  if n <? preceding
  then
    let month := month - 1 in
    (month, n - (preceding - days_in_month leapyear month) + 1)
  else (month, n - preceding + 1).

(** [_ord2ymd]: the year, month and day of an ordinal. *)
Definition ord2ymd (n : date) : Z * Z * Z :=
  let n := n - 1 in
  let n400 := n / 146097 in
  let n := n mod 146097 in
  let n100 := n / 36524 in
  let n := n mod 36524 in
  let n4 := n / 1461 in
  let n := n mod 1461 in
  let n1 := n / 365 in
  let n := n mod 365 in
  let year := n400 * 400 + 1 + n100 * 100 + n4 * 4 + n1 in
  if (n1 =? 4) || (n100 =? 4) then (year - 1, 12, 31)
  else
    let leapyear := (n1 =? 3) && (negb (n4 =? 24) || (n100 =? 3)) in
    let '(month, day) := month_day leapyear n in
    (year, month, day).

(** [date.max.toordinal()], the ordinal of 9999-12-31; [date.min] has
    ordinal 1. *)
Definition MAXORDINAL : Z := 3652059.

(** What [month_day] must satisfy on one day of a year. *)
Definition month_day_ok (leapyear : bool) (n : Z) : bool :=
  let '(m, d) := month_day leapyear n in
  (days_before_month leapyear m + d =? n + 1) && (1 <=? m) && (m <=? 12)
  && (1 <=? d) && (d <=? 31).

Definition digit (n : Z) : ascii := ascii_of_N (Z.to_N (48 + n mod 10)).

(** ["%02d" % n] for [0 <= n < 100] *)
Definition fmt02 (n : Z) : string :=
  String (digit (n / 10)) (String (digit n) EmptyString).

(** ["%04d" % n] for [0 <= n < 10000] *)
Definition fmt04 (n : Z) : string :=
  String (digit (n / 1000)) (String (digit (n / 100)) (fmt02 n)).

(** ["%04d-%02d-%02d" % (year, month, day)] *)
Definition date_isoformat (d : date) : string :=
  let '(y, m, dd) := ord2ymd d in
  (fmt04 y ++ "-" ++ fmt02 m ++ "-" ++ fmt02 dd)%string.

Definition calendar : Calendar :=
  {| isoformat := date_isoformat;
     day_of_month := fun d => snd (ord2ymd d) |}.

(** What [month_day] must satisfy on one day of a year, with the day inside
    its month. *)
Definition month_day_in_month (leapyear : bool) (n : Z) : bool :=
  let '(m, d) := month_day leapyear n in
  (days_before_month leapyear m + d =? n + 1) && (1 <=? m) && (m <=? 12)
  && (1 <=? d) && (d <=? days_in_month leapyear m).

(** [datetime.MAXYEAR] *)
Definition MAXYEAR : Z := 9999.

(** [date(year, month, day)]: the constructor checks its fields and raises
    [ValueError] for a date that does not exist. *)
Definition make_date (year month day : Z) : Py.result date :=
  if (1 <=? year) && (year <=? MAXYEAR) && (1 <=? month) && (month <=? 12)
     && (1 <=? day) && (day <=? days_in_month (is_leap year) month)
  then Py.Ok (ymd2ord year month day)
  else Py.Raise Py.ValueError.

End Gregorian.

(* ================================================================== *)
(** * Habit_Tracker.py: the month of the progress chart *)
(* ================================================================== *)

Module MonthPicker.
Import Py Gregorian.

(** [month_bounds] of [Habit_Tracker.py]: [d.replace(day=1)], the first day
    of the next month, and the day before it. *)
Definition month_bounds (d : date) : result (date * date) :=
  let '(y, m, _) := ord2ymd d in
  bind (make_date y m 1) (fun start =>
  bind (if m =? 12 then make_date (y + 1) 1 1 else make_date y (m + 1) 1)
       (fun nm =>
  Ok (start, nm - 1))).
End MonthPicker.

(* ================================================================== *)
(** * Notions of the specification *)
(* ================================================================== *)

Module Spec.

(** The number of [true] at the front of a list. *)
Fixpoint leading_run (l : list bool) : nat :=
  match l with
  | true :: t => S (leading_run t)
  | _ => O
  end.

(** The maximum run: the length of the longest block of consecutive [true]
    in a list, as the largest front run over the places where a block can
    start. *)
Fixpoint longest_run (l : list bool) : nat :=
  match l with
  | [] => O
  | _ :: t => Nat.max (leading_run l) (longest_run t)
  end.

(** The loop body of [longest_streak] on a due day, by the done flag of
    the day. *)
Definition flag_step (st : Z * Z) (flag : bool) : Z * Z :=
  let '(longest, cur_streak) := st in
  if flag then (Z.max longest (cur_streak + 1), cur_streak + 1)
  else (longest, 0).

Section WithCalendar.
Context `{Calendar}.

(** The due days of a window that have a done check-in. *)
Definition done_days (h : habit) (cs : list checkin) (s e : date) : list date :=
  List.filter (fun d => Metrics.is_done (Metrics.checkin_lookup cs) (isoformat d))
              (Metrics.due_days_for_habit h s e).

(** The number of habits that are due on a day. *)
Definition due_count (habits : list habit) (d : date) : Z :=
  Z.of_nat (length (List.filter (fun h => Metrics.is_due_on h d) habits)).

(** The number of habits that are due on a day and marked done in the
    store. *)
Definition done_count (db : Db.database) (habits : list habit) (d : date) : Z :=
  Z.of_nat (length (List.filter
    (fun h => Metrics.is_due_on h d
              && Metrics.is_done
                   (Metrics.checkin_lookup (Db.list_checkins_for_habit (id h) db))
                   (isoformat d)) habits)).

(** The sum of a column. *)
Definition total (l : list Z) : Z := fold_right Z.add 0 l.
End WithCalendar.

End Spec.

(* ================================================================== *)
(** * Data for the worked examples *)
(* ================================================================== *)

Module Examples.
Import Db.

(** A file with one habit and one check-in of it, written through the
    application's own calls. *)
Definition one_habit_one_checkin : database :=
  run [ OpInit;
        OpCreateHabit "Read" "" "daily" "" "2024-01-01T08:00:00";
        OpUpsertCheckin 1 "2024-01-01" true "" "2024-01-01T20:00:00";
        OpInit ].

Definition mon_wed_fri : habit :=
  {| id := 1; name := "Run"; description := None;
     schedule_type := Some "custom"%string;
     custom_days := Some "0,2,4"%string; created_at := "" |}.

Definition weekdays_habit : habit :=
  {| id := 2; name := "Write"; description := None;
     schedule_type := Some "weekdays"%string;
     custom_days := None; created_at := "" |}.

(** A custom schedule with no day selected. *)
Definition no_day_habit : habit :=
  {| id := 3; name := "Rest"; description := None;
     schedule_type := Some "custom"%string;
     custom_days := Some ""%string; created_at := "" |}.

(** Monday 2024-01-01. *)
Definition monday : date := Gregorian.ymd2ord 2024 1 1.

Definition read_habit : habit :=
  {| id := 1; name := "Read"; description := Some ""%string;
     schedule_type := Some "daily"%string;
     custom_days := Some ""%string; created_at := "2024-01-01T08:00:00" |}.

(** Done from Wednesday 2024-01-03 to Sunday 2024-01-07, nothing recorded
    before. *)
Definition five_days_done : list checkin :=
  [ {| day := "2024-01-03"; done := 1; note := None |};
    {| day := "2024-01-04"; done := 1; note := None |};
    {| day := "2024-01-05"; done := 1; note := None |};
    {| day := "2024-01-06"; done := 1; note := None |};
    {| day := "2024-01-07"; done := 1; note := None |} ].

(** The habit [read_habit] with its first three days marked done. *)
Definition three_days_done : database :=
  run [ OpInit;
        OpCreateHabit "Read" "" "daily" "" "2024-01-01T08:00:00";
        OpUpsertCheckin 1 "2024-01-01" true "" "2024-01-01T20:00:00";
        OpUpsertCheckin 1 "2024-01-02" true "" "2024-01-02T20:00:00";
        OpUpsertCheckin 1 "2024-01-03" true "" "2024-01-03T20:00:00" ].

(** Wednesday 2024-01-03 recorded first, Monday 2024-01-01 entered
    afterwards. *)
Definition late_entry : database :=
  run [ OpInit;
        OpCreateHabit "Read" "" "daily" "" "2024-01-01T08:00:00";
        OpUpsertCheckin 1 "2024-01-03" true "" "2024-01-03T20:00:00";
        OpUpsertCheckin 1 "2024-01-01" true "late" "2024-01-04T09:00:00" ].

(** Done on Monday, Tuesday, Thursday and Friday of that week; Wednesday
    recorded as not done. *)
Definition week_checkins : list checkin :=
  [ {| day := "2024-01-01"; done := 1; note := None |};
    {| day := "2024-01-02"; done := 1; note := None |};
    {| day := "2024-01-03"; done := 0; note := None |};
    {| day := "2024-01-04"; done := 1; note := None |};
    {| day := "2024-01-05"; done := 1; note := None |} ].

End Examples.

(* ================================================================== *)
(** * Properties of the storage layer *)
(* ================================================================== *)

Module DbFacts.
Import Py Db Examples.

(** The pragma set by [init_db] dies with the connection of [init_db]. *)
Lemma init_db_id db : init_db db = Ok db.
Proof. reflexivity. Qed.

Lemma connect_foreign_keys_off db : foreign_keys (sqlite3_connect db) = false.
Proof. reflexivity. Qed.

(** [delete_habit] runs on a connection of its own: the table of check-ins
    is what it was. *)
Lemma delete_habit_checkins habit_id db :
  exists db', delete_habit habit_id db = Ok db'
              /\ checkins db' = checkins db
              /\ get_habit habit_id db' = None.
Proof.
  eexists. split; [reflexivity|]. split; [reflexivity|].
  unfold get_habit, connect_read; simpl.
  induction (habits db) as [|h hs IH]; simpl; [reflexivity|].
  destruct (id h =? habit_id) eqn:E; simpl; [exact IH|].
  rewrite E. exact IH.
Qed.

Lemma delete_habit_lists habit_id db db' :
  delete_habit habit_id db = Ok db' ->
  list_checkins_for_habit habit_id db' = list_checkins_for_habit habit_id db.
Proof.
  intros E. destruct (delete_habit_checkins habit_id db) as (d & E' & Hc & _).
  rewrite E in E'. injection E' as <-.
  unfold list_checkins_for_habit, connect_read; simpl. now rewrite Hc.
Qed.

(** The statement itself does cascade where the pragma is on. *)
Lemma delete_habit_row_cascades habit_id conn conn' :
  foreign_keys conn = true ->
  habit_exists habit_id (data conn) = true ->
  delete_habit_row habit_id conn = Ok conn' ->
  List.filter (fun r => row_habit_id r =? habit_id) (checkins (data conn')) = [].
Proof.
  intros Hfk Hex E. unfold delete_habit_row in E. injection E as <-.
  simpl. rewrite Hfk, Hex. simpl.
  induction (checkins (data conn)) as [|r rs IH]; simpl; [reflexivity|].
  destruct (row_habit_id r =? habit_id) eqn:Er; simpl; [exact IH|].
  rewrite Er. exact IH.
Qed.

(** C1.  The cascade does not happen: after [delete_habit] of a habit that
    has a check-in, the habit is gone and [list_checkins_for_habit] still
    returns the check-in.  The foreign-key pragma was set on the connection
    of [init_db] only. *)
Theorem delete_habit_leaves_checkins :
  list_checkins_for_habit 1 one_habit_one_checkin
    = [ {| day := "2024-01-01"; done := 1; note := Some ""%string |} ]
  /\ exists db',
       delete_habit 1 one_habit_one_checkin = Ok db'
       /\ get_habit 1 db' = None
       /\ list_checkins_for_habit 1 db'
          = [ {| day := "2024-01-01"; done := 1; note := Some ""%string |} ].
Proof.
  split; [reflexivity|].
  eexists. split; [reflexivity|]. split; reflexivity.
Qed.

End DbFacts.

(* ================================================================== *)
(** * Properties of the schedule *)
(* ================================================================== *)

Module ScheduleFacts.
Import Py Metrics Examples.

Lemma weekday_range d : 0 <= weekday d <= 6.
Proof. unfold weekday. pose proof (Z.mod_pos_bound (d + 6) 7). lia. Qed.

Lemma weekday_period d : weekday (d - 7) = weekday d.
Proof.
  unfold weekday. replace (d - 7 + 6) with (d + 6 + (-1) * 7) by lia.
  apply Z_mod_plus_full.
Qed.

(** C2.  [parse_custom_days] keeps an integer token that is no weekday:
    the token 7 ends up in the set. *)
Theorem parse_custom_days_keeps_out_of_range :
  parse_custom_days (Some "7"%string) = {[ 7 ]}
  /\ ~ (forall n, n ∈ parse_custom_days (Some "7"%string) -> 0 <= n <= 6).
Proof.
  assert (parse_custom_days (Some "7"%string) = {[ 7 ]}) as E by reflexivity.
  split; [exact E|].
  rewrite E. intros Hall. specialize (Hall 7).
  assert (7 ∈ ({[ 7 ]} : gset Z)) as Hin by (apply elem_of_singleton; reflexivity).
  specialize (Hall Hin). lia.
Qed.

(** The sibling parser of the Habits page does drop such tokens. *)
Lemma string_to_days_range s n :
  n ∈ HabitsPage.string_to_days s -> 0 <= n <= 6.
Proof.
  unfold HabitsPage.string_to_days.
  destruct (String.eqb _ _); [intros Hin; inversion Hin|].
  rewrite merge_sort_Permutation, elem_of_elements, elem_of_list_to_set.
  rewrite list_elem_of_In, filter_In. intros [_ Hr]. lia.
Qed.

Example string_to_days_example :
  HabitsPage.string_to_days (Some " 4, 2,0,x,,7, -1,2 "%string) = [0; 2; 4].
Proof. reflexivity. Qed.

(** Tokens that are not integers never reach the set. *)
Lemma add_token_elem out p n :
  n ∈ add_token out p <-> n ∈ out \/ (strip p <> ""%string /\ int (strip p) = Ok n).
Proof.
  unfold add_token. destruct (String.eqb_spec (strip p) "") as [E|E].
  - rewrite E. intuition congruence.
  - destruct (int (strip p)) as [m|e].
    + rewrite elem_of_union, elem_of_singleton. split.
      * intros [->|Hin]; [right; split; [exact E|reflexivity] | left; exact Hin].
      * intros [Hin|[_ Hm]]; [right; exact Hin | left; congruence].
    + split; [intros Hin; left; exact Hin|]. intros [Hin|[_ Hm]]; [exact Hin|discriminate].
Qed.

Lemma foldl_add_token_elem tokens out n :
  n ∈ foldl add_token out tokens <->
  n ∈ out \/ exists p, In p tokens /\ strip p <> ""%string /\ int (strip p) = Ok n.
Proof.
  revert out. induction tokens as [|t ts IH]; intros out; simpl.
  - split; [intros Hin; left; exact Hin|]. intros [Hin|(p & [] & _)]; exact Hin.
  - rewrite IH, add_token_elem. split.
    + intros [[Hin|Ht]|(p & Hp & Hq)].
      * left; exact Hin.
      * right; exists t; split; [left; reflexivity|exact Ht].
      * right; exists p; split; [right; exact Hp|exact Hq].
    + intros [Hin|(p & [->|Hp] & Hq)].
      * left; left; exact Hin.
      * left; right; exact Hq.
      * right; exists p; split; [exact Hp|exact Hq].
Qed.

Lemma parse_custom_days_elem s n :
  n ∈ parse_custom_days s <->
  exists p, In p (split "," (strip (default EmptyString s)))
            /\ strip p <> ""%string /\ int (strip p) = Ok n.
Proof.
  unfold parse_custom_days.
  destruct (String.eqb_spec (strip (default EmptyString s)) "") as [E|E].
  - rewrite E. simpl. split; [intros Hin; exfalso; revert Hin; apply not_elem_of_empty|].
    intros (p & [<-|[]] & Hp & _). exfalso; apply Hp; reflexivity.
  - rewrite foldl_add_token_elem. split.
    + intros [Hin|Hp]; [exfalso; revert Hin; apply not_elem_of_empty|exact Hp].
    + intros Hp; right; exact Hp.
Qed.

Lemma is_due_on_custom h d :
  schedule_type h = Some "custom"%string ->
  is_due_on h d = bool_decide (weekday d ∈ parse_custom_days (custom_days h)).
Proof. intros E. unfold is_due_on. rewrite E. reflexivity. Qed.

(** C5.  A custom habit is due exactly on the days whose weekday index is in
    the parsed set; with an empty parsed set, as for an empty or blank
    [custom_days], it is never due; with the set 0, 2, 4 it is due exactly on
    Mondays, Wednesdays and Fridays. *)
Theorem is_due_on_custom_iff (h : habit) (d : date) :
  schedule_type h = Some "custom"%string ->
  (is_due_on h d = true <-> weekday d ∈ parse_custom_days (custom_days h))
  /\ (parse_custom_days (custom_days h) = ∅ -> is_due_on h d = false)
  /\ (strip (default EmptyString (custom_days h)) = ""%string ->
      is_due_on h d = false)
  /\ (parse_custom_days (custom_days h) = {[ 0; 2; 4 ]} ->
      (is_due_on h d = true <-> weekday d = 0 \/ weekday d = 2 \/ weekday d = 4)).
Proof.
  intros E. rewrite (is_due_on_custom h d E). split; [|split; [|split]].
  - rewrite bool_decide_eq_true. reflexivity.
  - intros ->. rewrite bool_decide_eq_false. apply not_elem_of_empty.
  - intros Hblank. unfold parse_custom_days. rewrite Hblank. simpl.
    rewrite bool_decide_eq_false. apply not_elem_of_empty.
  - intros ->. rewrite bool_decide_eq_true.
    rewrite !elem_of_union, !elem_of_singleton. tauto.
Qed.

(** Integer tokens that are no weekday never make a day due. *)
Lemma is_due_on_custom_out_of_range (h : habit) (d : date) :
  schedule_type h = Some "custom"%string ->
  (forall n, n ∈ parse_custom_days (custom_days h) -> ~ 0 <= n <= 6) ->
  is_due_on h d = false.
Proof.
  intros E Hout. rewrite (is_due_on_custom h d E), bool_decide_eq_false.
  intros Hin. apply (Hout _ Hin). apply weekday_range.
Qed.

Example parse_custom_days_malformed :
  parse_custom_days (Some "x, ,1.5,Mon"%string) = ∅.
Proof. reflexivity. Qed.

Lemma is_due_on_custom_iff_witness :
  parse_custom_days (custom_days mon_wed_fri) = {[ 0; 2; 4 ]}
  /\ (is_due_on mon_wed_fri 738886 = true
      <-> weekday 738886 = 0 \/ weekday 738886 = 2 \/ weekday 738886 = 4).
Proof.
  assert (parse_custom_days (custom_days mon_wed_fri) = {[ 0; 2; 4 ]}) as Hp
      by (vm_compute; reflexivity).
  split; [exact Hp|].
  exact (proj2 (proj2 (proj2 (is_due_on_custom_iff mon_wed_fri 738886 eq_refl))) Hp).
Defined.

End ScheduleFacts.

Module UpsertFacts.
Import Py Db Examples.

Lemma same_key_spec habit_id dy r :
  same_key habit_id dy r = true <-> key_of r = (habit_id, dy).
Proof.
  unfold same_key, key_of. rewrite andb_true_iff, Z.eqb_eq, String.eqb_eq.
  split; [intros [-> ->]; reflexivity | intros E; injection E; auto].
Qed.

Lemma same_key_update_row habit_id dy dn nt r :
  same_key habit_id dy (update_row dn nt r) = same_key habit_id dy r.
Proof. reflexivity. Qed.

Section OnePair.
Variables (habit_id : Z) (dy : string) (dn : Z) (nt : string).

Let upd (r : checkin_row) : checkin_row :=
  if same_key habit_id dy r then update_row dn nt r else r.

Lemma keys_after_update l : map key_of (map upd l) = map key_of l.
Proof.
  induction l as [|r l IH]; simpl; [reflexivity|]. rewrite IH. f_equal.
  unfold upd. destruct (same_key habit_id dy r); reflexivity.
Qed.

Lemma length_after_update l : length (map upd l) = length l.
Proof. apply length_map. Qed.

Lemma rows_after_update l :
  List.filter (same_key habit_id dy) (map upd l)
  = map (update_row dn nt) (List.filter (same_key habit_id dy) l).
Proof.
  induction l as [|r l IH]; simpl; [reflexivity|].
  destruct (same_key habit_id dy r) eqn:E.
  - assert (upd r = update_row dn nt r) as -> by (unfold upd; now rewrite E).
    rewrite same_key_update_row, E. simpl. now rewrite IH.
  - assert (upd r = r) as -> by (unfold upd; now rewrite E).
    rewrite E. exact IH.
Qed.

Lemma no_row_no_key l :
  existsb (same_key habit_id dy) l = false ->
  List.filter (same_key habit_id dy) l = [] /\ ~ In (habit_id, dy) (map key_of l).
Proof.
  induction l as [|r l IH]; simpl; [intros _; split; [reflexivity|tauto]|].
  rewrite orb_false_iff. intros [E El]. destruct (IH El) as [IH1 IH2].
  rewrite E. split; [exact IH1|]. intros [Hk|Hin]; [|exact (IH2 Hin)].
  apply same_key_spec in Hk. congruence.
Qed.

Lemma unique_row l :
  NoDup (map key_of l) ->
  (length (List.filter (same_key habit_id dy) l) <= 1)%nat.
Proof.
  induction l as [|r l IH]; simpl; [lia|].
  rewrite NoDup_cons, list_elem_of_In. intros [Hni Hnd]. specialize (IH Hnd).
  destruct (same_key habit_id dy r) eqn:E; [|exact IH]. simpl.
  apply same_key_spec in E. rewrite E in Hni.
  destruct (existsb (same_key habit_id dy) l) eqn:Ex.
  - exfalso. apply Hni. apply existsb_exists in Ex as (x & Hx & Hk).
    apply same_key_spec in Hk. apply in_map_iff. exists x. split; assumption.
  - apply no_row_no_key in Ex as [-> _]. simpl. lia.
Qed.

Lemma some_row l :
  existsb (same_key habit_id dy) l = true ->
  NoDup (map key_of l) ->
  exists r, List.filter (same_key habit_id dy) l = [r].
Proof.
  intros Ex Hnd. pose proof (unique_row l Hnd) as Hlen.
  apply existsb_exists in Ex as (x & Hx & Hk).
  assert (In x (List.filter (same_key habit_id dy) l)) as Hin
      by (apply filter_In; split; assumption).
  destruct (List.filter (same_key habit_id dy) l) as [|r [|r' rest]].
  - destruct Hin.
  - exists r. reflexivity.
  - simpl in Hlen. lia.
Qed.

End OnePair.

(** What [upsert_checkin] does to the table, by cases. *)
Lemma upsert_checkin_cases habit_id dy dn nt cat db :
  exists db', upsert_checkin habit_id dy dn nt cat db = Ok db'
  /\ habits db' = habits db
  /\ ((existsb (same_key habit_id dy) (checkins db) = true
       /\ checkins db' =
          map (fun r => if same_key habit_id dy r
                        then update_row (if dn then 1 else 0) (strip nt) r else r)
              (checkins db))
      \/ (existsb (same_key habit_id dy) (checkins db) = false
          /\ checkins db' = checkins db ++
               [ {| row_id := checkins_seq db + 1; row_habit_id := habit_id;
                    row_day := dy; row_done := if dn then 1 else 0;
                    row_note := Some (strip nt); row_created_at := cat |} ])).
Proof.
  unfold upsert_checkin, connect, upsert_checkin_row. simpl.
  destruct (existsb (same_key habit_id dy) (checkins db)) eqn:Ex; simpl.
  - eexists. split; [reflexivity|]. split; [reflexivity|]. left. split; reflexivity.
  - eexists. split; [reflexivity|]. split; [reflexivity|]. right. split; reflexivity.
Qed.

Lemma upsert_checkin_unique habit_id dy dn nt cat db db' :
  checkins_unique db ->
  upsert_checkin habit_id dy dn nt cat db = Ok db' ->
  checkins_unique db'.
Proof.
  intros Hu E. destruct (upsert_checkin_cases habit_id dy dn nt cat db)
    as (d & E' & _ & [[Ex Hc]|[Ex Hc]]); rewrite E in E'; injection E' as <-;
    unfold checkins_unique; rewrite Hc.
  - rewrite keys_after_update. exact Hu.
  - rewrite map_app. apply NoDup_app. split; [exact Hu|]. split.
    + intros k Hk Hk'. simpl in Hk'. apply list_elem_of_singleton in Hk'. subst k.
      apply list_elem_of_In in Hk. apply (no_row_no_key _ _ _ Ex) in Hk. exact Hk.
    + simpl. apply NoDup_singleton.
Qed.

Lemma upsert_checkin_row_for habit_id dy dn nt cat db db' :
  checkins_unique db ->
  upsert_checkin habit_id dy dn nt cat db = Ok db' ->
  exists r, rows_for habit_id dy db' = [r]
            /\ row_done r = (if dn then 1 else 0)
            /\ row_note r = Some (strip nt)
            /\ (forall r0, rows_for habit_id dy db = [r0] ->
                r = update_row (if dn then 1 else 0) (strip nt) r0
                /\ length (checkins db') = length (checkins db))
            /\ (rows_for habit_id dy db = [] ->
                length (checkins db') = S (length (checkins db))).
Proof.
  intros Hu E. destruct (upsert_checkin_cases habit_id dy dn nt cat db)
    as (d & E' & _ & [[Ex Hc]|[Ex Hc]]); rewrite E in E'; injection E' as <-;
    unfold rows_for; rewrite Hc.
  - destruct (some_row habit_id dy _ Ex Hu) as (r0 & Hr0).
    rewrite rows_after_update, Hr0. simpl.
    exists (update_row (if dn then 1 else 0) (strip nt) r0).
    split; [reflexivity|]. split; [reflexivity|]. split; [reflexivity|].
    split; [|discriminate].
    intros r1 E1. injection E1 as <-. split; [reflexivity|apply length_map].
  - destruct (no_row_no_key habit_id dy _ Ex) as [Hf _].
    rewrite List.filter_app, Hf. simpl.
    unfold same_key at 1. simpl. rewrite Z.eqb_refl, String.eqb_refl. simpl.
    eexists. split; [reflexivity|]. split; [reflexivity|]. split; [reflexivity|].
    split; [discriminate|]. intros _. rewrite length_app. simpl. lia.
Qed.

Lemma apply_op_unique db o : checkins_unique db -> checkins_unique (apply_op db o).
Proof.
  intros Hu. unfold apply_op. destruct (run_op o db) as [db'|e] eqn:E; [|exact Hu].
  destruct o; simpl in E.
  - injection E as <-. exact Hu.
  - unfold create_habit, connect, insert_habit in E. simpl in E.
    destruct (name_taken _ _ _); [discriminate|]. injection E as <-. exact Hu.
  - unfold update_habit, connect, update_habit_row in E. simpl in E.
    destruct (_ && _); [discriminate|]. injection E as <-. exact Hu.
  - injection E as <-. exact Hu.
  - eapply upsert_checkin_unique; eassumption.
  - injection E as <-. exact Hu.
Qed.

Lemma run_unique ops : checkins_unique (run ops).
Proof.
  unfold run. assert (checkins_unique empty_database) as H0 by constructor.
  revert H0. generalize empty_database. induction ops as [|o ops IH]; intros db Hu.
  - exact Hu.
  - simpl. apply IH. apply apply_op_unique. exact Hu.
Qed.

(** C7.  Every file the application can produce holds at most one check-in
    row per (habit, day); and marking the same pair done twice leaves exactly
    one row for it, with [done = 1]: the second call rewrites [done] and
    [note] of the row the first call left, and adds no row. *)
Theorem upsert_checkin_twice :
  (forall ops habit_id dy, (length (rows_for habit_id dy (run ops)) <= 1)%nat)
  /\ (forall db habit_id dy nt1 cat1 nt2 cat2,
        checkins_unique db ->
        (length (rows_for habit_id dy db) <= 1)%nat
        /\ exists db1 db2 r1 r2,
             upsert_checkin habit_id dy true nt1 cat1 db = Ok db1
             /\ upsert_checkin habit_id dy true nt2 cat2 db1 = Ok db2
             /\ rows_for habit_id dy db1 = [r1]
             /\ rows_for habit_id dy db2 = [r2]
             /\ row_done r2 = 1
             /\ r2 = update_row 1 (strip nt2) r1
             /\ length (checkins db2) = length (checkins db1)
             /\ checkins_unique db2).
Proof.
  split.
  - intros ops habit_id dy. apply unique_row. apply run_unique.
  - intros db habit_id dy nt1 cat1 nt2 cat2 Hu.
    split; [apply unique_row; exact Hu|].
    destruct (upsert_checkin_cases habit_id dy true nt1 cat1 db) as (db1 & E1 & _).
    destruct (upsert_checkin_cases habit_id dy true nt2 cat2 db1) as (db2 & E2 & _).
    pose proof (upsert_checkin_unique _ _ _ _ _ _ _ Hu E1) as Hu1.
    pose proof (upsert_checkin_unique _ _ _ _ _ _ _ Hu1 E2) as Hu2.
    destruct (upsert_checkin_row_for _ _ _ _ _ _ _ Hu E1) as (r1 & Hr1 & _).
    destruct (upsert_checkin_row_for _ _ _ _ _ _ _ Hu1 E2)
      as (r2 & Hr2 & Hd2 & _ & Hupd & _).
    destruct (Hupd r1 Hr1) as [Hr Hlen].
    exists db1, db2, r1, r2. repeat split; assumption.
Qed.

Lemma upsert_checkin_twice_witness :
  checkins_unique one_habit_one_checkin
  /\ exists db1 db2 r1 r2,
       upsert_checkin 1 "2024-01-02" true "" "t1" one_habit_one_checkin = Ok db1
       /\ upsert_checkin 1 "2024-01-02" true " again " "t2" db1 = Ok db2
       /\ rows_for 1 "2024-01-02" db1 = [r1]
       /\ rows_for 1 "2024-01-02" db2 = [r2]
       /\ row_done r2 = 1
       /\ r2 = update_row 1 (strip " again ") r1
       /\ length (checkins db2) = length (checkins db1)
       /\ checkins_unique db2.
Proof.
  assert (checkins_unique one_habit_one_checkin) as Hu by apply run_unique.
  split; [exact Hu|].
  exact (proj2 (proj2 upsert_checkin_twice one_habit_one_checkin 1
                  "2024-01-02"%string ""%string "t1"%string
                  " again "%string "t2"%string Hu)).
Defined.

Example upsert_checkin_twice_rows :
  match upsert_checkin 1 "2024-01-01" true " again " "t2" one_habit_one_checkin with
  | Ok db => checkins db
  | Raise _ => []
  end
  = [ {| row_id := 1; row_habit_id := 1; row_day := "2024-01-01"; row_done := 1;
         row_note := Some "again"%string;
         row_created_at := "2024-01-01T20:00:00" |} ].
Proof. reflexivity. Qed.

End UpsertFacts.

(* ================================================================== *)
(** * Properties of the metrics *)
(* ================================================================== *)

Module RangeFacts.
Import Metrics.

Lemma daterange_from_In n cur d :
  In d (daterange_from n cur) <-> cur <= d < cur + Z.of_nat n.
Proof.
  revert cur. induction n as [|n IH]; intros cur; simpl.
  - lia.
  - rewrite IH. lia.
Qed.

Lemma daterange_In start end_ d :
  In d (daterange start end_) <-> start <= d <= end_.
Proof. unfold daterange. rewrite daterange_from_In. lia. Qed.

Lemma daterange_from_length n cur : length (daterange_from n cur) = n.
Proof. revert cur. induction n as [|n IH]; intros cur; simpl; [|rewrite IH]; reflexivity. Qed.

Lemma daterange_from_snoc n cur :
  daterange_from (S n) cur = daterange_from n cur ++ [cur + Z.of_nat n].
Proof.
  revert cur. induction n as [|n IH]; intros cur.
  - simpl. f_equal. lia.
  - change (daterange_from (S (S n)) cur) with (cur :: daterange_from (S n) (cur + 1)).
    rewrite IH. simpl. do 2 f_equal. f_equal. lia.
Qed.

Lemma daterange_empty start end_ : end_ < start -> daterange start end_ = [].
Proof. intros Hlt. unfold daterange. replace (Z.to_nat _) with 0%nat by lia. reflexivity. Qed.

Lemma daterange_cons start end_ :
  start <= end_ -> daterange start end_ = start :: daterange (start + 1) end_.
Proof.
  intros Hle. unfold daterange.
  replace (Z.to_nat (end_ - start + 1)) with (S (Z.to_nat (end_ - (start + 1) + 1))) by lia.
  reflexivity.
Qed.

Lemma daterange_snoc start end_ :
  start <= end_ + 1 -> daterange start (end_ + 1) = daterange start end_ ++ [end_ + 1].
Proof.
  intros Hle. unfold daterange.
  replace (Z.to_nat (end_ + 1 - start + 1)) with (S (Z.to_nat (end_ - start + 1))) by lia.
  rewrite daterange_from_snoc. do 2 f_equal. lia.
Qed.

Lemma daterange_from_NoDup n cur : NoDup (daterange_from n cur).
Proof.
  revert cur. induction n as [|n IH]; intros cur; simpl.
  - apply NoDup_nil_2.
  - apply NoDup_cons. split; [|apply IH].
    rewrite list_elem_of_In, daterange_from_In. lia.
Qed.

Lemma daterange_NoDup start end_ : NoDup (daterange start end_).
Proof. apply daterange_from_NoDup. Qed.

Lemma daterange_head start end_ :
  start <= end_ -> head (daterange start end_) = Some start.
Proof. intros Hle. rewrite daterange_cons by exact Hle. reflexivity. Qed.

Lemma daterange_last start end_ :
  start <= end_ -> last (daterange start end_) = Some end_.
Proof.
  intros Hle. replace end_ with (end_ - 1 + 1) by lia.
  rewrite daterange_snoc by lia. apply last_snoc.
Qed.
End RangeFacts.

Module HeatmapFacts.
Import Py Metrics RangeFacts ScheduleFacts.

Lemma first_monday_is_monday d : weekday (d - weekday d) = 0.
Proof.
  unfold weekday.
  replace (d - (d + 6) mod 7 + 6) with (7 * ((d + 6) / 7))
    by (pose proof (Z.div_mod (d + 6) 7); lia).
  rewrite Z.mul_comm. apply Z_mod_mult.
Qed.

Section WithCalendar.
Context `{Calendar}.

Lemma heatmap_frame_days h cs ms me :
  map hm_day (heatmap_frame h cs ms me) = daterange (ms - weekday ms) me.
Proof.
  unfold heatmap_frame. rewrite map_map. simpl. apply map_id.
Qed.

Lemma heatmap_cell_outside h lookup ms me fm d :
  ~ (ms <= d <= me) ->
  hm_due (heatmap_cell h lookup ms me fm d) = 0
  /\ hm_done (heatmap_cell h lookup ms me fm d) = None
  /\ hm_day_num (heatmap_cell h lookup ms me fm d) = None.
Proof.
  intros Hout. unfold heatmap_cell; simpl.
  assert ((ms <=? d) && (d <=? me) = false) as ->
      by (apply andb_false_iff; lia).
  rewrite andb_false_r. simpl. auto.
Qed.

End WithCalendar.

End HeatmapFacts.


Module RateFacts.
Import Py Metrics RangeFacts Spec.
Section WithCalendar.
Context `{Calendar}.

End WithCalendar.
End RateFacts.

Module StreakFacts.
Import Py Metrics RangeFacts ScheduleFacts Spec.

Lemma leading_le_longest l : (leading_run l <= longest_run l)%nat.
Proof. destruct l as [|b t]; simpl; lia. Qed.

(** Every block of consecutive [true] is at most [longest_run] long, and a
    block of that length exists. *)
Lemma longest_run_upper a k b :
  (k <= longest_run (a ++ repeat true k ++ b))%nat.
Proof.
  induction a as [|x a IH]; simpl.
  - assert (k <= leading_run (repeat true k ++ b))%nat as Hk
        by (clear; induction k; simpl; lia).
    pose proof (leading_le_longest (repeat true k ++ b)). lia.
  - destruct x; lia.
Qed.

Lemma leading_run_split l :
  exists b, l = repeat true (leading_run l) ++ b.
Proof.
  induction l as [|x l [b Hb]]; [exists []; reflexivity|].
  destruct x; simpl.
  - exists b. now rewrite <- Hb.
  - exists (false :: l). reflexivity.
Qed.

Lemma longest_run_attained l :
  exists a b, l = a ++ repeat true (longest_run l) ++ b.
Proof.
  induction l as [|x l (a & b & Hab)]; [exists [], []; reflexivity|].
  cbn [longest_run].
  destruct (Nat.max_spec (leading_run (x :: l)) (longest_run l)) as [[_ ->]|[_ ->]].
  - exists (x :: a), b. simpl. now rewrite <- Hab.
  - destruct (leading_run_split (x :: l)) as [b' Hb'].
    exists [], b'. exact Hb'.
Qed.

Section WithCalendar.
Context `{Calendar}.

Lemma scan_due_days h lookup days st :
  foldl (longest_streak_step h lookup) st days
  = foldl flag_step st
      (map (fun d => is_done lookup (isoformat d))
           (List.filter (is_due_on h) days)).
Proof.
  revert st. induction days as [|d days IH]; intros [l c]; simpl; [reflexivity|].
  destruct (is_due_on h d) eqn:Ed; simpl; rewrite IH; reflexivity.
Qed.

Lemma flag_scan_longest flags l c :
  0 <= c <= l ->
  fst (foldl flag_step (l, c) flags)
  = Z.max l (Z.max (c + Z.of_nat (leading_run flags)) (Z.of_nat (longest_run flags))).
Proof.
  revert l c. induction flags as [|f flags IH]; intros l c Hc.
  - simpl. lia.
  - pose proof (leading_le_longest flags) as Hll. destruct f.
    + cbn [foldl flag_step]. rewrite IH by lia. cbn [leading_run longest_run]. lia.
    + cbn [foldl flag_step]. rewrite IH by lia. cbn [leading_run longest_run]. lia.
Qed.

Lemma longest_streak_longest_run h cs s e :
  longest_streak h cs s e
  = Z.of_nat (longest_run
                (map (fun d => is_done (checkin_lookup cs) (isoformat d))
                     (due_days_for_habit h s e))).
Proof.
  unfold longest_streak, longest_streak_scan, due_days_for_habit.
  rewrite scan_due_days, flag_scan_longest by lia.
  pose proof (leading_le_longest
    (map (fun d => is_done (checkin_lookup cs) (isoformat d))
         (List.filter (is_due_on h) (daterange s e)))). lia.
Qed.

Lemma is_due_on_weekdays h d :
  schedule_type h = Some "weekdays"%string -> is_due_on h d = (weekday d <? 5).
Proof. intros E. unfold is_due_on. rewrite E. reflexivity. Qed.

Lemma weekday_plus m k : weekday m = 0 -> 0 <= k < 7 -> weekday (m + k) = k.
Proof.
  unfold weekday. intros Hm Hk.
  replace (m + k + 6) with (k + (m + 6)) by lia.
  rewrite Z.add_mod, Hm, Z.add_0_r, Z.mod_mod by lia.
  apply Z.mod_small. lia.
Qed.

End WithCalendar.
End StreakFacts.

Module CurrentStreakFacts.
Import Py Metrics ScheduleFacts.

Lemma is_due_on_weekday h d d' :
  weekday d = weekday d' -> is_due_on h d = is_due_on h d'.
Proof. intros E. unfold is_due_on. now rewrite E. Qed.

Lemma weekday_shift d q : weekday (d + 7 * q) = weekday d.
Proof.
  unfold weekday. replace (d + 7 * q + 6) with (d + 6 + q * 7) by lia.
  apply Z_mod_plus_full.
Qed.

(** A schedule with no due day in one week has no due day at all. *)
Lemma never_due_week h cur :
  (forall j, 0 <= j < 7 -> is_due_on h (cur - j) = false) ->
  forall d, is_due_on h d = false.
Proof.
  intros Hweek d.
  rewrite (is_due_on_weekday h d (cur - (cur - d) mod 7)).
  - apply Hweek. apply Z.mod_pos_bound. lia.
  - replace (cur - (cur - d) mod 7) with (d + 7 * ((cur - d) / 7))
      by (pose proof (Z.div_mod (cur - d) 7); lia).
    symmetry. apply weekday_shift.
Qed.

(** Walking back from any day, a schedule that has a due day meets one
    within the week. *)
Lemma next_due h cur :
  (exists d, is_due_on h d = true) ->
  exists k, 0 <= k < 7 /\ is_due_on h (cur - k) = true
            /\ forall j, 0 <= j < k -> is_due_on h (cur - j) = false.
Proof.
  intros [d Hd].
  assert (forall n : nat,
             (forall j, 0 <= j < Z.of_nat n -> is_due_on h (cur - j) = false)
             \/ exists k, 0 <= k < Z.of_nat n /\ is_due_on h (cur - k) = true
                          /\ forall j, 0 <= j < k -> is_due_on h (cur - j) = false)
    as Hsearch.
  { induction n as [|n [IH|(k & Hk & Hdue & Hbefore)]].
    - left. intros j Hj. lia.
    - destruct (is_due_on h (cur - Z.of_nat n)) eqn:E.
      + right. exists (Z.of_nat n). split; [lia|]. split; [exact E|].
        intros j Hj. apply IH. lia.
      + left. intros j Hj. destruct (Z.eq_dec j (Z.of_nat n)) as [->|Hne];
          [exact E | apply IH; lia].
    - right. exists k. split; [lia|]. split; assumption. }
  destruct (Hsearch 7%nat) as [Hnone|Hsome]; [|exact Hsome].
  rewrite (never_due_week h cur Hnone d) in Hd. discriminate.
Qed.

Lemma checkin_lookup_keys cs k v :
  checkin_lookup cs !! k = Some v -> In k (map day cs).
Proof.
  unfold checkin_lookup.
  assert (forall m : gmap string Z,
             foldl (fun m c => <[day c := done c]> m) m cs !! k = Some v ->
             m !! k = Some v \/ In k (map day cs)) as Hgen.
  { induction cs as [|c cs IH]; intros m; simpl; [auto|].
    intros Hl. destruct (IH _ Hl) as [Hm|Hin]; [|auto].
    destruct (decide (day c = k)) as [->|Hne]; [auto|].
    rewrite lookup_insert_ne in Hm by exact Hne. auto. }
  intros Hl. destruct (Hgen ∅ Hl) as [Hm|Hin]; [|exact Hin].
  rewrite lookup_empty in Hm. discriminate.
Qed.

Lemma is_done_key cs k :
  is_done (checkin_lookup cs) k = true -> In k (map day cs).
Proof.
  unfold is_done. destruct (checkin_lookup cs !! k) as [v|] eqn:E; simpl.
  - intros _. eapply checkin_lookup_keys. exact E.
  - intros Hd. discriminate.
Qed.

Lemma remove_key_length (K : list string) k :
  In k K ->
  (length (List.filter (fun s => negb (String.eqb s k)) K) < length K)%nat.
Proof.
  induction K as [|s K IH]; simpl; [tauto|].
  intros [->|Hin].
  - rewrite String.eqb_refl. simpl.
    pose proof (List.filter_length_le (fun s => negb (String.eqb s k)) K). lia.
  - specialize (IH Hin). destruct (negb (String.eqb s k)); simpl; lia.
Qed.

Section WithCalendar.
Context `{Calendar}.
Variables (h : habit) (lookup : gmap string Z) (today : date).

Local Abbreviation loop fuel cur streak :=
  (current_streak_loop fuel h lookup today cur streak).

Lemma loop_fuel_mono fuel fuel' cur streak r :
  loop fuel cur streak = Some r -> (fuel <= fuel')%nat ->
  loop fuel' cur streak = Some r.
Proof.
  revert fuel' cur streak. induction fuel as [|fuel IH]; intros fuel' cur streak;
    [discriminate|].
  destruct fuel' as [|fuel']; [lia|]. simpl. intros E Hle.
  destruct (negb (is_due_on h cur)).
  - destruct ((streak =? 0) && (60 <? today - (cur - 1))); [exact E|].
    apply IH; [exact E|lia].
  - destruct (is_done lookup (isoformat cur)); [|exact E].
    apply IH; [exact E|lia].
Qed.

(** The guard: on a day that is not due, with no streak and more than 60
    days walked, the loop returns 0. *)
Lemma loop_guard fuel cur :
  is_due_on h cur = false -> 60 < today - (cur - 1) ->
  loop (S fuel) cur 0 = Some 0.
Proof.
  intros Hnd Hfar. simpl. rewrite Hnd. simpl.
  assert ((60 <? today - (cur - 1)) = true) as -> by (apply Z.ltb_lt; exact Hfar).
  reflexivity.
Qed.

Lemma loop_no_due_day fuel cur :
  (forall d, today - 60 <= d <= today -> is_due_on h d = false) ->
  today - 60 <= cur <= today ->
  (Z.to_nat (cur - (today - 60)) < fuel)%nat ->
  loop fuel cur 0 = Some 0.
Proof.
  intros Hnone. revert cur. induction fuel as [|fuel IH]; intros cur Hcur Hfuel; [lia|].
  destruct (Z.eq_dec cur (today - 60)) as [->|Hne].
  - apply loop_guard; [apply Hnone; lia | lia].
  - simpl. rewrite (Hnone cur Hcur). simpl.
    assert ((60 <? today - (cur - 1)) = false) as -> by (apply Z.ltb_ge; lia).
    apply IH; lia.
Qed.

Lemma skip_not_due (k : nat) cur streak fuel :
  (forall j, 0 <= j < Z.of_nat k -> is_due_on h (cur - j) = false) ->
  streak <> 0 \/ today - (cur - Z.of_nat k) <= 60 ->
  loop (k + fuel) cur streak = loop fuel (cur - Z.of_nat k) streak.
Proof.
  revert cur. induction k as [|k IH]; intros cur Hnd Hsafe.
  - simpl. f_equal. lia.
  - change (S k + fuel)%nat with (S (k + fuel)). simpl.
    assert (is_due_on h cur = false) as Hcur
        by (replace cur with (cur - 0) by lia; apply Hnd; lia).
    rewrite Hcur. simpl.
    assert (((streak =? 0) && (60 <? today - (cur - 1))) = false) as ->.
    { apply andb_false_iff. destruct Hsafe as [Hs|Hs];
        [left; apply Z.eqb_neq; exact Hs | right; apply Z.ltb_ge; lia]. }
    rewrite IH.
    + f_equal. lia.
    + intros j Hj. replace (cur - 1 - j) with (cur - (j + 1)) by lia.
      apply Hnd. lia.
    + destruct Hsafe as [Hs|Hs]; [left; exact Hs | right; lia].
Qed.

Section HasDueDay.
Hypothesis has_due : exists d, is_due_on h d = true.

(** One round of the walk: up to six days that are not due, then a due
    day, which either extends the streak or ends the walk. *)
Lemma loop_round cur streak fuel :
  (7 <= fuel)%nat -> streak <> 0 \/ today - cur <= 54 ->
  exists k rest,
    0 <= k < 7 /\ (rest + 7 >= fuel)%nat /\ is_due_on h (cur - k) = true
    /\ loop fuel cur streak
       = if is_done lookup (isoformat (cur - k))
         then loop rest (cur - k - 1) (streak + 1)
         else Some streak.
Proof.
  intros Hfuel Hsafe.
  destruct (next_due h cur has_due) as (k & Hk & Hdue & Hbefore).
  exists k, (fuel - Z.to_nat k - 1)%nat.
  split; [exact Hk|]. split; [lia|]. split; [exact Hdue|].
  replace fuel with (Z.to_nat k + S (fuel - Z.to_nat k - 1))%nat at 1 by lia.
  rewrite skip_not_due.
  - rewrite Z2Nat.id by lia. simpl. rewrite Hdue. reflexivity.
  - intros j Hj. apply Hbefore. lia.
  - destruct Hsafe as [Hs|Hs]; [left; exact Hs | right; lia].
Qed.

Lemma loop_returns n :
  forall (K : list string) cur streak fuel,
    (length K <= n)%nat ->
    0 <= streak ->
    1 <= streak \/ today - cur <= 54 ->
    (forall d, cur - 7 * Z.of_nat (S n) < d <= cur ->
               is_done lookup (isoformat d) = true -> In (isoformat d) K) ->
    (forall a b, cur - 7 * Z.of_nat (S n) < a <= cur ->
                 cur - 7 * Z.of_nat (S n) < b <= cur ->
                 isoformat a = isoformat b -> a = b) ->
    (7 * S n <= fuel)%nat ->
    exists r, loop fuel cur streak = Some r
              /\ streak <= r <= streak + Z.of_nat n.
Proof.
  induction n as [|n IH]; intros K cur streak fuel HK Hs Hsafe Hdone Hinj Hfuel.
  - destruct (loop_round cur streak fuel) as (k & rest & Hk & _ & _ & E);
      [lia | destruct Hsafe; [left; lia | right; lia] |].
    rewrite E. destruct (is_done lookup (isoformat (cur - k))) eqn:Ed.
    + apply Hdone in Ed; [|lia]. destruct K; [destruct Ed | simpl in HK; lia].
    + exists streak. split; [reflexivity|lia].
  - destruct (loop_round cur streak fuel) as (k & rest & Hk & Hrest & _ & E);
      [lia | destruct Hsafe; [left; lia | right; lia] |].
    rewrite E. destruct (is_done lookup (isoformat (cur - k))) eqn:Ed.
    + assert (In (isoformat (cur - k)) K) as Hin by (apply Hdone; [lia|exact Ed]).
      destruct (IH (List.filter (fun s => negb (String.eqb s (isoformat (cur - k)))) K)
                   (cur - k - 1) (streak + 1) rest) as (r & Er & Hr).
      * pose proof (remove_key_length K _ Hin). lia.
      * lia.
      * left. lia.
      * intros d Hd Hdd. apply filter_In. split; [apply Hdone; [lia|exact Hdd]|].
        apply negb_true_iff, String.eqb_neq. intros Heq.
        apply Hinj in Heq; lia.
      * intros a b Ha Hb. apply Hinj; lia.
      * lia.
      * exists r. split; [exact Er|lia].
    + exists streak. split; [reflexivity|lia].
Qed.
End HasDueDay.

End WithCalendar.

Section Claims.
Context `{Calendar}.

Lemma current_streak_no_due_day (h : habit) (cs : list checkin) (today : date) :
  (forall d, today - 60 <= d <= today -> is_due_on h d = false) ->
  current_streak h cs today = Some 0.
Proof.
  intros Hnone. unfold current_streak, current_streak_fuel.
  apply loop_no_due_day; [exact Hnone | lia | lia].
Qed.


(** The walk ends within the bound of [current_streak_fuel] when the days it
    visits have distinct ISO texts. *)
Lemma current_streak_terminates (h : habit) (cs : list checkin) (today : date) :
  (forall a b, today - 7 * Z.of_nat (S (length cs)) < a <= today ->
               today - 7 * Z.of_nat (S (length cs)) < b <= today ->
               isoformat a = isoformat b -> a = b) ->
  exists r,
    current_streak h cs today = Some r
    /\ 0 <= r <= Z.of_nat (length cs)
    /\ forall fuel, (current_streak_fuel cs <= fuel)%nat ->
         current_streak_loop fuel h (checkin_lookup cs) today today 0 = Some r.
Proof.
  intros Hinj. unfold current_streak.
  assert (7 * S (length cs) <= current_streak_fuel cs
          /\ 61 <= current_streak_fuel cs)%nat as [Hf1 Hf2]
      by (unfold current_streak_fuel; lia).
  generalize dependent (current_streak_fuel cs). intros f0 Hf1 Hf2.
  assert (exists r, current_streak_loop f0 h (checkin_lookup cs) today today 0 = Some r
                    /\ 0 <= r <= Z.of_nat (length cs)) as (r & Er & Hr).
  { destruct (existsb (fun j => is_due_on h (today - Z.of_nat j)) (seq 0 7)) eqn:Ex.
    - apply existsb_exists in Ex as (j & _ & Hj).
      destruct (loop_returns h (checkin_lookup cs) today
                  (ex_intro _ _ Hj) (length cs) (map day cs) today 0 f0)
        as (r & Er & Hr).
      + rewrite length_map. lia.
      + lia.
      + right. lia.
      + intros d _ Hd. apply is_done_key. exact Hd.
      + exact Hinj.
      + exact Hf1.
      + exists r. split; [exact Er|lia].
    - exists 0. split; [|lia].
      apply loop_no_due_day; [|lia|lia]. intros d _.
      apply (never_due_week h today). intros j Hj.
      destruct (is_due_on h (today - j)) eqn:E; [|reflexivity].
      exfalso.
      assert (existsb (fun j => is_due_on h (today - Z.of_nat j)) (seq 0 7) = true)
        as Ex'.
      { apply existsb_exists. exists (Z.to_nat j). split; [apply in_seq; lia|].
        rewrite Z2Nat.id by lia. exact E. }
      rewrite Ex in Ex'. discriminate. }
  exists r. split; [exact Er|]. split; [exact Hr|].
  intros fuel Hfuel. apply (loop_fuel_mono h _ today f0 fuel today 0 r Er Hfuel).
Qed.
End Claims.
End CurrentStreakFacts.

Module LookupFacts.
Import Py Db Metrics UpsertFacts.

Lemma foldl_insert_other (cs : list checkin) (m : gmap string Z) k :
  ~ In k (map day cs) ->
  foldl (fun m c => <[day c := done c]> m) m cs !! k = m !! k.
Proof.
  revert m. induction cs as [|c cs IH]; intros m Hni; simpl; [reflexivity|].
  simpl in Hni. rewrite IH by tauto. apply lookup_insert_ne. tauto.
Qed.

(** With one entry per day, the lookup holds the [done] of each entry. *)
Lemma checkin_lookup_unique cs c :
  NoDup (map day cs) -> In c cs ->
  checkin_lookup cs !! day c = Some (done c).
Proof.
  unfold checkin_lookup. generalize (∅ : gmap string Z).
  induction cs as [|c0 cs IH]; intros m Hnd Hin; [destruct Hin|].
  simpl in Hnd. apply NoDup_cons in Hnd as [Hni Hnd]. simpl.
  destruct Hin as [->|Hin].
  - rewrite foldl_insert_other by (rewrite <- list_elem_of_In; exact Hni).
    apply lookup_insert_eq.
  - apply IH; assumption.
Qed.

Lemma NoDup_map_filter {A B} (f : A -> B) (p : A -> bool) l :
  NoDup (map f l) -> NoDup (map f (List.filter p l)).
Proof.
  induction l as [|x l IH]; simpl; [intros _; apply NoDup_nil_2|].
  rewrite NoDup_cons. intros [Hni Hnd]. destruct (p x); simpl; [|auto].
  apply NoDup_cons. split; [|auto].
  intros Hin. apply Hni. apply list_elem_of_In. apply list_elem_of_In in Hin.
  apply in_map_iff in Hin as (y & Hy & Hin). apply in_map_iff. exists y.
  split; [exact Hy|]. apply filter_In in Hin. tauto.
Qed.

Lemma days_of_habit_NoDup habit_id (rows : list checkin_row) :
  NoDup (map key_of rows) ->
  NoDup (map row_day (List.filter (fun r => row_habit_id r =? habit_id) rows)).
Proof.
  induction rows as [|r rows IH]; simpl; [intros _; apply NoDup_nil_2|].
  rewrite NoDup_cons. intros [Hni Hnd].
  destruct (row_habit_id r =? habit_id) eqn:E; simpl; [|auto].
  apply NoDup_cons. split; [|auto].
  intros Hin. apply Hni. apply list_elem_of_In. apply list_elem_of_In in Hin.
  apply in_map_iff in Hin as (y & Hy & Hin). apply filter_In in Hin as [Hin Ey].
  apply in_map_iff. exists y. split; [|exact Hin].
  unfold key_of. apply Z.eqb_eq in E, Ey. congruence.
Qed.

(** What the lookup built from [list_checkins_for_habit] says of a stored
    row. *)
Lemma stored_row_lookup db r :
  checkins_unique db -> In r (checkins db) ->
  checkin_lookup (list_checkins_for_habit (row_habit_id r) db) !! row_day r
  = Some (row_done r).
Proof.
  intros Hu Hin. unfold list_checkins_for_habit, connect_read. simpl.
  set (cs := map checkin_of_row
               (List.filter (fun r0 => row_habit_id r0 =? row_habit_id r) (checkins db))).
  set (sorted := merge_sort _ cs).
  assert (sorted ≡ₚ cs) as Hperm by apply merge_sort_Permutation.
  change (row_day r) with (day (checkin_of_row r)).
  change (row_done r) with (done (checkin_of_row r)).
  apply checkin_lookup_unique.
  - rewrite (Permutation_map day Hperm). unfold cs. rewrite map_map. simpl.
    apply days_of_habit_NoDup. exact Hu.
  - apply (Permutation_in _ (Permutation_sym Hperm)). unfold cs.
    apply in_map. apply filter_In. split; [exact Hin|apply Z.eqb_refl].
Qed.
End LookupFacts.

Module DashboardFacts.
Import Py Db Metrics Dashboard RangeFacts LookupFacts.

Lemma zero_counts_lookup days d : In d days -> zero_counts days !! d = Some 0.
Proof.
  unfold zero_counts. generalize (∅ : gmap Z Z).
  assert (forall (m : gmap Z Z), In d days \/ m !! d = Some 0 ->
            foldl (fun m d => <[d := 0]> m) m days !! d = Some 0) as Hgen.
  { induction days as [|x days IH]; intros m Hor; simpl.
    - destruct Hor as [[]|Hm]. exact Hm.
    - apply IH. destruct (Z.eq_dec x d) as [->|Hne].
      + right. apply lookup_insert_eq.
      + destruct Hor as [[Hx|Hin]|Hm]; [contradiction|left; exact Hin|].
        right. rewrite lookup_insert_ne by exact Hne. exact Hm. }
  intros m Hin. apply Hgen. left. exact Hin.
Qed.

Lemma incr_days_other days (m : gmap Z Z) d :
  ~ In d days -> foldl (fun m d => incr d m) m days !! d = m !! d.
Proof.
  revert m. induction days as [|x days IH]; intros m Hni; simpl; [reflexivity|].
  simpl in Hni. rewrite IH by tauto. unfold incr. apply lookup_alter_ne. tauto.
Qed.

Lemma incr_days_lookup days (m : gmap Z Z) d v :
  NoDup days -> In d days -> m !! d = Some v ->
  foldl (fun m d => incr d m) m days !! d = Some (v + 1).
Proof.
  revert m. induction days as [|x days IH]; intros m Hnd Hin Hm; [destruct Hin|].
  apply NoDup_cons in Hnd as [Hni Hnd]. simpl. destruct Hin as [->|Hin].
  - rewrite incr_days_other by (intros Hin; apply Hni, list_elem_of_In, Hin).
    unfold incr. rewrite lookup_alter_eq, Hm. reflexivity.
  - apply IH; [exact Hnd|exact Hin|].
    unfold incr. rewrite lookup_alter_ne; [exact Hm|].
    intros ->. apply Hni, list_elem_of_In, Hin.
Qed.

Lemma cumsum_from_length acc l : length (cumsum_from acc l) = length l.
Proof. revert acc. induction l as [|x l IH]; intros acc; simpl; [|rewrite IH]; reflexivity. Qed.

Lemma last_map {A B} (f : A -> B) l x :
  last l = Some x -> last (map f l) = Some (f x).
Proof.
  induction l as [|y [|z l] IH]; simpl; [discriminate| |].
  - intros E. injection E as ->. reflexivity.
  - intros E. apply IH. exact E.
Qed.

(** The rows of a frame whose due and done columns are 1 on every day. *)
Lemma frame_rows_all_done days :
  forall cum,
    length cum = length days ->
    exists rows,
      frame_rows days (map (fun _ => 1) days) (map (fun _ => 1) days) cum cum = Ok rows
      /\ map pr_day rows = days
      /\ forall r, In r rows ->
           pr_due r = 1 /\ pr_done r = 1 /\ pr_completion_rate r = 1%Q
           /\ pr_cum_done r = pr_cum_due r.
Proof.
  induction days as [|d days IH]; intros cum Hlen.
  - exists []. split; [reflexivity|]. split; [reflexivity|]. intros r [].
  - destruct cum as [|c cum]; [discriminate|]. simpl in Hlen.
    destruct (IH cum) as (rows & E & Hdays & Hrows); [lia|].
    simpl. rewrite E. simpl. eexists. split; [reflexivity|].
    split; [simpl; now rewrite Hdays|].
    intros r [<-|Hin]; [simpl; auto|apply Hrows; exact Hin].
Qed.

Section WithCalendar.
Context `{Calendar}.

Lemma count_days_all_done h lk days m1 m2 :
  (forall d, In d days ->
             is_due_on h d = true /\ is_done lk (isoformat d) = true) ->
  foldl (count_day h lk) (m1, m2) days
  = (foldl (fun m d => incr d m) m1 days, foldl (fun m d => incr d m) m2 days).
Proof.
  revert m1 m2. induction days as [|d days IH]; intros m1 m2 Hall; [reflexivity|].
  simpl. destruct (Hall d) as [-> ->]; [left; reflexivity|].
  apply IH. intros d' Hd'. apply Hall. right. exact Hd'.
Qed.

End WithCalendar.
End DashboardFacts.

(* ================================================================== *)
(** * Properties of the Gregorian calendar *)
(* ================================================================== *)

Module GregorianFacts.
Import Gregorian.

Lemma month_day_table :
  forallb (fun i => month_day_ok false (Z.of_nat i)) (seq 0 365)
  && forallb (fun i => month_day_ok true (Z.of_nat i)) (seq 0 366) = true.
Proof. vm_compute. reflexivity. Qed.

Lemma month_day_spec (leapyear : bool) n :
  0 <= n < (if leapyear then 366 else 365) ->
  month_day_ok leapyear n = true.
Proof.
  intros Hn. pose proof month_day_table as Ht. apply andb_true_iff in Ht as [Hf Ht].
  pose proof (proj1 (List.forallb_forall _ _) Hf) as Hf'.
  pose proof (proj1 (List.forallb_forall _ _) Ht) as Ht'.
  rewrite <- (Z2Nat.id n) by lia.
  destruct leapyear; [apply Ht'|apply Hf']; apply in_seq; lia.
Qed.

(** [_ord2ymd] is a right inverse of [_ymd2ord]; the years of the ordinals of
    [datetime.date] are 1 to 9999. *)
Lemma ymd2ord_ord2ymd n :
  let '(y, m, d) := ord2ymd n in
  ymd2ord y m d = n /\ (1 <= m <= 12 /\ 1 <= d <= 31)
  /\ (1 <= n <= MAXORDINAL -> 1 <= y <= 9999).
Proof.
  unfold ord2ymd.
  set (n0 := n - 1). set (n400 := n0 / 146097). set (r := n0 mod 146097).
  set (n100 := r / 36524). set (r1 := r mod 36524).
  set (n4 := r1 / 1461). set (r2 := r1 mod 1461).
  set (n1 := r2 / 365). set (r3 := r2 mod 365).
  assert (n0 = 146097 * n400 + r /\ 0 <= r < 146097) as [E0 B0]
      by (unfold n400, r; pose proof (Z.div_mod n0 146097);
          pose proof (Z.mod_pos_bound n0 146097); lia).
  assert (r = 36524 * n100 + r1 /\ 0 <= r1 < 36524) as [E1 B1]
      by (unfold n100, r1; pose proof (Z.div_mod r 36524);
          pose proof (Z.mod_pos_bound r 36524); lia).
  assert (r1 = 1461 * n4 + r2 /\ 0 <= r2 < 1461) as [E2 B2]
      by (unfold n4, r2; pose proof (Z.div_mod r1 1461);
          pose proof (Z.mod_pos_bound r1 1461); lia).
  assert (r2 = 365 * n1 + r3 /\ 0 <= r3 < 365) as [E3 B3]
      by (unfold n1, r3; pose proof (Z.div_mod r2 365);
          pose proof (Z.mod_pos_bound r2 365); lia).
  assert (n = n0 + 1) as En by (unfold n0; lia).
  clearbody n0 n400 r n100 r1 n4 r2 n1 r3.
  assert (0 <= n100 <= 4 /\ 0 <= n4 <= 24 /\ 0 <= n1 <= 4) as (Hn100 & Hn4 & Hn1) by lia.
  destruct ((n1 =? 4) || (n100 =? 4)) eqn:Especial.
  - (* the last day of a leap year *)
    split; [|unfold MAXORDINAL; lia]. unfold ymd2ord, days_before_year, is_leap, days_before_month.
    apply orb_true_iff in Especial as [E|E]; apply Z.eqb_eq in E.
    + assert (n4 <= 23) by lia.
      set (y := n400 * 400 + 1 + n100 * 100 + n4 * 4 + n1 - 1).
      assert (y = 4 * (100 * n400 + 25 * n100 + n4 + 1)) as Ey by (unfold y; lia).
      assert (y mod 4 = 0) as -> by (rewrite Ey, Z.mul_comm; apply Z_mod_mult).
      assert (y mod 100 <> 0) as Hy100 by (unfold y; Z.div_mod_to_equations; lia).
      apply Z.eqb_neq in Hy100. rewrite Hy100. simpl.
      unfold y. Z.div_mod_to_equations. lia.
    + set (y := n400 * 400 + 1 + n100 * 100 + n4 * 4 + n1 - 1).
      assert (y = 400 * (n400 + 1)) as Ey by (unfold y; lia).
      assert (y mod 4 = 0) as -> by (unfold y; Z.div_mod_to_equations; lia).
      assert (y mod 400 = 0) as -> by (rewrite Ey, Z.mul_comm; apply Z_mod_mult).
      rewrite orb_true_r. simpl.
      unfold y. Z.div_mod_to_equations. lia.
  - apply orb_false_iff in Especial as [E1' E100']. apply Z.eqb_neq in E1', E100'.
    set (leapyear := (n1 =? 3) && (negb (n4 =? 24) || (n100 =? 3))).
    set (year := n400 * 400 + 1 + n100 * 100 + n4 * 4 + n1).
    assert (is_leap year = leapyear) as Eleap.
    { unfold is_leap, leapyear.
      destruct (Z.eqb_spec n1 3) as [H1|H1], (Z.eqb_spec n4 24) as [H4|H4],
               (Z.eqb_spec n100 3) as [H100|H100]; simpl;
      destruct (Z.eqb_spec (year mod 4) 0) as [Y4|Y4],
               (Z.eqb_spec (year mod 100) 0) as [Y100|Y100],
               (Z.eqb_spec (year mod 400) 0) as [Y400|Y400]; simpl;
        try reflexivity; exfalso; unfold year in *; clear - H1 H4 H100 Y4 Y100 Y400 Hn100 Hn4 Hn1 E1' E100';
          Z.div_mod_to_equations; lia. }
    pose proof (month_day_spec leapyear r3) as Hmd.
    unfold month_day_ok in Hmd.
    destruct (month_day leapyear r3) as [m d].
    assert (0 <= r3 < (if leapyear then 366 else 365)) as Hr3 by (destruct leapyear; lia).
    specialize (Hmd Hr3).
    repeat (apply andb_true_iff in Hmd as [Hmd ?]).
    apply Z.eqb_eq in Hmd.
    split; [|unfold year, MAXORDINAL; lia].
    unfold ymd2ord. rewrite Eleap.
    assert (days_before_year year = n0 - r3) as ->;
      [|lia].
    unfold days_before_year, year. clear - E0 E1 E2 E3 B0 B1 B2 B3 Hn100 Hn4 Hn1 E1' E100'.
    Z.div_mod_to_equations. lia.
Qed.

Lemma ord2ymd_inj a b : ord2ymd a = ord2ymd b -> a = b.
Proof.
  intros E. pose proof (ymd2ord_ord2ymd a) as Ha. pose proof (ymd2ord_ord2ymd b) as Hb.
  rewrite E in Ha. destruct (ord2ymd b) as [[y m] d].
  destruct Ha as [Ha _], Hb as [Hb _]. congruence.
Qed.

Lemma digit_inj a b : digit a = digit b -> a mod 10 = b mod 10.
Proof.
  unfold digit. intros E. apply (f_equal N_of_ascii) in E.
  pose proof (Z.mod_pos_bound a 10). pose proof (Z.mod_pos_bound b 10).
  rewrite !N_ascii_embedding in E by lia. lia.
Qed.

Lemma fmt02_inj a b :
  0 <= a < 100 -> 0 <= b < 100 -> fmt02 a = fmt02 b -> a = b.
Proof.
  unfold fmt02. intros Ha Hb E. injection E as E1 E0.
  apply digit_inj in E1, E0. Z.div_mod_to_equations. lia.
Qed.

Lemma fmt04_inj a b :
  0 <= a < 10000 -> 0 <= b < 10000 -> fmt04 a = fmt04 b -> a = b.
Proof.
  unfold fmt04, fmt02. intros Ha Hb E. injection E as E3 E2 E1 E0.
  apply digit_inj in E3, E2, E1, E0. Z.div_mod_to_equations. lia.
Qed.

(** Distinct dates have distinct ISO texts. *)
Lemma date_isoformat_inj a b :
  1 <= a <= MAXORDINAL -> 1 <= b <= MAXORDINAL ->
  date_isoformat a = date_isoformat b -> a = b.
Proof.
  intros Ha Hb E. apply ord2ymd_inj.
  pose proof (ymd2ord_ord2ymd a) as Pa. pose proof (ymd2ord_ord2ymd b) as Pb.
  unfold date_isoformat in E.
  destruct (ord2ymd a) as [[y m] d], (ord2ymd b) as [[y' m'] d'].
  destruct Pa as (_ & Hmd & Hy), Pb as (_ & Hmd' & Hy').
  specialize (Hy Ha). specialize (Hy' Hb).
  unfold fmt04, fmt02 in E. simpl in E.
  injection E as Y3 Y2 Y1 Y0 M1 M0 D1 D0.
  assert (y = y') as <-
      by (apply fmt04_inj; [lia|lia|]; unfold fmt04, fmt02; congruence).
  assert (m = m') as <-
      by (apply fmt02_inj; [lia|lia|]; unfold fmt02; congruence).
  assert (d = d') as <-
      by (apply fmt02_inj; [lia|lia|]; unfold fmt02; congruence).
  reflexivity.
Qed.

End GregorianFacts.

Module TerminationFacts.
Import Py Metrics CurrentStreakFacts.


End TerminationFacts.

(* ================================================================== *)
(** * Worked examples on the Gregorian calendar *)
(* ================================================================== *)

Module Worked.
Import Py Db Metrics Dashboard Examples.
Import RangeFacts UpsertFacts StreakFacts RateFacts CurrentStreakFacts DashboardFacts.

Local Existing Instance Gregorian.calendar.

Example monday_is_monday :
  monday = 738886 /\ weekday monday = 0 /\ isoformat monday = "2024-01-01"%string.
Proof. repeat split; reflexivity. Qed.




Example current_streak_example :
  current_streak weekdays_habit week_checkins (monday + 4) = Some 2.
Proof. vm_compute. reflexivity. Qed.


Example daily_progress_frame_example :
  daily_progress_frame three_days_done [read_habit] monday (monday + 2)
  = Ok [ mk_progress_row 738886 1 1 1 1 1%Q;
         mk_progress_row 738887 1 1 2 2 1%Q;
         mk_progress_row 738888 1 1 3 3 1%Q ].
Proof. vm_compute. reflexivity. Qed.

Example success_rate_example :
  success_rate weekdays_habit week_checkins monday (monday + 6) = Ok (4 # 5)%Q.
Proof. vm_compute. reflexivity. Qed.
End Worked.

(* ================================================================== *)
(** * Further properties of the storage layer *)
(* ================================================================== *)

Module StoreFacts.
Import Py Db.

(** X1.  A setting that was set is read back, whatever the default; the
    other keys, the habits and the check-ins are left alone; a key that was
    never set reads as the default. *)
Theorem setting_round_trip (db : database) (key value : string) :
  exists db',
    set_setting key value db = Ok db'
    /\ (forall default, get_setting key default db' = value)
    /\ (forall key' default, key' <> key ->
          get_setting key' default db' = get_setting key' default db)
    /\ (forall default, get_setting key default empty_database = default)
    /\ habits db' = habits db /\ checkins db' = checkins db.
Proof.
  eexists. split; [reflexivity|].
  unfold get_setting, connect_read; simpl.
  split; [intros d; now rewrite lookup_insert_eq|].
  split; [intros k' d Hne; now rewrite lookup_insert_ne by congruence|].
  split; [intros d; now rewrite lookup_empty|].
  split; reflexivity.
Qed.

Lemma name_taken_spec nm except db :
  name_taken nm except db = true <->
  exists h, In h (habits db) /\ name h = nm
            /\ match except with Some i => id h <> i | None => True end.
Proof.
  unfold name_taken. rewrite existsb_exists. split.
  - intros (h & Hin & Hb). apply andb_true_iff in Hb as [Hn He].
    exists h. split; [exact Hin|]. split; [apply String.eqb_eq; exact Hn|].
    destruct except as [i|]; [|exact I].
    apply negb_true_iff, Z.eqb_neq in He. exact He.
  - intros (h & Hin & Hn & He). exists h. split; [exact Hin|].
    apply andb_true_iff. split; [apply String.eqb_eq; exact Hn|].
    destruct except as [i|]; [|reflexivity].
    apply negb_true_iff, Z.eqb_neq. exact He.
Qed.

Lemma name_free nm db :
  name_taken nm None db = false -> ~ In nm (map name (habits db)).
Proof.
  intros Hf Hin. apply in_map_iff in Hin as (h & Hn & Hin).
  assert (name_taken nm None db = true) as Ht
      by (apply name_taken_spec; exists h; auto).
  congruence.
Qed.

Lemma find_id_absent (hs : list habit) i :
  ~ In i (map id hs) -> List.find (fun h => id h =? i) hs = None.
Proof.
  induction hs as [|h hs IH]; simpl; [reflexivity|]. intros Hni.
  destruct (Z.eqb_spec (id h) i) as [E|E]; [tauto|]. apply IH. tauto.
Qed.

Lemma find_id_snoc (hs : list habit) h :
  ~ In (id h) (map id hs) ->
  List.find (fun h' => id h' =? id h) (hs ++ [h]) = Some h.
Proof.
  induction hs as [|h0 hs IH]; simpl; intros Hni.
  - now rewrite Z.eqb_refl.
  - destruct (Z.eqb_spec (id h0) (id h)) as [E|E]; [tauto|]. apply IH. tauto.
Qed.

Lemma create_habit_cases nm desc st cd cat db :
  (name_taken (strip nm) None db = true
   /\ create_habit nm desc st cd cat db = Raise IntegrityError)
  \/ (name_taken (strip nm) None db = false
      /\ create_habit nm desc st cd cat db =
         Ok {| habits := habits db ++
                 [ {| id := habits_seq db + 1; name := strip nm;
                      description := Some (strip desc);
                      schedule_type := Some st; custom_days := Some (strip cd);
                      created_at := cat |} ];
               checkins := checkins db; settings := settings db;
               habits_seq := habits_seq db + 1;
               checkins_seq := checkins_seq db |}).
Proof.
  unfold create_habit, connect, insert_habit. simpl.
  destruct (name_taken (strip nm) None db); [left|right]; split; reflexivity.
Qed.

Lemma create_habit_wf nm desc st cd cat db db' :
  habits_wf db -> create_habit nm desc st cd cat db = Ok db' -> habits_wf db'.
Proof.
  intros (Hn & Hi & H0 & Hb) E.
  destruct (create_habit_cases nm desc st cd cat db) as [[_ E']|[Hfree E']];
    rewrite E in E'; [discriminate|]. injection E' as ->.
  unfold habits_wf. simpl. rewrite !map_app. simpl. split; [|split; [|split]].
  - apply NoDup_app. split; [exact Hn|]. split; [|apply NoDup_singleton].
    intros x Hx Hx'. apply list_elem_of_singleton in Hx'. subst x.
    apply list_elem_of_In in Hx. exact (name_free _ _ Hfree Hx).
  - apply NoDup_app. split; [exact Hi|]. split; [|apply NoDup_singleton].
    intros x Hx Hx'. apply list_elem_of_singleton in Hx'. subst x.
    apply list_elem_of_In, in_map_iff in Hx as (h & Eh & Hin).
    specialize (Hb h Hin). lia.
  - lia.
  - intros h Hin. apply in_app_iff in Hin as [Hin|[<-|[]]].
    + specialize (Hb h Hin). lia.
    + simpl. lia.
Qed.

Lemma update_habit_cases habit_id nm desc st cd db :
  (habit_exists habit_id db && name_taken (strip nm) (Some habit_id) db = true
   /\ update_habit habit_id nm desc st cd db = Raise IntegrityError)
  \/ (habit_exists habit_id db && name_taken (strip nm) (Some habit_id) db = false
      /\ update_habit habit_id nm desc st cd db =
         Ok {| habits := map (fun h =>
                 if id h =? habit_id
                 then {| id := id h; name := strip nm;
                         description := Some (strip desc);
                         schedule_type := Some st;
                         custom_days := Some (strip cd);
                         created_at := created_at h |}
                 else h) (habits db);
               checkins := checkins db; settings := settings db;
               habits_seq := habits_seq db;
               checkins_seq := checkins_seq db |}).
Proof.
  unfold update_habit, connect, update_habit_row. simpl.
  destruct (habit_exists habit_id db && name_taken (strip nm) (Some habit_id) db);
    [left|right]; split; reflexivity.
Qed.

Lemma habit_exists_spec habit_id db :
  habit_exists habit_id db = true <-> In habit_id (map id (habits db)).
Proof.
  unfold habit_exists. rewrite existsb_exists, in_map_iff.
  split; intros (h & H1 & H2); exists h.
  - apply Z.eqb_eq in H2. auto.
  - split; [exact H2|apply Z.eqb_eq; exact H1].
Qed.

Lemma renamed_NoDup (habit_id : Z) (nm' : string) (upd : habit -> habit) hs :
  (forall h, id (upd h) = id h) ->
  (forall h, name (upd h) = if id h =? habit_id then nm' else name h) ->
  NoDup (map name hs) -> NoDup (map id hs) ->
  (forall h, In h hs -> id h <> habit_id -> name h <> nm') ->
  NoDup (map name (map upd hs)).
Proof.
  intros Hid Hname. induction hs as [|h hs IH]; simpl; intros Hn Hi Hother;
    [apply NoDup_nil_2|].
  apply NoDup_cons in Hn as [Hn1 Hn2]. apply NoDup_cons in Hi as [Hi1 Hi2].
  apply NoDup_cons. split.
  - rewrite list_elem_of_In, map_map, in_map_iff. intros (h' & Heq & Hin').
    assert (id h' <> id h) as Hdiff.
    { intros Eid. apply Hi1, list_elem_of_In, in_map_iff. exists h'.
      split; [exact Eid|exact Hin']. }
    rewrite !Hname in Heq.
    destruct (Z.eqb_spec (id h') habit_id) as [E1|E1],
             (Z.eqb_spec (id h) habit_id) as [E2|E2].
    + congruence.
    + apply (Hother h (or_introl eq_refl) E2). congruence.
    + apply (Hother h' (or_intror Hin') E1). congruence.
    + apply Hn1, list_elem_of_In, in_map_iff. exists h'.
      split; [exact Heq|exact Hin'].
  - apply IH; [exact Hn2|exact Hi2|]. intros h' Hin'. apply Hother. right. exact Hin'.
Qed.

Lemma update_habit_wf habit_id nm desc st cd db db' :
  habits_wf db -> update_habit habit_id nm desc st cd db = Ok db' -> habits_wf db'.
Proof.
  intros (Hn & Hi & H0 & Hb) E.
  destruct (update_habit_cases habit_id nm desc st cd db) as [[_ E']|[Hfree E']];
    rewrite E in E'; [discriminate|]. injection E' as ->.
  set (upd := fun h : habit =>
         if id h =? habit_id
         then {| id := id h; name := strip nm; description := Some (strip desc);
                 schedule_type := Some st; custom_days := Some (strip cd);
                 created_at := created_at h |}
         else h).
  assert (forall h, id (upd h) = id h) as Hid
      by (intros h; unfold upd; destruct (id h =? habit_id); reflexivity).
  assert (forall h, name (upd h) = if id h =? habit_id then strip nm else name h)
    as Hname by (intros h; unfold upd; destruct (id h =? habit_id); reflexivity).
  assert (map id (map upd (habits db)) = map id (habits db)) as Hids
      by (rewrite map_map; apply map_ext; exact Hid).
  unfold habits_wf. simpl. fold upd. rewrite Hids.
  split; [|split; [exact Hi|split; [exact H0|]]].
  - destruct (habit_exists habit_id db) eqn:Hex.
    + simpl in Hfree.
      apply (renamed_NoDup habit_id (strip nm)); try assumption.
      intros h Hin Hne Hnm.
      assert (name_taken (strip nm) (Some habit_id) db = true) as Ht
          by (apply name_taken_spec; exists h; auto).
      congruence.
    + assert (map upd (habits db) = habits db) as ->; [|exact Hn].
      rewrite <- (map_id (habits db)) at 2. apply map_ext_in. intros h Hin.
      unfold upd. destruct (Z.eqb_spec (id h) habit_id) as [E1|E1]; [|reflexivity].
      exfalso. assert (habit_exists habit_id db = true) as Ht
          by (apply habit_exists_spec, in_map_iff; exists h; auto).
      congruence.
  - intros h Hin. apply in_map_iff in Hin as (h0 & <- & Hin). rewrite Hid.
    apply Hb. exact Hin.
Qed.

Lemma apply_op_wf db o : habits_wf db -> habits_wf (apply_op db o).
Proof.
  intros Hwf. unfold apply_op. destruct (run_op o db) as [db'|e] eqn:E; [|exact Hwf].
  destruct o; simpl in E.
  - injection E as <-. exact Hwf.
  - eapply create_habit_wf; eassumption.
  - eapply update_habit_wf; eassumption.
  - injection E as <-. destruct Hwf as (Hn & Hi & H0 & Hb).
    unfold habits_wf. simpl. split; [|split; [|split]].
    + apply LookupFacts.NoDup_map_filter. exact Hn.
    + apply LookupFacts.NoDup_map_filter. exact Hi.
    + exact H0.
    + intros h Hin. apply filter_In in Hin as [Hin _]. apply Hb. exact Hin.
  - unfold upsert_checkin, connect, upsert_checkin_row in E. simpl in E.
    destruct (existsb _ _) in E; injection E as <-; exact Hwf.
  - injection E as <-. exact Hwf.
Qed.

Lemma run_wf ops : habits_wf (run ops).
Proof.
  unfold run.
  assert (habits_wf empty_database) as H0.
  { unfold habits_wf. simpl. split; [apply NoDup_nil_2|].
    split; [apply NoDup_nil_2|]. split; [lia|]. intros h []. }
  revert H0. generalize empty_database. induction ops as [|o ops IH]; intros db Hwf.
  - exact Hwf.
  - simpl. apply IH. apply apply_op_wf. exact Hwf.
Qed.

Lemma leb_total_on {A} (f : A -> string) :
  Total (fun a b => Is_true (String.leb (f a) (f b))).
Proof.
  intros a b. destruct (String.leb_total (f a) (f b)) as [E|E]; rewrite E; simpl; auto.
Qed.

Lemma find_id_snoc_other (hs : list habit) h i :
  id h <> i ->
  List.find (fun h' => id h' =? i) (hs ++ [h]) = List.find (fun h' => id h' =? i) hs.
Proof.
  intros Hne. induction hs as [|h0 hs IH]; simpl.
  - destruct (Z.eqb_spec (id h) i); [contradiction|reflexivity].
  - destruct (id h0 =? i); [reflexivity|exact IH].
Qed.

(** X2.  [create_habit] refuses a name that is taken, after stripping, with
    an IntegrityError; otherwise the new habit gets the next id, can be
    fetched by it with its stripped fields, and no other habit or check-in
    changes. *)
Theorem create_habit_then_get (nm desc st cd cat : string) (db : database) :
  habits_wf db ->
  (name_taken (strip nm) None db = true ->
   create_habit nm desc st cd cat db = Raise IntegrityError)
  /\ (name_taken (strip nm) None db = false ->
      exists db',
        create_habit nm desc st cd cat db = Ok db'
        /\ get_habit (habits_seq db + 1) db'
           = Some {| id := habits_seq db + 1; name := strip nm;
                     description := Some (strip desc);
                     schedule_type := Some st; custom_days := Some (strip cd);
                     created_at := cat |}
        /\ (forall i, i <> habits_seq db + 1 -> get_habit i db' = get_habit i db)
        /\ checkins db' = checkins db
        /\ habits_wf db').
Proof.
  intros Hwf.
  destruct (create_habit_cases nm desc st cd cat db) as [[Ht E]|[Hf E]].
  - split; [intros _; exact E|]. intros Hf. congruence.
  - split; [intros Ht; congruence|]. intros _.
    eexists. split; [exact E|].
    pose proof (create_habit_wf _ _ _ _ _ _ _ Hwf E) as Hwf'.
    destruct Hwf as (Hn & Hi & H0 & Hb).
    split; [|split; [|split; [reflexivity|exact Hwf']]].
    + unfold get_habit, connect_read. simpl.
      apply (find_id_snoc (habits db)
               {| id := habits_seq db + 1; name := strip nm;
                  description := Some (strip desc); schedule_type := Some st;
                  custom_days := Some (strip cd); created_at := cat |}).
      simpl. intros Hin. apply in_map_iff in Hin as (h & Eh & Hin).
      specialize (Hb h Hin). lia.
    + intros i Hi'. unfold get_habit, connect_read. simpl.
      apply find_id_snoc_other. simpl. lia.
Qed.

(** X3.  In every file the application can produce, habit names are unique,
    habit ids are unique, and no id is above the AUTOINCREMENT counter: an id
    is never given twice, also after a delete. *)
Theorem run_habits_wf (ops : list op) :
  let db := run ops in
  NoDup (map name (habits db))
  /\ NoDup (map id (habits db))
  /\ (forall h, In h (habits db) -> 1 <= id h <= habits_seq db).
Proof.
  destruct (run_wf ops) as (Hn & Hi & _ & Hb).
  repeat split; try assumption; apply Hb; assumption.
Qed.

(** X4.  [list_habits] returns the stored habits, each once, in ascending
    order of name. *)
Theorem list_habits_sorted (db : database) :
  Sorted (fun a b => Is_true (String.leb (name a) (name b))) (list_habits db)
  /\ list_habits db ≡ₚ habits db
  /\ (forall h, In h (list_habits db) <-> In h (habits db))
  /\ length (list_habits db) = length (habits db).
Proof.
  unfold list_habits, connect_read. simpl.
  pose proof (merge_sort_Permutation
                (fun a b => Is_true (String.leb (name a) (name b))) (habits db))
    as Hperm.
  split; [apply Sorted_merge_sort, leb_total_on|].
  split; [exact Hperm|]. split.
  - intros h. split; apply Permutation_in; [exact Hperm|symmetry; exact Hperm].
  - apply Permutation_length. exact Hperm.
Qed.

(** X5.  [list_checkins_for_habit] returns the check-ins of the rows of that
    habit and of no other, in ascending order of day, and with the UNIQUE
    constraint no day occurs twice. *)
Theorem list_checkins_for_habit_sorted (habit_id : Z) (db : database) :
  let rows := List.filter (fun r => row_habit_id r =? habit_id) (checkins db) in
  Sorted (fun a b => Is_true (String.leb (day a) (day b)))
         (list_checkins_for_habit habit_id db)
  /\ list_checkins_for_habit habit_id db ≡ₚ map checkin_of_row rows
  /\ (forall c, In c (list_checkins_for_habit habit_id db) <->
                exists r, In r (checkins db) /\ row_habit_id r = habit_id
                          /\ c = checkin_of_row r)
  /\ (checkins_unique db ->
      NoDup (map day (list_checkins_for_habit habit_id db))).
Proof.
  intros rows. unfold list_checkins_for_habit, connect_read. simpl. fold rows.
  pose proof (merge_sort_Permutation
                (fun a b => Is_true (String.leb (day a) (day b)))
                (map checkin_of_row rows)) as Hperm.
  split; [apply Sorted_merge_sort, leb_total_on|].
  split; [exact Hperm|]. split.
  - intros c. split.
    + intros Hin. apply (Permutation_in _ Hperm) in Hin.
      apply in_map_iff in Hin as (r & <- & Hr). apply filter_In in Hr as [Hr1 Hr2].
      exists r. split; [exact Hr1|]. split; [apply Z.eqb_eq; exact Hr2|reflexivity].
    + intros (r & Hr & Hid & ->). apply (Permutation_in _ (Permutation_sym Hperm)).
      apply in_map. apply filter_In. split; [exact Hr|apply Z.eqb_eq; exact Hid].
  - intros Hu. rewrite (Permutation_map day Hperm), map_map. simpl.
    apply LookupFacts.days_of_habit_NoDup. exact Hu.
Qed.

Lemma find_same_key_update habit_id dy dn nt (l : list checkin_row) r :
  List.find (same_key habit_id dy) l = Some r ->
  List.find (same_key habit_id dy)
    (map (fun r => if same_key habit_id dy r then update_row dn nt r else r) l)
  = Some (update_row dn nt r).
Proof.
  induction l as [|r0 l IH]; simpl; [discriminate|].
  destruct (same_key habit_id dy r0) eqn:E.
  - intros Er. injection Er as <-.
    rewrite UpsertFacts.same_key_update_row, E. reflexivity.
  - rewrite E. exact IH.
Qed.

Lemma find_other_key_update habit_id dy dn nt habit_id' dy' (l : list checkin_row) :
  (habit_id', dy') <> (habit_id, dy) ->
  List.find (same_key habit_id' dy')
    (map (fun r => if same_key habit_id dy r then update_row dn nt r else r) l)
  = List.find (same_key habit_id' dy') l.
Proof.
  intros Hne. induction l as [|r0 l IH]; simpl; [reflexivity|].
  destruct (same_key habit_id dy r0) eqn:E.
  - rewrite UpsertFacts.same_key_update_row.
    destruct (same_key habit_id' dy' r0) eqn:E'; [|exact IH].
    apply UpsertFacts.same_key_spec in E, E'. congruence.
  - destruct (same_key habit_id' dy' r0); [reflexivity|exact IH].
Qed.

Lemma find_existsb {A} (p : A -> bool) l :
  existsb p l = true -> exists x, List.find p l = Some x.
Proof.
  induction l as [|a l IH]; simpl; [discriminate|].
  destruct (p a); [eauto|exact IH].
Qed.

Lemma find_snoc_absent {A} (p : A -> bool) l x :
  existsb p l = false -> List.find p (l ++ [x]) = if p x then Some x else None.
Proof.
  induction l as [|a l IH]; simpl; [reflexivity|].
  destruct (p a); [discriminate|exact IH].
Qed.

Lemma find_snoc_other {A} (p : A -> bool) l x :
  p x = false -> List.find p (l ++ [x]) = List.find p l.
Proof.
  intros Hx. induction l as [|a l IH]; simpl; [now rewrite Hx|].
  destruct (p a); [reflexivity|exact IH].
Qed.

(** X6.  After [upsert_checkin], [get_checkin] for the pair returns a row
    with the given done flag and the stripped note; an existing row keeps its
    id and creation time, a new one gets the given creation time; the row of
    any other pair and the habits are unchanged. *)
Theorem upsert_checkin_then_get (habit_id : Z) (dy : string) (dn : bool)
  (nt cat : string) (db : database) :
  exists db' r,
    upsert_checkin habit_id dy dn nt cat db = Ok db'
    /\ get_checkin habit_id dy db' = Some r
    /\ row_habit_id r = habit_id /\ row_day r = dy
    /\ row_done r = (if dn then 1 else 0)
    /\ row_note r = Some (strip nt)
    /\ (forall r0, get_checkin habit_id dy db = Some r0 ->
          row_id r = row_id r0 /\ row_created_at r = row_created_at r0)
    /\ (get_checkin habit_id dy db = None -> row_created_at r = cat)
    /\ (forall habit_id' dy', (habit_id', dy') <> (habit_id, dy) ->
          get_checkin habit_id' dy' db' = get_checkin habit_id' dy' db)
    /\ habits db' = habits db.
Proof.
  destruct (UpsertFacts.upsert_checkin_cases habit_id dy dn nt cat db)
    as (db' & E & Hh & [[Ex Hc]|[Ex Hc]]); exists db'.
  - destruct (find_existsb _ _ Ex) as (r0 & Hr0).
    exists (update_row (if dn then 1 else 0) (strip nt) r0).
    split; [exact E|]. unfold get_checkin, connect_read. simpl. rewrite Hc.
    split; [apply find_same_key_update; exact Hr0|].
    pose proof (find_some _ _ Hr0) as [_ Hk].
    apply UpsertFacts.same_key_spec in Hk. injection Hk as Hk1 Hk2.
    split; [exact Hk1|]. split; [exact Hk2|].
    split; [reflexivity|]. split; [reflexivity|].
    split; [intros r1 Hr1; rewrite Hr0 in Hr1; injection Hr1 as <-; split; reflexivity|].
    split; [rewrite Hr0; discriminate|].
    split; [|exact Hh].
    intros h' d' Hne. apply find_other_key_update. exact Hne.
  - eexists. split; [exact E|]. unfold get_checkin, connect_read. simpl. rewrite Hc.
    assert (forall r1, List.find (same_key habit_id dy) (checkins db) = Some r1 -> False)
      as Hnone.
    { intros r1 Hr1. apply find_some in Hr1 as [Hin Hk].
      assert (existsb (same_key habit_id dy) (checkins db) = true) as Ht
          by (apply existsb_exists; eauto). congruence. }
    split.
    { rewrite find_snoc_absent by exact Ex. unfold same_key. simpl.
      rewrite Z.eqb_refl, String.eqb_refl. reflexivity. }
    simpl.
    split; [reflexivity|]. split; [reflexivity|].
    split; [reflexivity|]. split; [reflexivity|].
    split; [intros r1 Hr1; destruct (Hnone r1 Hr1)|].
    split; [reflexivity|]. split; [|exact Hh].
    intros h' d' Hne. apply find_snoc_other. unfold same_key. simpl.
    destruct (Z.eqb_spec habit_id h'), (String.eqb_spec dy d'); simpl;
      try reflexivity. congruence.
Qed.

Lemma create_habit_then_get_witness :
  exists db',
    create_habit " Walk " "" "weekdays" "" "2024-01-02T08:00:00"
      Examples.one_habit_one_checkin = Ok db'
    /\ get_habit (habits_seq Examples.one_habit_one_checkin + 1) db'
       = Some {| id := habits_seq Examples.one_habit_one_checkin + 1;
                 name := strip " Walk "; description := Some (strip "");
                 schedule_type := Some "weekdays"%string;
                 custom_days := Some (strip "");
                 created_at := "2024-01-02T08:00:00" |}
    /\ (forall i, i <> habits_seq Examples.one_habit_one_checkin + 1 ->
          get_habit i db' = get_habit i Examples.one_habit_one_checkin)
    /\ checkins db' = checkins Examples.one_habit_one_checkin
    /\ habits_wf db'.
Proof.
  exact (proj2 (create_habit_then_get " Walk " "" "weekdays" ""
                  "2024-01-02T08:00:00" Examples.one_habit_one_checkin
                  (run_wf _)) eq_refl).
Defined.

End StoreFacts.

Module UpdateFacts.
Import Py Db StoreFacts.

Lemma find_id_map (upd : habit -> habit) (hs : list habit) i :
  (forall h, id (upd h) = id h) ->
  List.find (fun h => id h =? i) (map upd hs)
  = option_map upd (List.find (fun h => id h =? i) hs).
Proof.
  intros Hid. induction hs as [|h hs IH]; simpl; [reflexivity|].
  rewrite Hid. destruct (id h =? i); [reflexivity|exact IH].
Qed.

Lemma get_habit_exists habit_id db :
  habit_exists habit_id db = true <-> exists h, get_habit habit_id db = Some h.
Proof.
  unfold get_habit, connect_read, habit_exists. simpl. split.
  - apply find_existsb.
  - intros (h & Hf). apply find_some in Hf as [Hin Hid].
    apply existsb_exists. eauto.
Qed.

(** X7.  [update_habit] on an id that is not stored changes nothing; on a
    stored id it raises IntegrityError when another habit has the stripped
    name, and otherwise replaces name, description, schedule_type and
    custom_days (stripped) while the id and the creation time stay; no other
    habit and no check-in changes. *)
Theorem update_habit_then_get (habit_id : Z) (nm desc st cd : string)
  (db : database) :
  (habit_exists habit_id db = false ->
   exists db', update_habit habit_id nm desc st cd db = Ok db'
               /\ habits db' = habits db /\ checkins db' = checkins db)
  /\ (habit_exists habit_id db = true ->
      name_taken (strip nm) (Some habit_id) db = true ->
      update_habit habit_id nm desc st cd db = Raise IntegrityError)
  /\ (forall h0,
        get_habit habit_id db = Some h0 ->
        name_taken (strip nm) (Some habit_id) db = false ->
        exists db',
          update_habit habit_id nm desc st cd db = Ok db'
          /\ get_habit habit_id db'
             = Some {| id := habit_id; name := strip nm;
                       description := Some (strip desc);
                       schedule_type := Some st; custom_days := Some (strip cd);
                       created_at := created_at h0 |}
          /\ (forall i, i <> habit_id -> get_habit i db' = get_habit i db)
          /\ checkins db' = checkins db).
Proof.
  set (upd := fun h : habit =>
         if id h =? habit_id
         then {| id := id h; name := strip nm; description := Some (strip desc);
                 schedule_type := Some st; custom_days := Some (strip cd);
                 created_at := created_at h |}
         else h).
  assert (forall h, id (upd h) = id h) as Hid
      by (intros h; unfold upd; destruct (id h =? habit_id); reflexivity).
  split; [|split].
  - intros Hex.
    destruct (update_habit_cases habit_id nm desc st cd db) as [[Ht E]|[Hf E]];
      [rewrite Hex in Ht; discriminate|].
    eexists. split; [exact E|]. simpl. split; [|reflexivity].
    rewrite <- (map_id (habits db)) at 2. apply map_ext_in. intros h Hin.
    destruct (Z.eqb_spec (id h) habit_id) as [E1|E1]; [|reflexivity].
    exfalso. assert (habit_exists habit_id db = true) as Ht
        by (apply habit_exists_spec, in_map_iff; exists h; auto).
    congruence.
  - intros Hex Ht.
    destruct (update_habit_cases habit_id nm desc st cd db) as [[_ E]|[Hf E]];
      [exact E|]. rewrite Hex, Ht in Hf. discriminate.
  - intros h0 Hget Hfree.
    destruct (update_habit_cases habit_id nm desc st cd db) as [[Ht E]|[_ E]].
    { rewrite Hfree, andb_false_r in Ht. discriminate. }
    eexists. split; [exact E|].
    unfold get_habit, connect_read in *. simpl in *. fold upd.
    split; [|split; [|reflexivity]].
    + rewrite (find_id_map upd _ _ Hid), Hget. simpl.
      apply find_some in Hget as [_ Hh0]. unfold upd. rewrite Hh0.
      apply Z.eqb_eq in Hh0. now rewrite Hh0.
    + intros i Hi. rewrite (find_id_map upd _ _ Hid).
      destruct (List.find (fun h => id h =? i) (habits db)) as [h|] eqn:Ef;
        [|reflexivity].
      simpl. apply find_some in Ef as [_ Eh]. apply Z.eqb_eq in Eh.
      unfold upd. destruct (Z.eqb_spec (id h) habit_id); [congruence|reflexivity].
Qed.

Example update_habit_example :
  match update_habit 1 " Read more " "" "custom" "0,2" Examples.one_habit_one_checkin with
  | Ok db => habits db
  | Raise _ => []
  end
  = [ {| id := 1; name := "Read more"; description := Some ""%string;
         schedule_type := Some "custom"%string;
         custom_days := Some "0,2"%string;
         created_at := "2024-01-01T08:00:00" |} ].
Proof. reflexivity. Qed.

End UpdateFacts.

(* ================================================================== *)
(** * Further properties of the metrics *)
(* ================================================================== *)

Module WeekFacts.
Import Py Metrics RangeFacts ScheduleFacts CurrentStreakFacts StreakFacts.

Lemma weekday_add d k : weekday (d + k) = (weekday d + k) mod 7.
Proof.
  unfold weekday. replace (d + k + 6) with (d + 6 + k) by lia.
  rewrite Z.add_mod_idemp_l by lia. reflexivity.
Qed.

Lemma week_range s :
  daterange s (s + 6) = [s; s + 1; s + 2; s + 3; s + 4; s + 5; s + 6].
Proof.
  unfold daterange. replace (Z.to_nat (s + 6 - s + 1)) with 7%nat by lia.
  simpl. repeat (f_equal; try lia).
Qed.

(** X8.  Every schedule repeats with the week.  A weekdays habit is due
    exactly on the days with weekday index below 5, which are 5 of any 7
    consecutive days; a habit whose schedule_type is absent, "daily" or any
    unknown text is due every day. *)
Theorem is_due_on_by_kind (h : habit) :
  (forall d, is_due_on h (d + 7) = is_due_on h d)
  /\ (schedule_type h = Some "weekdays"%string ->
      (forall d, is_due_on h d = true <-> weekday d < 5)
      /\ forall s, length (due_days_for_habit h s (s + 6)) = 5%nat)
  /\ (default "daily"%string (schedule_type h) <> "weekdays"%string ->
      default "daily"%string (schedule_type h) <> "custom"%string ->
      (forall d, is_due_on h d = true)
      /\ forall s e, due_days_for_habit h s e = daterange s e).
Proof.
  split; [|split].
  - intros d. apply is_due_on_weekday.
    replace (d + 7) with (d + 7 * 1) by lia. apply weekday_shift.
  - intros Est. split.
    + intros d. rewrite (is_due_on_weekdays h d Est). apply Z.ltb_lt.
    + intros s. unfold due_days_for_habit. rewrite week_range. simpl.
      rewrite !(is_due_on_weekdays h _ Est), !weekday_add.
      pose proof (weekday_range s) as Hw.
      assert (weekday s = 0 \/ weekday s = 1 \/ weekday s = 2 \/ weekday s = 3
              \/ weekday s = 4 \/ weekday s = 5 \/ weekday s = 6) as Hcases by lia.
      replace (is_due_on h s) with (weekday s <? 5)
        by (symmetry; apply is_due_on_weekdays; exact Est).
      destruct Hcases as [E|[E|[E|[E|[E|[E|E]]]]]]; rewrite E; reflexivity.
  - intros Hw Hc.
    assert (forall d, is_due_on h d = true) as Hall.
    { intros d. unfold is_due_on.
      destruct (String.eqb_spec (default "daily"%string (schedule_type h)) "daily");
        [reflexivity|].
      destruct (String.eqb_spec (default "daily"%string (schedule_type h)) "weekdays");
        [contradiction|].
      destruct (String.eqb_spec (default "daily"%string (schedule_type h)) "custom");
        [contradiction|reflexivity]. }
    split; [exact Hall|]. intros s e. unfold due_days_for_habit.
    induction (daterange s e) as [|d l IH]; simpl; [reflexivity|].
    rewrite Hall, IH. reflexivity.
Qed.
End WeekFacts.

Module LookupOrderFacts.
Import Py Metrics.

Lemma checkin_lookup_snoc cs c :
  checkin_lookup (cs ++ [c]) = <[day c := done c]> (checkin_lookup cs).
Proof. unfold checkin_lookup. rewrite foldl_app. reflexivity. Qed.

(** X9.  The lookup built from a check-in sequence maps a day to the done
    value of the last entry of the sequence with that day, and has no entry
    for a day that does not occur; so a day counts as done exactly when its
    last entry has done = 1. *)
Theorem checkin_lookup_last_wins (cs : list checkin) (k : string) :
  checkin_lookup cs !! k
  = option_map done (last (List.filter (fun c => String.eqb (day c) k) cs))
  /\ (~ In k (map day cs) -> is_done (checkin_lookup cs) k = false)
  /\ (is_done (checkin_lookup cs) k = true <->
      exists c, last (List.filter (fun c => String.eqb (day c) k) cs) = Some c
                /\ done c = 1).
Proof.
  assert (checkin_lookup cs !! k
          = option_map done (last (List.filter (fun c => String.eqb (day c) k) cs)))
    as Hlast.
  { induction cs as [|c cs IH] using rev_ind; [apply lookup_empty|].
    rewrite checkin_lookup_snoc, List.filter_app. simpl.
    destruct (String.eqb_spec (day c) k) as [E|E].
    - rewrite last_snoc. simpl. rewrite E. apply lookup_insert_eq.
    - rewrite app_nil_r, lookup_insert_ne by exact E. exact IH. }
  split; [exact Hlast|]. split.
  - intros Hni. unfold is_done. rewrite Hlast.
    destruct (last _) as [c|] eqn:El; [|reflexivity].
    exfalso. apply Hni. apply last_Some_elem_of, list_elem_of_In, filter_In in El.
    destruct El as [Hin Hk]. apply String.eqb_eq in Hk. subst k.
    apply in_map. exact Hin.
  - unfold is_done. rewrite Hlast. destruct (last _) as [c|]; simpl.
    + rewrite Z.eqb_eq. split; [intros E; exists c; auto|].
      intros (c' & Ec & Hd). congruence.
    + split; [discriminate|]. intros (c' & Ec & _). discriminate.
Qed.
End LookupOrderFacts.

Module StreakValueFacts.
Import Py Metrics RangeFacts ScheduleFacts CurrentStreakFacts StreakFacts Spec.

Lemma due_days_snoc h s e :
  s <= e + 1 ->
  due_days_for_habit h s (e + 1)
  = due_days_for_habit h s e ++ (if is_due_on h (e + 1) then [e + 1] else []).
Proof.
  intros Hle. unfold due_days_for_habit.
  rewrite daterange_snoc by exact Hle. rewrite List.filter_app. reflexivity.
Qed.

Section WithCalendar.
Context `{Calendar}.
Variables (h : habit) (lookup : gmap string Z) (today : date).

(** The walk from [cur] down to a due day [D] that is not done, all the due
    days in between being done: the streak grows by the number of those. *)
Lemma loop_down_to (D : date) :
  is_due_on h D = true ->
  is_done lookup (isoformat D) = false ->
  forall fuel cur streak,
    D <= cur <= today ->
    (forall d, D < d <= cur -> is_due_on h d = true ->
               is_done lookup (isoformat d) = true) ->
    0 <= streak ->
    1 <= streak \/ (forall d, cur < d <= today -> is_due_on h d = false) ->
    cur - D < Z.of_nat fuel ->
    current_streak_loop fuel h lookup today cur streak
    = Some (streak + Z.of_nat (length (due_days_for_habit h (D + 1) cur))).
Proof.
  intros HD HnD. induction fuel as [|fuel IH]; intros cur streak Hcur Hdone Hs Hinv Hfuel;
    [lia|].
  simpl. destruct (is_due_on h cur) eqn:Edue; simpl.
  - destruct (Z.eq_dec cur D) as [->|Hne].
    + rewrite HnD. unfold due_days_for_habit. rewrite daterange_empty by lia.
      simpl. f_equal. lia.
    + rewrite (Hdone cur) by (lia || exact Edue).
      rewrite IH; [|lia| |lia|left; lia|lia].
      * replace cur with (cur - 1 + 1) at 2 by lia.
        rewrite due_days_snoc by lia. replace (cur - 1 + 1) with cur by lia.
        rewrite Edue, length_app. simpl. f_equal. lia.
      * intros d Hd. apply Hdone. lia.
  - assert (cur <> D) as Hne by (intros ->; congruence).
    assert (((streak =? 0) && (60 <? today - (cur - 1))) = false) as ->.
    { apply andb_false_iff. destruct Hinv as [Hpos|Hnone].
      - left. apply Z.eqb_neq. lia.
      - right. apply Z.ltb_ge.
        destruct (next_due h today (ex_intro _ D HD)) as (k & Hk & Hkdue & _).
        destruct (Z_lt_le_dec cur (today - k)) as [Hlt|Hge]; [|lia].
        rewrite Hnone in Hkdue by lia. discriminate. }
    rewrite IH; [|lia| |lia| |lia].
    + replace cur with (cur - 1 + 1) at 2 by lia.
      rewrite due_days_snoc by lia. replace (cur - 1 + 1) with cur by lia.
      rewrite Edue, app_nil_r. reflexivity.
    + intros d Hd. apply Hdone. lia.
    + destruct Hinv as [Hpos|Hnone]; [left; exact Hpos|right].
      intros d Hd. destruct (Z.eq_dec d cur) as [->|Hd']; [exact Edue|].
      apply Hnone. lia.
Qed.
End WithCalendar.

Section Values.
Context `{Calendar}.

(** The value of [current_streak] when the walk ends on the due day [D]. *)
Lemma current_streak_value (h : habit) (cs : list checkin) (today D : date) :
  (forall a b, today - 7 * Z.of_nat (S (length cs)) < a <= today ->
               today - 7 * Z.of_nat (S (length cs)) < b <= today ->
               isoformat a = isoformat b -> a = b) ->
  D <= today ->
  is_due_on h D = true ->
  is_done (checkin_lookup cs) (isoformat D) = false ->
  (forall d, D < d <= today -> is_due_on h d = true ->
             is_done (checkin_lookup cs) (isoformat d) = true) ->
  current_streak h cs today
  = Some (Z.of_nat (length (due_days_for_habit h (D + 1) today))).
Proof.
  intros Hinj HD Hdue Hmiss Hdone.
  destruct (current_streak_terminates h cs today Hinj) as (r & Er & _ & Hfuel).
  rewrite Er. f_equal.
  pose (fuel := (current_streak_fuel cs + Z.to_nat (today - D + 1))%nat).
  specialize (Hfuel fuel ltac:(unfold fuel; lia)).
  rewrite (loop_down_to h (checkin_lookup cs) today D Hdue Hmiss fuel today 0) in Hfuel.
  - injection Hfuel as <-. lia.
  - lia.
  - exact Hdone.
  - lia.
  - right. intros d Hd. lia.
  - unfold fuel. lia.
Qed.

Lemma daterange_app s m e :
  s <= m + 1 -> m <= e -> daterange s e = daterange s m ++ daterange (m + 1) e.
Proof.
  intros Hs Hm. remember (Z.to_nat (e - m)) as n eqn:En.
  revert e Hm En. induction n as [|n IH]; intros e Hm En.
  - assert (e = m) as -> by lia. rewrite (daterange_empty (m + 1) m) by lia.
    now rewrite app_nil_r.
  - replace e with (e - 1 + 1) by lia.
    rewrite (daterange_snoc s (e - 1)) by lia.
    rewrite (daterange_snoc (m + 1) (e - 1)) by lia.
    rewrite (IH (e - 1)) by lia. now rewrite app_assoc.
Qed.

Lemma map_all_true {A} (f : A -> bool) l :
  (forall x, In x l -> f x = true) -> map f l = repeat true (length l).
Proof.
  induction l as [|x l IH]; intros Hall; simpl; [reflexivity|].
  rewrite Hall by (left; reflexivity). rewrite IH; [reflexivity|].
  intros y Hy. apply Hall. right. exact Hy.
Qed.

(** X10.  When, walking back from [today], every due day after the day [D]
    has a done check-in and [D] itself is due and not done, the current
    streak is the number of due days after [D] up to [today]; for a habit
    that is due every day this is [today - D]. *)
Theorem current_streak_counts (h : habit) (cs : list checkin) (today D : date) :
  (forall a b, today - 7 * Z.of_nat (S (length cs)) < a <= today ->
               today - 7 * Z.of_nat (S (length cs)) < b <= today ->
               isoformat a = isoformat b -> a = b) ->
  D <= today ->
  is_due_on h D = true ->
  is_done (checkin_lookup cs) (isoformat D) = false ->
  (forall d, D < d <= today -> is_due_on h d = true ->
             is_done (checkin_lookup cs) (isoformat d) = true) ->
  current_streak h cs today
  = Some (Z.of_nat (length (due_days_for_habit h (D + 1) today)))
  /\ ((forall d, is_due_on h d = true) -> current_streak h cs today = Some (today - D)).
Proof.
  intros Hinj HD Hdue Hmiss Hdone.
  pose proof (current_streak_value h cs today D Hinj HD Hdue Hmiss Hdone) as E.
  split; [exact E|]. intros Hall. rewrite E. f_equal.
  unfold due_days_for_habit.
  assert (List.filter (is_due_on h) (daterange (D + 1) today) = daterange (D + 1) today)
    as ->.
  { induction (daterange (D + 1) today) as [|d l IH]; simpl; [reflexivity|].
    rewrite Hall, IH. reflexivity. }
  unfold daterange. rewrite daterange_from_length. lia.
Qed.

End Values.
End StreakValueFacts.

Module WorkedStreaks.
Import Py Metrics Examples StreakValueFacts.

Local Existing Instance Gregorian.calendar.

Lemma week_texts_distinct (cs : list checkin) :
  7 * Z.of_nat (S (length cs)) <= monday + 6 ->
  forall a b,
    monday + 6 - 7 * Z.of_nat (S (length cs)) < a <= monday + 6 ->
    monday + 6 - 7 * Z.of_nat (S (length cs)) < b <= monday + 6 ->
    isoformat a = isoformat b -> a = b.
Proof.
  intros Hlen a b Ha Hb. apply GregorianFacts.date_isoformat_inj;
    change monday with 738886 in *; unfold Gregorian.MAXORDINAL; lia.
Qed.

Lemma five_days_all_done d :
  monday + 1 < d <= monday + 6 ->
  is_done (checkin_lookup five_days_done) (isoformat d) = true.
Proof.
  intros Hd. change monday with 738886 in Hd.
  assert (d = 738888 \/ d = 738889 \/ d = 738890 \/ d = 738891 \/ d = 738892)
    as Hcases by lia.
  destruct Hcases as [-> | [-> | [-> | [-> | ->]]]]; vm_compute; reflexivity.
Qed.

Lemma current_streak_counts_witness :
  current_streak read_habit five_days_done (monday + 6) = Some 5.
Proof.
  apply (proj2 (current_streak_counts read_habit five_days_done
                  (monday + 6) (monday + 1)
                  (week_texts_distinct five_days_done ltac:(vm_compute; discriminate))
                  ltac:(vm_compute; discriminate)
                  eq_refl ltac:(vm_compute; reflexivity)
                  (fun d Hd _ => five_days_all_done d Hd))).
  intros d. reflexivity.
Defined.

End WorkedStreaks.

Module RunFacts.
Import Py Metrics RangeFacts StreakFacts StreakValueFacts Spec.

Lemma leading_run_length l : (leading_run l <= length l)%nat.
Proof. induction l as [|[] l IH]; simpl; lia. Qed.

Lemma longest_run_length l : (longest_run l <= length l)%nat.
Proof.
  induction l as [|b l IH]; [simpl; lia|].
  pose proof (leading_run_length (b :: l)). cbn [longest_run length] in *. lia.
Qed.

Lemma longest_run_all l :
  longest_run l = length l <-> forall b, In b l -> b = true.
Proof.
  split.
  - intros E. destruct (longest_run_attained l) as (a & b & Hl).
    rewrite E in Hl. apply (f_equal (@length bool)) in Hl as Hlen.
    rewrite !length_app, repeat_length in Hlen.
    destruct a; [|simpl in Hlen; lia]. destruct b; [|simpl in Hlen; lia].
    simpl in Hl. rewrite app_nil_r in Hl. rewrite Hl. intros x Hx.
    apply repeat_spec in Hx. exact Hx.
  - intros Hall. pose proof (longest_run_length l) as Hle.
    assert (length l <= leading_run l)%nat as Hge.
    { clear Hle. induction l as [|x l IH]; simpl; [lia|].
      rewrite (Hall x (or_introl eq_refl)).
      assert (length l <= leading_run l)%nat
        by (apply IH; intros y Hy; apply Hall; right; exact Hy). lia. }
    pose proof (leading_le_longest l). lia.
Qed.

Lemma longest_run_none l :
  longest_run l = 0%nat <-> forall b, In b l -> b = false.
Proof.
  split.
  - intros E b Hin. destruct b; [|reflexivity]. exfalso.
    apply in_split in Hin as (l1 & l2 & ->).
    pose proof (longest_run_upper l1 1 l2) as Hup. simpl in Hup.
    simpl in E. lia.
  - intros Hnone. induction l as [|x l IH]; [reflexivity|].
    cbn [longest_run]. rewrite IH by (intros y Hy; apply Hnone; right; exact Hy).
    rewrite (Hnone x (or_introl eq_refl)). reflexivity.
Qed.

Lemma longest_run_mono a l b :
  (longest_run l <= longest_run (a ++ l ++ b))%nat.
Proof.
  destruct (longest_run_attained l) as (a0 & b0 & Hl).
  rewrite Hl at 2.
  replace (a ++ (a0 ++ repeat true (longest_run l) ++ b0) ++ b)
    with ((a ++ a0) ++ repeat true (longest_run l) ++ (b0 ++ b))
    by (rewrite <- !app_assoc; reflexivity).
  apply longest_run_upper.
Qed.

Section WithCalendar.
Context `{Calendar}.


Lemma filter_length_all {A} (f : A -> bool) l :
  length (List.filter f l) = length l <-> forall x, In x l -> f x = true.
Proof.
  induction l as [|x l IH]; simpl; [tauto|].
  pose proof (List.filter_length_le f l) as Hle.
  destruct (f x) eqn:E; simpl.
  - split.
    + intros Hl y [<-|Hy]; [exact E|]. apply IH; [lia|exact Hy].
    + intros Hall. f_equal. apply IH. intros y Hy. apply Hall. right. exact Hy.
  - split; [lia|]. intros Hall. specialize (Hall x (or_introl eq_refl)). congruence.
Qed.

Lemma filter_length_none {A} (f : A -> bool) l :
  length (List.filter f l) = 0%nat <-> forall x, In x l -> f x = false.
Proof.
  induction l as [|x l IH]; simpl; [tauto|].
  destruct (f x) eqn:E; simpl.
  - split; [lia|]. intros Hall. specialize (Hall x (or_introl eq_refl)). congruence.
  - rewrite IH. split.
    + intros Hall y [<-|Hy]; [exact E|apply Hall, Hy].
    + intros Hall y Hy. apply Hall. right. exact Hy.
Qed.

End WithCalendar.
End RunFacts.

Module GridFacts.
Import Py Metrics RangeFacts ScheduleFacts HeatmapFacts WeekFacts.

Section WithCalendar.
Context `{Calendar}.

End WithCalendar.
End GridFacts.

(* ================================================================== *)
(** * Properties of the pages *)
(* ================================================================== *)

Module ParserFacts.
Import Py Metrics HabitsPage ScheduleFacts.

Lemma append_token_elem out p n :
  In n (append_token out p) <->
  In n out \/ (strip p <> ""%string /\ int (strip p) = Ok n).
Proof.
  unfold append_token. destruct (String.eqb_spec (strip p) "") as [E|E].
  - rewrite E. intuition congruence.
  - destruct (int (strip p)) as [m|e].
    + rewrite in_app_iff. simpl. split.
      * intros [Hin|[<-|[]]]; [left; exact Hin|right; split; [exact E|reflexivity]].
      * intros [Hin|[_ Hm]]; [left; exact Hin|right; left; congruence].
    + split; [intros Hin; left; exact Hin|]. intros [Hin|[_ Hm]]; [exact Hin|discriminate].
Qed.

Lemma foldl_append_token_elem tokens out n :
  In n (foldl append_token out tokens) <->
  In n out \/ exists p, In p tokens /\ strip p <> ""%string /\ int (strip p) = Ok n.
Proof.
  revert out. induction tokens as [|t ts IH]; intros out; simpl.
  - split; [intros Hin; left; exact Hin|]. intros [Hin|(p & [] & _)]; exact Hin.
  - rewrite IH, append_token_elem. split.
    + intros [[Hin|Ht]|(p & Hp & Hq)].
      * left; exact Hin.
      * right; exists t; split; [left; reflexivity|exact Ht].
      * right; exists p; split; [right; exact Hp|exact Hq].
    + intros [Hin|(p & [->|Hp] & Hq)].
      * left; left; exact Hin.
      * left; right; exact Hq.
      * right; exists p; split; [exact Hp|exact Hq].
Qed.

Lemma Z_le_total : Total Z.le.
Proof. intros x y. lia. Qed.

(** X15.  The parser of the Habits page and the parser of the schedule read
    the same text alike: [string_to_days] returns, without repetition and in
    ascending order, exactly the numbers of [parse_custom_days] that are
    weekday indices; so a custom habit is due on a day exactly when the
    weekday of the day is in the list the form shows. *)
Theorem string_to_days_parse_custom_days (s : option string) :
  (forall n, In n (string_to_days s) <->
             n ∈ parse_custom_days s /\ 0 <= n <= 6)
  /\ NoDup (string_to_days s)
  /\ Sorted Z.le (string_to_days s)
  /\ (forall h d, schedule_type h = Some "custom"%string ->
        custom_days h = s ->
        (is_due_on h d = true <-> In (weekday d) (string_to_days s))).
Proof.
  assert (forall n, In n (string_to_days s) <->
                    n ∈ parse_custom_days s /\ 0 <= n <= 6) as Hrel.
  { intros n. rewrite parse_custom_days_elem. unfold string_to_days.
    destruct (String.eqb_spec (strip (default EmptyString s)) "") as [E|E].
    - rewrite E. simpl. split; [intros []|].
      intros [(p & [<-|[]] & Hp & _) _]. apply Hp. reflexivity.
    - rewrite <- list_elem_of_In, merge_sort_Permutation, elem_of_elements,
        elem_of_list_to_set, list_elem_of_In, filter_In, foldl_append_token_elem.
      simpl. split.
      + intros [[[]|Hp] Hr]. split; [exact Hp|lia].
      + intros [Hp Hr]. split; [right; exact Hp|lia]. }
  split; [exact Hrel|]. split; [|split].
  - unfold string_to_days. destruct (String.eqb _ _); [apply NoDup_nil_2|].
    rewrite merge_sort_Permutation. apply NoDup_elements.
  - unfold string_to_days. destruct (String.eqb _ _); [constructor|].
    apply Sorted_merge_sort, Z_le_total.
  - intros h d Est <-. rewrite (is_due_on_custom h d Est), bool_decide_eq_true, Hrel.
    pose proof (weekday_range d). tauto.
Qed.
End ParserFacts.

Module FrameFacts.
Import Py Db Metrics Dashboard Spec RangeFacts DashboardFacts.

Lemma cumsum_from_lookup acc l i :
  (i < length l)%nat ->
  nth i (cumsum_from acc l) 0 = acc + total (firstn (S i) l).
Proof.
  revert acc i. induction l as [|x l IH]; intros acc i Hi; simpl in Hi; [lia|].
  destruct i as [|i].
  - simpl. unfold total. simpl. lia.
  - change (nth (S i) (cumsum_from acc (x :: l)) 0)
      with (nth i (cumsum_from (acc + x) l) 0).
    rewrite IH by lia. change (firstn (S (S i)) (x :: l)) with (x :: firstn (S i) l).
    unfold total. simpl. lia.
Qed.

Lemma completion_rate_cases due done :
  0 <= done <= due ->
  exists q, completion_rate due done = Ok q
    /\ (due = 0 -> q = 0%Q)
    /\ (due <> 0 -> q = (inject_Z done / inject_Z due)%Q)
    /\ (0 <= q <= 1)%Q.
Proof.
  intros Hb. unfold completion_rate. destruct (Z.eqb_spec due 0) as [->|Hne].
  - exists 0%Q. split; [reflexivity|]. split; [reflexivity|]. split; [lia|].
    split; unfold Qle; simpl; lia.
  - unfold truediv. destruct (Z.eqb_spec due 0) as [|_]; [contradiction|].
    eexists. split; [reflexivity|]. split; [contradiction|]. split; [reflexivity|].
    assert (0 < due) as Hpos by lia.
    split.
    + apply Qle_shift_div_l; [unfold Qlt; simpl; lia|].
      unfold Qle; simpl; lia.
    + apply Qle_shift_div_r; [unfold Qlt; simpl; lia|].
      unfold Qle; simpl; lia.
Qed.

Lemma frame_rows_columns days : forall due done cd cn,
  length due = length days -> length done = length days ->
  length cd = length days -> length cn = length days ->
  Forall2 (fun u n => 0 <= n <= u) due done ->
  exists rows,
    frame_rows days due done cd cn = Ok rows
    /\ map pr_day rows = days /\ map pr_due rows = due
    /\ map pr_done rows = done /\ map pr_cum_due rows = cd
    /\ map pr_cum_done rows = cn
    /\ forall r, In r rows ->
         (pr_due r = 0 -> pr_completion_rate r = 0%Q)
         /\ (pr_due r <> 0 ->
             pr_completion_rate r = (inject_Z (pr_done r) / inject_Z (pr_due r))%Q)
         /\ (0 <= pr_completion_rate r <= 1)%Q.
Proof.
  induction days as [|d days IH]; intros due done cd cn H1 H2 H3 H4 HF.
  - destruct due, done, cd, cn; try discriminate.
    exists []. simpl. repeat (split; [reflexivity|]). intros r [].
  - destruct due as [|u due], done as [|n done], cd as [|cu cd], cn as [|cn0 cn];
      try discriminate.
    simpl in H1, H2, H3, H4. apply Forall2_cons in HF as [Hb HF].
    destruct (IH due done cd cn) as (rows & E & Hd & Hu & Hn & Hcu & Hcn & Hr);
      [lia|lia|lia|lia|exact HF|].
    destruct (completion_rate_cases u n Hb) as (q & Eq & Hq0 & Hq1 & Hq).
    simpl. rewrite Eq. simpl. rewrite E. simpl. eexists. split; [reflexivity|].
    simpl. rewrite Hd, Hu, Hn, Hcu, Hcn. repeat (split; [reflexivity|]).
    intros r [<-|Hin]; [simpl; auto|apply Hr; exact Hin].
Qed.

Section WithCalendar.
Context `{Calendar}.

Lemma count_day_other h lk days d : forall m1 m2,
  ~ In d days ->
  (foldl (count_day h lk) (m1, m2) days).1 !! d = m1 !! d
  /\ (foldl (count_day h lk) (m1, m2) days).2 !! d = m2 !! d.
Proof.
  induction days as [|x days IH]; intros m1 m2 Hni; [split; reflexivity|].
  simpl in Hni. assert (x <> d) as Hne by tauto. assert (~ In d days) as Hni' by tauto.
  simpl. unfold incr.
  destruct (is_due_on h x); [destruct (is_done lk (isoformat x))|];
    destruct (IH (alter (fun n => n + 1) x m1) (alter (fun n => n + 1) x m2) Hni') as [A1 A2];
    destruct (IH (alter (fun n => n + 1) x m1) m2 Hni') as [B1 B2];
    destruct (IH m1 m2 Hni') as [C1 C2];
    rewrite ?lookup_alter_ne in * by exact Hne; split; assumption.
Qed.

Lemma count_day_lookup h lk days d : forall m1 m2 v1 v2,
  NoDup days -> In d days -> m1 !! d = Some v1 -> m2 !! d = Some v2 ->
  (foldl (count_day h lk) (m1, m2) days).1 !! d = Some (v1 + if is_due_on h d then 1 else 0)
  /\ (foldl (count_day h lk) (m1, m2) days).2 !! d = Some (v2 + if is_due_on h d && is_done lk (isoformat d) then 1 else 0).
Proof.
  induction days as [|x days IH]; intros m1 m2 v1 v2 Hnd Hin Hm1 Hm2; [destruct Hin|].
  apply NoDup_cons in Hnd as [Hni Hnd].
  destruct (Z.eq_dec x d) as [->|Hne].
  - assert (~ In d days) as Hni' by (intros Hd; apply Hni, list_elem_of_In, Hd).
    simpl. unfold incr.
    destruct (is_due_on h d); [destruct (is_done lk (isoformat d))|]; simpl;
      match goal with
      | |- context [foldl _ (?a, ?b) days] =>
          destruct (count_day_other h lk days d a b Hni') as [-> ->]
      end;
      rewrite ?lookup_alter_eq, ?Hm1, ?Hm2; simpl; split; f_equal; lia.
  - destruct Hin as [Hx|Hin]; [contradiction|].
    simpl. unfold incr.
    destruct (is_due_on h x); [destruct (is_done lk (isoformat x))|];
      apply IH; try assumption; rewrite ?lookup_alter_ne by exact Hne; assumption.
Qed.

Lemma count_habit_lookup db days d : forall hs m1 m2 v1 v2,
  NoDup days -> In d days -> m1 !! d = Some v1 -> m2 !! d = Some v2 ->
  (foldl (count_habit db days) (m1, m2) hs).1 !! d
    = Some (v1 + due_count hs d)
  /\ (foldl (count_habit db days) (m1, m2) hs).2 !! d
    = Some (v2 + done_count db hs d).
Proof.
  induction hs as [|h hs IH]; intros m1 m2 v1 v2 Hnd Hin Hm1 Hm2.
  - simpl. unfold due_count, done_count. simpl. rewrite !Z.add_0_r. auto.
  - simpl. unfold count_habit at 2 4. unfold load_checkins_for_habit.
    set (lk := checkin_lookup (list_checkins_for_habit (id h) db)).
    destruct (count_day_lookup h lk days d m1 m2 v1 v2 Hnd Hin Hm1 Hm2) as [E1 E2].
    destruct (foldl (count_day h lk) (m1, m2) days) as [a b]. simpl in E1, E2.
    destruct (IH a b _ _ Hnd Hin E1 E2) as [-> ->].
    unfold due_count, done_count. simpl. fold lk.
    destruct (is_due_on h d); [destruct (is_done lk (isoformat d))|]; simpl;
      split; f_equal; lia.
Qed.

Lemma counts_bounds db hs d :
  0 <= done_count db hs d <= due_count hs d
  /\ due_count hs d <= Z.of_nat (length hs).
Proof.
  unfold done_count, due_count. induction hs as [|h hs IH]; simpl; [lia|].
  destruct (is_due_on h d); simpl;
    [destruct (is_done _ _); simpl|]; lia.
Qed.


Lemma map_eq_pointwise {A B C} (f : A -> B) (g : C -> B) (k : A -> C) l :
  map f l = map g (map k l) -> forall x, In x l -> f x = g (k x).
Proof.
  induction l as [|y l IH]; intros E x Hin; [destruct Hin|].
  simpl in E. injection E as E1 E2. destruct Hin as [<-|Hin]; [exact E1|].
  apply IH; assumption.
Qed.


End WithCalendar.
End FrameFacts.

(* ================================================================== *)
(** * Numbers as text, and the custom days of the form *)
(* ================================================================== *)

Module TextFacts.
Import Py.

Lemma rev_app_rev_app s : forall a b,
  String.rev_app (String.rev_app s a) b = String.rev_app a (s ++ b)%string.
Proof.
  induction s as [|c s IH]; intros a b; simpl; [reflexivity|].
  rewrite IH. reflexivity.
Qed.

Lemma append_empty_r s : (s ++ "")%string = s.
Proof.
  induction s as [|c s IH]; [reflexivity|].
  change (String c (s ++ "") = String c s)%string. f_equal. exact IH.
Qed.

Lemma rev_involutive s : String.rev (String.rev s) = s.
Proof.
  unfold String.rev. rewrite rev_app_rev_app. exact (append_empty_r s).
Qed.

Lemma rev_app_chars (P : ascii -> Prop) s : forall a,
  Forall P (list_ascii_of_string s) -> Forall P (list_ascii_of_string a) ->
  Forall P (list_ascii_of_string (String.rev_app s a)).
Proof.
  induction s as [|c s IH]; intros a Hs Ha; simpl; [exact Ha|].
  simpl in Hs. apply Forall_cons in Hs as [Hc Hs].
  apply IH; [exact Hs|]. simpl. apply Forall_cons. split; assumption.
Qed.

Lemma lstrip_no_space s :
  Forall (fun c => isspace c = false) (list_ascii_of_string s) -> lstrip s = s.
Proof.
  destruct s as [|c s]; simpl; [reflexivity|].
  intros Hs. apply Forall_cons in Hs as [-> _]. reflexivity.
Qed.

(** [strip] leaves a string without white space alone. *)
Lemma strip_no_space s :
  Forall (fun c => isspace c = false) (list_ascii_of_string s) -> strip s = s.
Proof.
  intros Hs. unfold strip, rstrip. rewrite (lstrip_no_space s Hs).
  rewrite lstrip_no_space; [apply rev_involutive|].
  unfold String.rev. apply rev_app_chars; [exact Hs|constructor].
Qed.

Lemma chars_app a b : list_ascii_of_string (a ++ b) = list_ascii_of_string a ++ list_ascii_of_string b.
Proof.
  induction a as [|c a IH]; [reflexivity|].
  change (c :: list_ascii_of_string (a ++ b)
          = c :: (list_ascii_of_string a ++ list_ascii_of_string b)).
  f_equal. exact IH.
Qed.

Lemma split_nonempty sep s : split sep s <> [].
Proof.
  destruct s as [|c s]; simpl; [discriminate|].
  destruct (Ascii.eqb c sep); [discriminate|].
  destruct (split sep s); discriminate.
Qed.

Lemma split_no_sep sep s :
  Forall (fun c => c <> sep) (list_ascii_of_string s) -> split sep s = [s].
Proof.
  induction s as [|c s IH]; simpl; [reflexivity|].
  intros Hs. apply Forall_cons in Hs as [Hc Hs].
  destruct (Ascii.eqb_spec c sep) as [E|_]; [contradiction|].
  rewrite (IH Hs). reflexivity.
Qed.

Lemma split_app sep s r :
  Forall (fun c => c <> sep) (list_ascii_of_string s) ->
  split sep (s ++ String sep r) = s :: split sep r.
Proof.
  induction s as [|c s IH]; simpl.
  - intros _. rewrite Ascii.eqb_refl. reflexivity.
  - intros Hs. apply Forall_cons in Hs as [Hc Hs].
    destruct (Ascii.eqb_spec c sep) as [E|_]; [contradiction|].
    rewrite (IH Hs). reflexivity.
Qed.

(** [sep.join(l).split(sep)] is [l], for a list that is not empty and whose
    strings are free of [sep]. *)
Lemma split_concat sep l :
  l <> [] ->
  Forall (fun s => Forall (fun c => c <> sep) (list_ascii_of_string s)) l ->
  split sep (String.concat (String sep "") l) = l.
Proof.
  induction l as [|x l IH]; intros Hne Hl; [contradiction|].
  apply Forall_cons in Hl as [Hx Hl].
  destruct l as [|y l].
  - simpl. apply split_no_sep. exact Hx.
  - change (String.concat (String sep "") (x :: y :: l))
      with (x ++ String sep (String.concat (String sep "") (y :: l)))%string.
    rewrite split_app by exact Hx. rewrite IH; [reflexivity|discriminate|exact Hl].
Qed.

Lemma concat_chars (P : ascii -> Prop) sep l :
  P sep -> Forall (fun s => Forall P (list_ascii_of_string s)) l ->
  Forall P (list_ascii_of_string (String.concat (String sep "") l)).
Proof.
  intros Hsep. induction l as [|x l IH]; intros Hl; [constructor|].
  apply Forall_cons in Hl as [Hx Hl].
  destruct l as [|y l]; [exact Hx|].
  change (String.concat (String sep "") (x :: y :: l))
    with (x ++ String sep (String.concat (String sep "") (y :: l)))%string.
  rewrite chars_app. apply Forall_app. split; [exact Hx|].
  simpl. apply Forall_cons. split; [exact Hsep|]. apply IH. exact Hl.
Qed.


(** The characters of a number's digits are decimal digits. *)
Lemma string_of_uint_digits u :
  Forall (fun c => exists v, digit_of c = Some v)
         (list_ascii_of_string (NilEmpty.string_of_uint u)).
Proof.
  induction u as [|u IHu|u IHu|u IHu|u IHu|u IHu|u IHu|u IHu|u IHu|u IHu|u IHu];
    simpl; constructor; try exact IHu; eexists; reflexivity.
Qed.

(** [int] reads the digits of a number back, most significant first. *)
Lemma int_digits_uint u : forall d' count prev_digit,
  (u = Decimal.Nil -> prev_digit = true) ->
  int_digits (NilEmpty.string_of_uint u) (Z.of_N (Unsigned.of_lu d')) count
             prev_digit
  = Some (Z.of_N (Unsigned.of_lu (Decimal.revapp u d')),
          (count + Decimal.nb_digits u)%nat).
Proof.
  induction u as [|u IHu|u IHu|u IHu|u IHu|u IHu|u IHu|u IHu|u IHu|u IHu|u IHu];
    intros d' count prev_digit Hnil.
  1:{ simpl. rewrite (Hnil eq_refl). f_equal. f_equal. lia. }
  all: cbn [NilEmpty.string_of_uint int_digits];
    match goal with
    | |- context [digit_of ?c] =>
        let v := eval vm_compute in (digit_of c) in change (digit_of c) with v
    end; cbv iota.
  all: cbn [Decimal.revapp Decimal.nb_digits].
  all: match goal with
       | |- _ = Some (Z.of_N (Unsigned.of_lu (Decimal.revapp _ ?e)), _) =>
           specialize (IHu e (S count) true (fun _ => eq_refl));
           cbn [Unsigned.of_lu] in IHu
       end.
  all: rewrite Nat.add_succ_r, <- Nat.add_succ_l, <- IHu; f_equal; lia.
Qed.

Lemma int_unsigned_to_uint p :
  (Decimal.nb_digits (Pos.to_uint p) <= int_max_str_digits)%nat ->
  int_unsigned (NilEmpty.string_of_uint (Pos.to_uint p)) = Ok (Z.pos p).
Proof.
  intros Hlen. unfold int_unsigned.
  change 0 with (Z.of_N (Unsigned.of_lu Decimal.Nil)) at 1.
  rewrite int_digits_uint
    by (intros E; exfalso; exact (Unsigned.to_uint_nonnil p E)).
  simpl Nat.add.
  destruct (Nat.ltb_spec int_max_str_digits (Decimal.nb_digits (Pos.to_uint p)))
    as [Hgt|_]; [lia|].
  f_equal. fold (Decimal.rev (Pos.to_uint p)).
  rewrite <- Unsigned.of_uint_alt, Unsigned.of_to. reflexivity.
Qed.


Lemma digit_of_plain c v :
  digit_of c = Some v -> isspace c = false /\ c <> ","%char.
Proof.
  unfold digit_of, isspace. intros E. split.
  - set (n := Z.of_N (N_of_ascii c)) in *.
    destruct ((48 <=? n) && (n <=? 57)) eqn:Eb; [|discriminate].
    apply andb_true_iff in Eb as [E1 E2]. apply Z.leb_le in E1, E2.
    destruct (Z.leb_spec 9 n), (Z.leb_spec n 13), (Z.leb_spec 28 n),
             (Z.leb_spec n 32), (Z.eqb_spec n 133), (Z.eqb_spec n 160);
      simpl; try reflexivity; lia.
  - intros ->. discriminate E.
Qed.

Lemma int_of_digits u :
  u <> Decimal.Nil ->
  int (NilEmpty.string_of_uint u) = int_unsigned (NilEmpty.string_of_uint u).
Proof.
  intros Hne. unfold int. rewrite strip_no_space.
  - destruct u; [contradiction|..]; reflexivity.
  - eapply Forall_impl; [apply string_of_uint_digits|].
    intros c [v Hv]. exact (proj1 (digit_of_plain c v Hv)).
Qed.

(** What [str] returns for a number is not empty, has no white space and no
    comma, and [int] reads the number back from it. *)
Lemma str_int n s :
  str n = Ok s ->
  s <> ""%string
  /\ Forall (fun c => isspace c = false /\ c <> ","%char) (list_ascii_of_string s)
  /\ int s = Ok n.
Proof.
  unfold str. cbv zeta. destruct n as [|p|p].
  - intros E. assert (Ok "0"%string = Ok s) as E' by exact E. clear E.
    injection E' as <-. split; [discriminate|].
    split; [repeat constructor; discriminate|reflexivity].
  - change (Z.to_int (Z.pos p)) with (Decimal.Pos (Pos.to_uint p)). cbv beta iota.
    destruct (Nat.ltb_spec int_max_str_digits (Decimal.nb_digits (Pos.to_uint p)))
      as [|Hlen]; [discriminate|].
    intros E. injection E as <-.
    pose proof (Unsigned.to_uint_nonnil p) as Hne.
    assert (NilZero.string_of_uint (Pos.to_uint p)
            = NilEmpty.string_of_uint (Pos.to_uint p)) as ->
        by (simpl; destruct (Pos.to_uint p); [contradiction|..]; reflexivity).
    split; [destruct (Pos.to_uint p); [contradiction|..]; discriminate|].
    split.
    + eapply Forall_impl; [apply string_of_uint_digits|].
      intros c [v Hv]. exact (digit_of_plain c v Hv).
    + rewrite int_of_digits by exact Hne. apply int_unsigned_to_uint. exact Hlen.
  - change (Z.to_int (Z.neg p)) with (Decimal.Neg (Pos.to_uint p)). cbv beta iota.
    destruct (Nat.ltb_spec int_max_str_digits (Decimal.nb_digits (Pos.to_uint p)))
      as [|Hlen]; [discriminate|].
    intros E. injection E as <-.
    pose proof (Unsigned.to_uint_nonnil p) as Hne.
    assert (String "-" (NilZero.string_of_uint (Pos.to_uint p))
            = String "-" (NilEmpty.string_of_uint (Pos.to_uint p))) as ->
        by (simpl; destruct (Pos.to_uint p); [contradiction|..]; reflexivity).
    split; [discriminate|].
    assert (Forall (fun c => isspace c = false /\ c <> ","%char)
              (list_ascii_of_string
                 (String "-" (NilEmpty.string_of_uint (Pos.to_uint p))))) as Hchars.
    { simpl. constructor; [split; [reflexivity|discriminate]|].
      eapply Forall_impl; [apply string_of_uint_digits|].
      intros c [v Hv]. exact (digit_of_plain c v Hv). }
    split; [exact Hchars|].
    unfold int. rewrite strip_no_space
      by (eapply Forall_impl; [exact Hchars|]; intros c Hc; exact (proj1 Hc)).
    cbv iota beta. rewrite int_unsigned_to_uint by exact Hlen. reflexivity.
Qed.

Lemma map_result_Forall2 {A B} (f : A -> result B) l : forall ys,
  map_result f l = Ok ys -> Forall2 (fun x y => f x = Ok y) l ys.
Proof.
  induction l as [|x l IH]; intros ys E; simpl in E.
  - injection E as <-. constructor.
  - destruct (f x) as [y|e] eqn:Ex; [|discriminate]. simpl in E.
    destruct (map_result f l) as [ys'|e] eqn:El; [|discriminate]. simpl in E.
    injection E as <-. constructor; [exact Ex|]. apply IH. reflexivity.
Qed.

End TextFacts.

Module RoundTripFacts.
Import Py Metrics HabitsPage ScheduleFacts ParserFacts TextFacts.

Lemma foldl_add_token_str l : forall parts out,
  Forall2 (fun n p => str n = Ok p) l parts ->
  foldl add_token out parts = list_to_set l ∪ out.
Proof.
  induction l as [|n l IH]; intros parts out HF.
  - apply Forall2_nil_inv_l in HF as ->. simpl. symmetry.
    apply (left_id_L (∅ : gset Z) (∪)).
  - apply Forall2_cons_inv_l in HF as (p & parts' & Hp & HF & ->).
    destruct (str_int n p Hp) as (Hne & Hchars & Hint).
    assert (strip p = p) as Hstrip
        by (apply strip_no_space; eapply Forall_impl; [exact Hchars|];
            intros c Hc; exact (proj1 Hc)).
    simpl. rewrite (IH parts' _ HF). unfold add_token. rewrite Hstrip.
    destruct (String.eqb_spec p "") as [E|_]; [contradiction|].
    rewrite Hint. simpl.
    rewrite (assoc_L (∪)), (comm_L (∪) (list_to_set l) {[n]}). reflexivity.
Qed.

Lemma foldl_append_token_str l : forall parts out,
  Forall2 (fun n p => str n = Ok p) l parts ->
  foldl append_token out parts = out ++ l.
Proof.
  induction l as [|n l IH]; intros parts out HF.
  - apply Forall2_nil_inv_l in HF as ->. simpl. symmetry. apply app_nil_r.
  - apply Forall2_cons_inv_l in HF as (p & parts' & Hp & HF & ->).
    destruct (str_int n p Hp) as (Hne & Hchars & Hint).
    assert (strip p = p) as Hstrip
        by (apply strip_no_space; eapply Forall_impl; [exact Hchars|];
            intros c Hc; exact (proj1 Hc)).
    simpl. rewrite (IH parts' _ HF). unfold append_token. rewrite Hstrip.
    destruct (String.eqb_spec p "") as [E|_]; [contradiction|].
    rewrite Hint, <- app_assoc. reflexivity.
Qed.

Lemma concat_nonempty sep x l :
  x <> ""%string -> String.concat sep (x :: l) <> ""%string.
Proof.
  intros Hx. destruct l as [|y l]; [exact Hx|].
  change (String.concat sep (x :: y :: l))
    with (x ++ sep ++ String.concat sep (y :: l))%string.
  destruct x as [|c x]; [contradiction|]. discriminate.
Qed.

(** What the two parsers make of the text [days_to_string] builds. *)
Lemma days_to_string_read sel s :
  days_to_string sel = Ok s ->
  strip s = s
  /\ parse_custom_days (Some s) = list_to_set (merge_sort Z.le sel)
  /\ string_to_days (Some s)
     = merge_sort Z.le
         (elements (list_to_set
            (List.filter (fun d => (0 <=? d) && (d <=? 6))
                         (merge_sort Z.le sel)) : gset Z)).
Proof.
  unfold days_to_string. set (l := merge_sort Z.le sel).
  destruct (map_result str l) as [parts|e] eqn:Eparts; [|discriminate].
  simpl. intros E. injection E as <-.
  pose proof (map_result_Forall2 str l parts Eparts) as HF.
  assert (Forall (fun p => p <> ""%string
            /\ Forall (fun c => isspace c = false /\ c <> ","%char)
                      (list_ascii_of_string p)) parts) as Hparts.
  { clear Eparts. induction HF as [|n p l' parts' Hp HF IH]; constructor; [|exact IH].
    destruct (str_int n p Hp) as (Hne & Hchars & _). split; assumption. }
  assert (strip (String.concat "," parts) = String.concat "," parts) as Hstrip.
  { apply strip_no_space. apply concat_chars; [reflexivity|].
    eapply Forall_impl; [exact Hparts|]. intros p [_ Hp].
    eapply Forall_impl; [exact Hp|]. intros c Hc. exact (proj1 Hc). }
  split; [exact Hstrip|].
  unfold parse_custom_days, string_to_days. simpl default. rewrite Hstrip.
  destruct parts as [|p parts].
  - apply Forall2_nil_inv_r in HF. rewrite HF. simpl. split; reflexivity.
  - apply Forall_cons in Hparts as Hp. destruct Hp as [[Hp _] _].
    destruct (String.eqb_spec (String.concat "," (p :: parts)) "") as [E|_];
      [exfalso; exact (concat_nonempty "," p parts Hp E)|].
    rewrite split_concat.
    + rewrite (foldl_add_token_str l _ _ HF), (foldl_append_token_str l _ _ HF).
      split; [apply (right_id_L (∅ : gset Z) (∪))|reflexivity].
    + discriminate.
    + eapply Forall_impl; [exact Hparts|]. intros q [_ Hq].
      eapply Forall_impl; [exact Hq|]. intros c Hc. exact (proj2 Hc).
Qed.


Lemma in_range_spec d : (0 <=? d) && (d <=? 6) = true <-> 0 <= d <= 6.
Proof. rewrite andb_true_iff, !Z.leb_le. tauto. Qed.

Lemma Sorted_lt_le l : Sorted Z.lt l -> Sorted Z.le l /\ NoDup l.
Proof.
  intros Hs. apply Sorted_StronglySorted in Hs; [|intros x y z; lia].
  induction Hs as [|x l Hs [IH1 IH2] Hall].
  - split; [constructor|apply NoDup_nil_2].
  - split.
    + constructor; [exact IH1|]. destruct l as [|y l]; constructor.
      apply Forall_cons in Hall as [Hy _]. lia.
    + apply NoDup_cons. split; [|exact IH2].
      intros Hin. rewrite Forall_forall in Hall.
      specialize (Hall x Hin). lia.
Qed.

Lemma str_of_weekday d : 0 <= d <= 6 -> exists p, str d = Ok p.
Proof.
  intros Hd.
  assert (d = 0 \/ d = 1 \/ d = 2 \/ d = 3 \/ d = 4 \/ d = 5 \/ d = 6) as Hc by lia.
  destruct Hc as [->|[->|[->|[->|[->|[->| ->]]]]]]; eexists; reflexivity.
Qed.

Lemma map_result_total {A B} (f : A -> result B) l :
  Forall (fun x => exists y, f x = Ok y) l -> exists ys, map_result f l = Ok ys.
Proof.
  induction l as [|x l IH]; intros Hl; [exists []; reflexivity|].
  apply Forall_cons in Hl as [[y Hy] Hl]. destruct (IH Hl) as [ys Hys].
  exists (y :: ys). simpl. rewrite Hy. simpl. rewrite Hys. reflexivity.
Qed.

(** X17.  Reading back what [days_to_string] wrote.  When it returns a
    text for a list of numbers, the text survives [strip] unchanged, the
    schedule parser reads from it exactly the numbers of the list, and the
    form parser reads exactly those of them that are weekday indices; so a
    custom habit saved with this text is due exactly on the days whose
    weekday is in the list. *)
Theorem days_to_string_read_back (sel : list Z) (s : string) :
  days_to_string sel = Ok s ->
  strip s = s
  /\ parse_custom_days (Some s) = list_to_set sel
  /\ (forall n, In n (string_to_days (Some s)) <-> In n sel /\ 0 <= n <= 6)
  /\ (forall h d, schedule_type h = Some "custom"%string ->
        custom_days h = Some s ->
        (is_due_on h d = true <-> In (weekday d) sel)).
Proof.
  intros E. destruct (days_to_string_read sel s E) as (Hstrip & Hparse & Hform).
  assert (parse_custom_days (Some s) = list_to_set sel) as Hset.
  { rewrite Hparse. apply list_to_set_perm_L, merge_sort_Permutation. }
  split; [exact Hstrip|]. split; [exact Hset|]. split.
  - intros n. rewrite Hform.
    rewrite <- list_elem_of_In, merge_sort_Permutation, elem_of_elements,
      elem_of_list_to_set, list_elem_of_In, filter_In, in_range_spec.
    rewrite <- (list_elem_of_In (merge_sort Z.le sel)), merge_sort_Permutation,
      list_elem_of_In. reflexivity.
  - intros h d Est Ecd.
    rewrite (is_due_on_custom h d Est), bool_decide_eq_true, Ecd, Hset,
      elem_of_list_to_set, list_elem_of_In. reflexivity.
Qed.

(** X18.  The days ticked in the form come back.  For a selection of
    weekday indices in ascending order without repetition, as the loop over
    the check boxes builds it, [days_to_string] returns a text and
    [string_to_days] reads the same selection from it. *)
Theorem days_to_string_round_trip (sel : list Z) :
  Sorted Z.lt sel ->
  Forall (fun d => 0 <= d <= 6) sel ->
  exists s, days_to_string sel = Ok s /\ string_to_days (Some s) = sel.
Proof.
  intros Hsorted Hrange. destruct (Sorted_lt_le sel Hsorted) as [Hle Hnd].
  assert (merge_sort Z.le sel = sel) as Hsort.
  { apply (Sorted_unique Z.le); [apply Sorted_merge_sort, Z_le_total|exact Hle|].
    apply merge_sort_Permutation. }
  destruct (map_result_total str sel) as [parts Hparts].
  { eapply Forall_impl; [exact Hrange|]. intros d Hd. apply str_of_weekday, Hd. }
  assert (days_to_string sel = Ok (String.concat "," parts)) as E
      by (unfold days_to_string; rewrite Hsort, Hparts; reflexivity).
  exists (String.concat "," parts). split; [exact E|].
  destruct (days_to_string_read sel _ E) as (_ & _ & ->). rewrite Hsort.
  assert (List.filter (fun d => (0 <=? d) && (d <=? 6)) sel = sel) as ->.
  { clear - Hrange. induction Hrange as [|d l Hd Hl IH]; [reflexivity|].
    simpl. rewrite (proj2 (in_range_spec d) Hd), IH. reflexivity. }
  apply (Sorted_unique Z.le); [apply Sorted_merge_sort, Z_le_total|exact Hle|].
  rewrite merge_sort_Permutation. apply elements_list_to_set. exact Hnd.
Qed.

Lemma days_to_string_read_back_witness :
  days_to_string [4; 0; 2] = Ok "0,2,4"%string
  /\ parse_custom_days (Some "0,2,4"%string) = list_to_set [4; 0; 2].
Proof.
  split; [reflexivity|].
  exact (proj1 (proj2 (days_to_string_read_back [4; 0; 2] "0,2,4" eq_refl))).
Defined.

Lemma days_to_string_round_trip_witness :
  exists s, days_to_string [0; 2; 4] = Ok s /\ string_to_days (Some s) = [0; 2; 4].
Proof.
  apply (days_to_string_round_trip [0; 2; 4]).
  - repeat constructor.
  - repeat constructor; lia.
Defined.

End RoundTripFacts.

(* ================================================================== *)
(** * The reminder time of the dashboard *)
(* ================================================================== *)

Module ReminderFacts.
Import Py Dashboard TextFacts.

Lemma lstrip_chars (P : ascii -> Prop) s :
  Forall P (list_ascii_of_string s) -> Forall P (list_ascii_of_string (lstrip s)).
Proof.
  induction s as [|c s IH]; intros Hs; [exact Hs|].
  simpl. destruct (isspace c); [|exact Hs].
  apply IH. simpl in Hs. apply Forall_cons in Hs as [_ Hs]. exact Hs.
Qed.

Lemma strip_chars (P : ascii -> Prop) s :
  Forall P (list_ascii_of_string s) -> Forall P (list_ascii_of_string (strip s)).
Proof.
  intros Hs. unfold strip, rstrip, String.rev.
  apply rev_app_chars; [|constructor]. apply lstrip_chars.
  apply rev_app_chars; [|constructor]. apply lstrip_chars. exact Hs.
Qed.

(** X19.  The reminder time.  A text made of two integer literals around
    one colon, free of white space, is read as that pair of numbers,
    whatever their size: hours and minutes are not checked against a clock.
    A text without a colon, or with two colons, gives the default 18:00. *)
Theorem parse_hhmm_reads (a b : string) (h m : Z) :
  Forall (fun c => isspace c = false /\ c <> ":"%char) (list_ascii_of_string a) ->
  Forall (fun c => isspace c = false /\ c <> ":"%char) (list_ascii_of_string b) ->
  int a = Ok h -> int b = Ok m ->
  parse_hhmm (a ++ ":" ++ b) = (h, m)
  /\ parse_hhmm (a ++ ":" ++ b ++ ":" ++ a) = (18, 0)
  /\ forall text, Forall (fun c => c <> ":"%char) (list_ascii_of_string text) ->
       parse_hhmm text = (18, 0).
Proof.
  intros Ha Hb Eh Em.
  assert (Forall (fun c => c <> ":"%char) (list_ascii_of_string a)) as Ha'
      by (eapply Forall_impl; [exact Ha|]; intros c Hc; exact (proj2 Hc)).
  assert (Forall (fun c => c <> ":"%char) (list_ascii_of_string b)) as Hb'
      by (eapply Forall_impl; [exact Hb|]; intros c Hc; exact (proj2 Hc)).
  assert (Forall (fun c => isspace c = false) (list_ascii_of_string a)) as Ha2
      by (eapply Forall_impl; [exact Ha|]; intros c Hc; exact (proj1 Hc)).
  assert (Forall (fun c => isspace c = false) (list_ascii_of_string b)) as Hb2
      by (eapply Forall_impl; [exact Hb|]; intros c Hc; exact (proj1 Hc)).
  split; [|split].
  - unfold parse_hhmm. rewrite strip_no_space.
    + change (a ++ ":" ++ b)%string with (a ++ String ":" b)%string.
      rewrite split_app by exact Ha'. rewrite split_no_sep by exact Hb'.
      rewrite Eh, Em. reflexivity.
    + change (a ++ ":" ++ b)%string with (a ++ String ":" b)%string.
      rewrite chars_app. apply Forall_app. split; [exact Ha2|].
      simpl. apply Forall_cons. split; [reflexivity|exact Hb2].
  - unfold parse_hhmm. rewrite strip_no_space.
    + change (a ++ ":" ++ b ++ ":" ++ a)%string
        with (a ++ String ":" (b ++ String ":" a))%string.
      rewrite split_app by exact Ha'. rewrite split_app by exact Hb'.
      rewrite split_no_sep by exact Ha'. reflexivity.
    + change (a ++ ":" ++ b ++ ":" ++ a)%string
        with (a ++ String ":" (b ++ String ":" a))%string.
      rewrite chars_app. apply Forall_app. split; [exact Ha2|].
      simpl. apply Forall_cons. split; [reflexivity|].
      rewrite chars_app. apply Forall_app. split; [exact Hb2|].
      simpl. apply Forall_cons. split; [reflexivity|exact Ha2].
  - intros text Ht. unfold parse_hhmm.
    rewrite split_no_sep by (apply strip_chars; exact Ht). reflexivity.
Qed.

Lemma parse_hhmm_reads_witness :
  parse_hhmm "25:99" = (25, 99).
Proof.
  refine (proj1 (parse_hhmm_reads "25" "99" 25 99 _ _ eq_refl eq_refl));
    repeat constructor; discriminate.
Defined.

End ReminderFacts.

(* ================================================================== *)
(** * The months of the calendar *)
(* ================================================================== *)

Module CalendarFacts.
Import Py Gregorian MonthPicker GregorianFacts.

Lemma month_day_in_month_table :
  forallb (fun i => month_day_in_month false (Z.of_nat i)) (seq 0 365)
  && forallb (fun i => month_day_in_month true (Z.of_nat i)) (seq 0 366) = true.
Proof. vm_compute. reflexivity. Qed.

Lemma month_day_in_month_spec (leapyear : bool) n :
  0 <= n < (if leapyear then 366 else 365) ->
  month_day_in_month leapyear n = true.
Proof.
  intros Hn. pose proof month_day_in_month_table as Ht.
  apply andb_true_iff in Ht as [Hf Ht].
  pose proof (proj1 (List.forallb_forall _ _) Hf) as Hf'.
  pose proof (proj1 (List.forallb_forall _ _) Ht) as Ht'.
  rewrite <- (Z2Nat.id n) by lia.
  destruct leapyear; [apply Ht'|apply Hf']; apply in_seq; lia.
Qed.

(** A year, a month and a day that name a day of the calendar. *)
Lemma ord2ymd_valid n :
  let '(y, m, d) := ord2ymd n in
  ymd2ord y m d = n /\ 1 <= m <= 12
  /\ 1 <= d <= days_in_month (is_leap y) m.
Proof.
  unfold ord2ymd.
  set (n0 := n - 1). set (n400 := n0 / 146097). set (r := n0 mod 146097).
  set (n100 := r / 36524). set (r1 := r mod 36524).
  set (n4 := r1 / 1461). set (r2 := r1 mod 1461).
  set (n1 := r2 / 365). set (r3 := r2 mod 365).
  assert (n0 = 146097 * n400 + r /\ 0 <= r < 146097) as [E0 B0]
      by (unfold n400, r; pose proof (Z.div_mod n0 146097);
          pose proof (Z.mod_pos_bound n0 146097); lia).
  assert (r = 36524 * n100 + r1 /\ 0 <= r1 < 36524) as [E1 B1]
      by (unfold n100, r1; pose proof (Z.div_mod r 36524);
          pose proof (Z.mod_pos_bound r 36524); lia).
  assert (r1 = 1461 * n4 + r2 /\ 0 <= r2 < 1461) as [E2 B2]
      by (unfold n4, r2; pose proof (Z.div_mod r1 1461);
          pose proof (Z.mod_pos_bound r1 1461); lia).
  assert (r2 = 365 * n1 + r3 /\ 0 <= r3 < 365) as [E3 B3]
      by (unfold n1, r3; pose proof (Z.div_mod r2 365);
          pose proof (Z.mod_pos_bound r2 365); lia).
  assert (n = n0 + 1) as En by (unfold n0; lia).
  clearbody n0 n400 r n100 r1 n4 r2 n1 r3.
  assert (0 <= n100 <= 4 /\ 0 <= n4 <= 24 /\ 0 <= n1 <= 4) as (Hn100 & Hn4 & Hn1) by lia.
  destruct ((n1 =? 4) || (n100 =? 4)) eqn:Especial.
  - (* the last day of a leap year *)
    split; [|split; [lia|unfold days_in_month; simpl; lia]].
    unfold ymd2ord, days_before_year, is_leap, days_before_month.
    apply orb_true_iff in Especial as [E|E]; apply Z.eqb_eq in E.
    + assert (n4 <= 23) by lia.
      set (y := n400 * 400 + 1 + n100 * 100 + n4 * 4 + n1 - 1).
      assert (y = 4 * (100 * n400 + 25 * n100 + n4 + 1)) as Ey by (unfold y; lia).
      assert (y mod 4 = 0) as -> by (rewrite Ey, Z.mul_comm; apply Z_mod_mult).
      assert (y mod 100 <> 0) as Hy100 by (unfold y; Z.div_mod_to_equations; lia).
      apply Z.eqb_neq in Hy100. rewrite Hy100. simpl.
      unfold y. Z.div_mod_to_equations. lia.
    + set (y := n400 * 400 + 1 + n100 * 100 + n4 * 4 + n1 - 1).
      assert (y = 400 * (n400 + 1)) as Ey by (unfold y; lia).
      assert (y mod 4 = 0) as -> by (unfold y; Z.div_mod_to_equations; lia).
      assert (y mod 400 = 0) as -> by (rewrite Ey, Z.mul_comm; apply Z_mod_mult).
      rewrite orb_true_r. simpl.
      unfold y. Z.div_mod_to_equations. lia.
  - apply orb_false_iff in Especial as [E1' E100']. apply Z.eqb_neq in E1', E100'.
    set (leapyear := (n1 =? 3) && (negb (n4 =? 24) || (n100 =? 3))).
    set (year := n400 * 400 + 1 + n100 * 100 + n4 * 4 + n1).
    assert (is_leap year = leapyear) as Eleap.
    { unfold is_leap, leapyear.
      destruct (Z.eqb_spec n1 3) as [H1|H1], (Z.eqb_spec n4 24) as [H4|H4],
               (Z.eqb_spec n100 3) as [H100|H100]; simpl;
      destruct (Z.eqb_spec (year mod 4) 0) as [Y4|Y4],
               (Z.eqb_spec (year mod 100) 0) as [Y100|Y100],
               (Z.eqb_spec (year mod 400) 0) as [Y400|Y400]; simpl;
        try reflexivity; exfalso; unfold year in *;
          clear - H1 H4 H100 Y4 Y100 Y400 Hn100 Hn4 Hn1 E1' E100';
          Z.div_mod_to_equations; lia. }
    pose proof (month_day_in_month_spec leapyear r3) as Hmd.
    unfold month_day_in_month in Hmd.
    destruct (month_day leapyear r3) as [m d].
    assert (0 <= r3 < (if leapyear then 366 else 365)) as Hr3 by (destruct leapyear; lia).
    specialize (Hmd Hr3).
    apply andb_true_iff in Hmd as [Hmd Hd2]. apply andb_true_iff in Hmd as [Hmd Hd1].
    apply andb_true_iff in Hmd as [Hmd Hm2]. apply andb_true_iff in Hmd as [Hmd Hm1].
    apply Z.eqb_eq in Hmd. apply Z.leb_le in Hd2, Hd1, Hm2, Hm1.
    rewrite Eleap. split; [|split; [lia|lia]].
    unfold ymd2ord. rewrite Eleap.
    assert (days_before_year year = n0 - r3) as ->; [|lia].
    unfold days_before_year, year. clear - E0 E1 E2 E3 B0 B1 B2 B3 Hn100 Hn4 Hn1 E1' E100'.
    Z.div_mod_to_equations. lia.
Qed.


Lemma days_before_year_succ y :
  days_before_year (y + 1) = days_before_year y + (if is_leap y then 366 else 365).
Proof.
  unfold days_before_year, is_leap. cbv zeta.
  replace (y + 1 - 1) with y by lia.
  destruct (Z.eqb_spec (y mod 4) 0) as [Y4|Y4],
           (Z.eqb_spec (y mod 100) 0) as [Y100|Y100],
           (Z.eqb_spec (y mod 400) 0) as [Y400|Y400]; simpl;
    Z.div_mod_to_equations; lia.
Qed.

Lemma days_before_year_mono y y' :
  y <= y' -> days_before_year y <= days_before_year y'.
Proof.
  intros Hle. unfold days_before_year. cbv zeta.
  Z.div_mod_to_equations. lia.
Qed.

Lemma month_cases m :
  1 <= m <= 12 ->
  m = 1 \/ m = 2 \/ m = 3 \/ m = 4 \/ m = 5 \/ m = 6 \/ m = 7 \/ m = 8 \/ m = 9
  \/ m = 10 \/ m = 11 \/ m = 12.
Proof. lia. Qed.

(** The months of a year follow one another without gap. *)
Lemma days_before_month_succ leap m :
  1 <= m <= 12 ->
  days_before_month leap m + days_in_month leap m
  = (if m =? 12 then (if leap then 366 else 365)
     else days_before_month leap (m + 1)).
Proof.
  intros Hm. destruct (month_cases m Hm) as
    [->|[->|[->|[->|[->|[->|[->|[->|[->|[->|[->| ->]]]]]]]]]]];
    destruct leap; reflexivity.
Qed.

Lemma days_before_month_mono leap m m' :
  1 <= m -> m < m' -> m' <= 12 ->
  days_before_month leap m + days_in_month leap m <= days_before_month leap m'.
Proof.
  intros H1 Hlt H12.
  assert (1 <= m <= 12) as Hm by lia. assert (1 <= m' <= 12) as Hm' by lia.
  destruct (month_cases m Hm) as
    [->|[->|[->|[->|[->|[->|[->|[->|[->|[->|[->| ->]]]]]]]]]]];
    destruct (month_cases m' Hm') as
    [->|[->|[->|[->|[->|[->|[->|[->|[->|[->|[->| ->]]]]]]]]]]];
    try lia; destruct leap; vm_compute; discriminate.
Qed.

Lemma days_before_month_bounds leap m :
  1 <= m <= 12 ->
  0 <= days_before_month leap m
  /\ days_before_month leap m + days_in_month leap m
     <= (if leap then 366 else 365)
  /\ 28 <= days_in_month leap m <= 31.
Proof.
  intros Hm. destruct (month_cases m Hm) as
    [->|[->|[->|[->|[->|[->|[->|[->|[->|[->|[->| ->]]]]]]]]]]];
    destruct leap; vm_compute; repeat split; discriminate.
Qed.

(** The ordinal of a day of the calendar lies in its year. *)
Lemma ymd2ord_in_year y m d :
  1 <= m <= 12 -> 1 <= d <= days_in_month (is_leap y) m ->
  days_before_year y < ymd2ord y m d <= days_before_year (y + 1).
Proof.
  intros Hm Hd. rewrite days_before_year_succ. unfold ymd2ord.
  pose proof (days_before_month_bounds (is_leap y) m Hm). lia.
Qed.

(** Two days of the calendar with the same ordinal are the same day. *)
Lemma ymd2ord_inj y m d y' m' d' :
  1 <= m <= 12 -> 1 <= d <= days_in_month (is_leap y) m ->
  1 <= m' <= 12 -> 1 <= d' <= days_in_month (is_leap y') m' ->
  ymd2ord y m d = ymd2ord y' m' d' -> y = y' /\ m = m' /\ d = d'.
Proof.
  intros Hm Hd Hm' Hd' E.
  pose proof (ymd2ord_in_year y m d Hm Hd) as B.
  pose proof (ymd2ord_in_year y' m' d' Hm' Hd') as B'.
  assert (y = y') as <-.
  { destruct (Z.lt_trichotomy y y') as [Hlt|[Heq|Hgt]]; [|exact Heq|].
    - pose proof (days_before_year_mono (y + 1) y'). lia.
    - pose proof (days_before_year_mono (y' + 1) y). lia. }
  split; [reflexivity|]. unfold ymd2ord in E.
  assert (m = m') as <-.
  { destruct (Z.lt_trichotomy m m') as [Hlt|[Heq|Hgt]]; [|exact Heq|].
    - pose proof (days_before_month_mono (is_leap y) m m'). lia.
    - pose proof (days_before_month_mono (is_leap y) m' m). lia. }
  split; [reflexivity|lia].
Qed.

(** [_ord2ymd] is the inverse of [_ymd2ord] on the days of the calendar. *)
Lemma ord2ymd_ymd2ord y m d :
  1 <= m <= 12 -> 1 <= d <= days_in_month (is_leap y) m ->
  ord2ymd (ymd2ord y m d) = (y, m, d).
Proof.
  intros Hm Hd. pose proof (ord2ymd_valid (ymd2ord y m d)) as Hv.
  destruct (ord2ymd (ymd2ord y m d)) as [[y' m'] d'].
  destruct Hv as (E & Hm' & Hd').
  destruct (ymd2ord_inj y' m' d' y m d Hm' Hd' Hm Hd E) as (-> & -> & ->).
  reflexivity.
Qed.


Lemma make_date_valid y m d :
  1 <= y <= MAXYEAR -> 1 <= m <= 12 -> 1 <= d <= days_in_month (is_leap y) m ->
  make_date y m d = Ok (ymd2ord y m d).
Proof.
  intros Hy Hm Hd. unfold make_date.
  destruct (Z.leb_spec 1 y), (Z.leb_spec y MAXYEAR), (Z.leb_spec 1 m),
           (Z.leb_spec m 12), (Z.leb_spec 1 d),
           (Z.leb_spec d (days_in_month (is_leap y) m)); simpl;
    try reflexivity; lia.
Qed.

(** The day before the first day of the next month is the last day of the
    month. *)
Lemma next_month_start y m :
  1 <= m <= 12 ->
  (if m =? 12 then ymd2ord (y + 1) 1 1 else ymd2ord y (m + 1) 1) - 1
  = ymd2ord y m (days_in_month (is_leap y) m).
Proof.
  intros Hm. pose proof (days_before_month_succ (is_leap y) m Hm) as Hs.
  unfold ymd2ord. destruct (Z.eqb_spec m 12) as [->|Hne].
  - assert (days_before_month (is_leap (y + 1)) 1 = 0) as ->
        by (destruct (is_leap (y + 1)); reflexivity).
    rewrite days_before_year_succ. change (12 =? 12) with true in Hs.
    cbv iota in Hs. lia.
  - lia.
Qed.

(** The days of a month are those between its first and its last day. *)
Lemma month_range y m :
  1 <= m <= 12 ->
  ord2ymd (ymd2ord y m 1) = (y, m, 1)
  /\ ord2ymd (ymd2ord y m (days_in_month (is_leap y) m))
     = (y, m, days_in_month (is_leap y) m)
  /\ ymd2ord y m (days_in_month (is_leap y) m) - ymd2ord y m 1 + 1
     = days_in_month (is_leap y) m
  /\ forall n, ymd2ord y m 1 <= n <= ymd2ord y m (days_in_month (is_leap y) m)
               <-> exists k, ord2ymd n = (y, m, k).
Proof.
  intros Hm.
  pose proof (days_before_month_bounds (is_leap y) m Hm) as (_ & _ & Hdim).
  split; [apply ord2ymd_ymd2ord; lia|].
  split; [apply ord2ymd_ymd2ord; lia|].
  split; [unfold ymd2ord; lia|].
  intros n. split.
  - intros Hn. exists (n - ymd2ord y m 1 + 1).
    replace n with (ymd2ord y m (n - ymd2ord y m 1 + 1)) at 1
      by (unfold ymd2ord; lia).
    apply ord2ymd_ymd2ord; [lia|]. unfold ymd2ord in *. lia.
  - intros [k' Ek']. pose proof (ord2ymd_valid n) as Hv'. rewrite Ek' in Hv'.
    destruct Hv' as (En & _ & Hk'). unfold ymd2ord in *. lia.
Qed.

(** X20.  The bounds of a month.  For a date of the calendar that is not
    in December 9999, [month_bounds] returns the first and the last day of
    the month of the date: the range starts on day 1 of that month, contains
    the date, has as many days as the month, and a day lies in it exactly
    when it has the year and the month of the date.  In December 9999 the
    start of the next month does not exist and the call raises
    [ValueError]. *)
Theorem month_bounds_month (d : date) :
  1 <= d <= MAXORDINAL ->
  let '(y, m, _) := ord2ymd d in
  if (y =? MAXYEAR) && (m =? 12) then month_bounds d = Raise ValueError
  else
    exists s e,
      month_bounds d = Ok (s, e)
      /\ s <= d <= e
      /\ ord2ymd s = (y, m, 1)
      /\ ord2ymd e = (y, m, days_in_month (is_leap y) m)
      /\ e - s + 1 = days_in_month (is_leap y) m
      /\ forall n, s <= n <= e <-> exists k, ord2ymd n = (y, m, k).
Proof.
  intros Hd. unfold month_bounds.
  pose proof (ord2ymd_valid d) as Hv. pose proof (ymd2ord_ord2ymd d) as Hy.
  destruct (ord2ymd d) as [[y m] k].
  destruct Hv as (E & Hm & Hk). destruct Hy as (_ & _ & Hy). specialize (Hy Hd).
  pose proof (days_before_month_bounds (is_leap y) m Hm) as (_ & _ & Hdim).
  pose proof (next_month_start y m Hm) as Hnext.
  pose proof (month_range y m Hm) as Hrange.
  rewrite (make_date_valid y m 1) by (unfold MAXYEAR; lia). simpl bind.
  assert (exists s e,
            Ok (ymd2ord y m 1, ymd2ord y m (days_in_month (is_leap y) m)) = Ok (s, e)
            /\ s <= d <= e
            /\ ord2ymd s = (y, m, 1)
            /\ ord2ymd e = (y, m, days_in_month (is_leap y) m)
            /\ e - s + 1 = days_in_month (is_leap y) m
            /\ forall n, s <= n <= e <-> exists k, ord2ymd n = (y, m, k)) as Hgoal.
  { exists (ymd2ord y m 1), (ymd2ord y m (days_in_month (is_leap y) m)).
    split; [reflexivity|]. split; [unfold ymd2ord in *; lia|]. exact Hrange. }
  destruct (Z.eqb_spec m 12) as [Em|Em].
  - destruct (Z.eqb_spec y MAXYEAR) as [Ey|Ey]; simpl andb; cbv iota.
    + subst y. reflexivity.
    + rewrite (make_date_valid (y + 1) 1 1);
        [|unfold MAXYEAR in *; lia|lia|unfold days_in_month; simpl; lia].
      simpl bind. rewrite Hnext. exact Hgoal.
  - rewrite andb_false_r.
    rewrite (make_date_valid y (m + 1) 1); [|unfold MAXYEAR; lia|lia|].
    2:{ pose proof (days_before_month_bounds (is_leap y) (m + 1)). lia. }
    simpl bind. rewrite Hnext. exact Hgoal.
Qed.

Lemma month_bounds_month_witness :
  1 <= ymd2ord 2024 2 14 <= MAXORDINAL
  /\ exists s e,
       month_bounds (ymd2ord 2024 2 14) = Ok (s, e)
       /\ s <= ymd2ord 2024 2 14 <= e /\ e - s + 1 = 29.
Proof.
  assert (1 <= ymd2ord 2024 2 14 <= MAXORDINAL) as Hd
      by (split; vm_compute; discriminate).
  split; [exact Hd|].
  pose proof (month_bounds_month (ymd2ord 2024 2 14) Hd) as Hw.
  assert (ord2ymd (ymd2ord 2024 2 14) = (2024, 2, 14)) as Eo
      by (vm_compute; reflexivity).
  rewrite Eo in Hw. change ((2024 =? MAXYEAR) && (2 =? 12)) with false in Hw.
  cbv iota in Hw. destruct Hw as (s & e & E & Hin & _ & _ & Hlen & _).
  exists s, e. split; [exact E|]. split; [exact Hin|exact Hlen].
Defined.

End CalendarFacts.

(* ================================================================== *)
(** * Days as ISO texts: the order of the store is the order of the calendar *)
(* ================================================================== *)

Module IsoOrderFacts.
Import Py Db Gregorian GregorianFacts CalendarFacts.

Lemma fmt02_compare_table :
  forallb (fun a => forallb (fun b =>
      match String.compare (fmt02 (Z.of_nat a)) (fmt02 (Z.of_nat b)),
            Z.of_nat a ?= Z.of_nat b with
      | Eq, Eq | Lt, Lt | Gt, Gt => true
      | _, _ => false
      end) (seq 0 100)) (seq 0 100) = true.
Proof. vm_compute. reflexivity. Qed.

Lemma fmt02_compare a b :
  0 <= a < 100 -> 0 <= b < 100 ->
  String.compare (fmt02 a) (fmt02 b) = (a ?= b).
Proof.
  intros Ha Hb. pose proof fmt02_compare_table as Ht.
  pose proof (proj1 (List.forallb_forall _ _) Ht (Z.to_nat a)) as Ha'.
  cbv beta in Ha'.
  assert (In (Z.to_nat a) (seq 0 100)) as Hia by (apply in_seq; lia).
  pose proof (proj1 (List.forallb_forall _ _) (Ha' Hia) (Z.to_nat b)) as Hb'.
  cbv beta in Hb'.
  assert (In (Z.to_nat b) (seq 0 100)) as Hib by (apply in_seq; lia).
  specialize (Hb' Hib). rewrite !Z2Nat.id in Hb' by lia.
  destruct (String.compare (fmt02 a) (fmt02 b)), (a ?= b);
    try reflexivity; discriminate.
Qed.

Lemma compare_app s1 : forall s2 t1 t2,
  String.length s1 = String.length s2 ->
  String.compare (s1 ++ t1) (s2 ++ t2)
  = match String.compare s1 s2 with
    | Eq => String.compare t1 t2
    | c => c
    end.
Proof.
  induction s1 as [|c s1 IH]; intros [|c' s2] t1 t2 Hlen; try discriminate.
  - reflexivity.
  - injection Hlen as Hlen.
    change (String.compare (String c (s1 ++ t1)) (String c' (s2 ++ t2))
            = match String.compare (String c s1) (String c' s2) with
              | Eq => String.compare t1 t2
              | c0 => c0
              end).
    simpl. destruct (Ascii.compare c c'); [|reflexivity|reflexivity].
    apply IH. exact Hlen.
Qed.

Lemma digit_mod a b : a mod 10 = b mod 10 -> digit a = digit b.
Proof. unfold digit. intros ->. reflexivity. Qed.

Lemma fmt04_split y :
  fmt04 y = (fmt02 (y / 100) ++ fmt02 (y mod 100))%string.
Proof.
  unfold fmt04, fmt02.
  change (String (digit (y / 1000)) (String (digit (y / 100))
            (String (digit (y / 10)) (String (digit y) "")))
          = String (digit (y / 100 / 10)) (String (digit (y / 100))
              (String (digit (y mod 100 / 10)) (String (digit (y mod 100)) "")))).
  f_equal; [apply digit_mod; f_equal; Z.div_mod_to_equations; lia|].
  f_equal. f_equal; [apply digit_mod; Z.div_mod_to_equations; lia|].
  f_equal. apply digit_mod. Z.div_mod_to_equations. lia.
Qed.


Lemma fmt02_app_compare a b s t :
  0 <= a < 100 -> 0 <= b < 100 ->
  String.compare (fmt02 a ++ s) (fmt02 b ++ t)
  = match a ?= b with
    | Eq => String.compare s t
    | c => c
    end.
Proof.
  intros Ha Hb. rewrite compare_app by reflexivity.
  rewrite (fmt02_compare a b Ha Hb). reflexivity.
Qed.

(** A later day of the calendar has a later year, or the same year and a
    later month, or the same month and a later day. *)
Lemma ymd2ord_lex y m d y' m' d' :
  1 <= m <= 12 -> 1 <= d <= days_in_month (is_leap y) m ->
  1 <= m' <= 12 -> 1 <= d' <= days_in_month (is_leap y') m' ->
  y < y' \/ (y = y' /\ (m < m' \/ (m = m' /\ d < d'))) ->
  ymd2ord y m d < ymd2ord y' m' d'.
Proof.
  intros Hm Hd Hm' Hd' [Hy|[<- [Hlt|[<- Hlt]]]].
  - pose proof (ymd2ord_in_year y m d Hm Hd).
    pose proof (ymd2ord_in_year y' m' d' Hm' Hd').
    pose proof (days_before_year_mono (y + 1) y'). lia.
  - pose proof (days_before_month_mono (is_leap y) m m'). unfold ymd2ord. lia.
  - unfold ymd2ord. lia.
Qed.

(** The texts of two dates compare as the dates do. *)
Lemma date_isoformat_compare a b :
  1 <= a <= MAXORDINAL -> 1 <= b <= MAXORDINAL ->
  String.compare (date_isoformat a) (date_isoformat b) = (a ?= b).
Proof.
  intros Ha Hb. unfold date_isoformat.
  pose proof (ord2ymd_valid a) as Va. pose proof (ymd2ord_ord2ymd a) as Ya.
  pose proof (ord2ymd_valid b) as Vb. pose proof (ymd2ord_ord2ymd b) as Yb.
  destruct (ord2ymd a) as [[y m] d]. destruct (ord2ymd b) as [[y' m'] d'].
  destruct Va as (Ea & Hm & Hd). destruct Ya as (_ & _ & Hy). specialize (Hy Ha).
  destruct Vb as (Eb & Hm' & Hd'). destruct Yb as (_ & _ & Hy'). specialize (Hy' Hb).
  pose proof (days_before_month_bounds (is_leap y) m Hm) as (_ & _ & Hdim).
  pose proof (days_before_month_bounds (is_leap y') m' Hm') as (_ & _ & Hdim').
  pose proof (ymd2ord_lex y m d y' m' d' Hm Hd Hm' Hd') as Hlt.
  pose proof (ymd2ord_lex y' m' d' y m d Hm' Hd' Hm Hd) as Hgt.
  rewrite Ea, Eb in *.
  rewrite !fmt04_split.
  change ((fmt02 (y / 100) ++ fmt02 (y mod 100)) ++ "-" ++ fmt02 m ++ "-" ++ fmt02 d)%string
    with (fmt02 (y / 100) ++ (fmt02 (y mod 100) ++ String "-" (fmt02 m ++ String "-" (fmt02 d ++ ""))))%string.
  change ((fmt02 (y' / 100) ++ fmt02 (y' mod 100)) ++ "-" ++ fmt02 m' ++ "-" ++ fmt02 d')%string
    with (fmt02 (y' / 100) ++ (fmt02 (y' mod 100) ++ String "-" (fmt02 m' ++ String "-" (fmt02 d' ++ ""))))%string.
  rewrite fmt02_app_compare by (Z.div_mod_to_equations; lia).
  rewrite fmt02_app_compare by (Z.div_mod_to_equations; lia).
  assert (forall s t, String.compare (String "-" s) (String "-" t) = String.compare s t)
    as Hdash by reflexivity.
  rewrite Hdash, fmt02_app_compare by lia.
  rewrite Hdash, fmt02_app_compare by lia.
  change (String.compare "" "") with Eq.
  symmetry.
  destruct (Z.compare_spec (y / 100) (y' / 100)) as [E1|L1|G1].
  - destruct (Z.compare_spec (y mod 100) (y' mod 100)) as [E2|L2|G2].
    + assert (y = y') as Ey by (Z.div_mod_to_equations; lia).
      destruct (Z.compare_spec m m') as [E3|L3|G3].
      * destruct (Z.compare_spec d d') as [E4|L4|G4].
        -- apply Z.compare_eq_iff. congruence.
        -- apply Z.compare_lt_iff. apply Hlt. right. auto.
        -- apply Z.compare_gt_iff. apply Hgt. right. auto.
      * apply Z.compare_lt_iff. apply Hlt. right. auto.
      * apply Z.compare_gt_iff. apply Hgt. right. auto.
    + apply Z.compare_lt_iff. apply Hlt. left. Z.div_mod_to_equations. lia.
    + apply Z.compare_gt_iff. apply Hgt. left. Z.div_mod_to_equations. lia.
  - apply Z.compare_lt_iff. apply Hlt. left. Z.div_mod_to_equations. lia.
  - apply Z.compare_gt_iff. apply Hgt. left. Z.div_mod_to_equations. lia.
Qed.

Lemma date_isoformat_leb a b :
  1 <= a <= MAXORDINAL -> 1 <= b <= MAXORDINAL ->
  String.leb (date_isoformat a) (date_isoformat b) = (a <=? b).
Proof.
  intros Ha Hb. unfold String.leb, Z.leb.
  rewrite (date_isoformat_compare a b Ha Hb). reflexivity.
Qed.


Lemma Sorted_days (l : list checkin) : forall ds,
  Forall (fun d => 1 <= d <= MAXORDINAL) ds ->
  map day l = map date_isoformat ds ->
  Sorted (fun a b => Is_true (String.leb (day a) (day b))) l ->
  Sorted Z.le ds.
Proof.
  induction l as [|c l IH]; intros ds Hds E Hs.
  - destruct ds; [constructor|discriminate].
  - destruct ds as [|d ds]; [discriminate|].
    simpl in E. injection E as Ec El.
    apply Forall_cons in Hds as [Hd Hds].
    apply Sorted_inv in Hs as [Hs Hhd].
    constructor; [apply (IH ds Hds El Hs)|].
    destruct l as [|c' l]; destruct ds as [|d' ds]; try discriminate; constructor.
    simpl in El. injection El as Ec' _.
    apply Forall_cons in Hds as [Hd' _].
    apply HdRel_inv in Hhd. rewrite Ec, Ec' in Hhd.
    rewrite (date_isoformat_leb d d' Hd Hd') in Hhd.
    apply Is_true_true in Hhd. apply Z.leb_le. exact Hhd.
Qed.

Lemma Sorted_le_NoDup_lt (ds : list Z) :
  Sorted Z.le ds -> NoDup ds -> Sorted Z.lt ds.
Proof.
  induction ds as [|d ds IH]; intros Hs Hnd; [constructor|].
  apply Sorted_inv in Hs as [Hs Hhd]. apply NoDup_cons in Hnd as [Hni Hnd].
  constructor; [apply IH; assumption|].
  destruct ds as [|d' ds]; constructor.
  apply HdRel_inv in Hhd.
  assert (d <> d') by (intros ->; apply Hni; left).
  lia.
Qed.

(** X21.  Check-ins come back in the order of the calendar.  When the
    days stored for a habit are the ISO texts of dates, as the pages write
    them, the list [list_checkins_for_habit] returns is in ascending order
    of these dates; with the UNIQUE constraint the order is strict. *)
Theorem list_checkins_for_habit_chronological
  (habit_id : Z) (db : database) (ds : list date) :
  Forall (fun d => 1 <= d <= MAXORDINAL) ds ->
  map day (list_checkins_for_habit habit_id db) = map date_isoformat ds ->
  Sorted Z.le ds /\ (checkins_unique db -> Sorted Z.lt ds).
Proof.
  intros Hds E.
  assert (Sorted Z.le ds) as Hle.
  { apply (Sorted_days (list_checkins_for_habit habit_id db) ds Hds E).
    unfold list_checkins_for_habit, connect_read. simpl.
    apply Sorted_merge_sort, StoreFacts.leb_total_on. }
  split; [exact Hle|]. intros Hu.
  apply Sorted_le_NoDup_lt; [exact Hle|].
  assert (NoDup (map day (list_checkins_for_habit habit_id db))) as Hnd.
  { unfold list_checkins_for_habit, connect_read. simpl.
    rewrite (Permutation_map day (merge_sort_Permutation _ _)), map_map. simpl.
    apply LookupFacts.days_of_habit_NoDup. exact Hu. }
  rewrite E in Hnd. apply (NoDup_fmap_1 date_isoformat). exact Hnd.
Qed.

(** X22.  A range of days, asked with ISO texts.  Among the check-ins
    whose day is the ISO text of a date, [list_checkins_between] called
    with the texts of two dates returns exactly those of the dates from the
    first to the second, both included; it returns none of them when the
    first date is after the second. *)
Theorem list_checkins_between_dates
  (db : database) (a b d : date) (habit_id : Z) (c : checkin) :
  1 <= a <= MAXORDINAL -> 1 <= b <= MAXORDINAL -> 1 <= d <= MAXORDINAL ->
  day c = date_isoformat d ->
  (In (habit_id, c)
      (list_checkins_between (date_isoformat a) (date_isoformat b) db)
   <-> (exists r, In r (checkins db) /\ row_habit_id r = habit_id
                  /\ checkin_of_row r = c)
       /\ a <= d <= b)
  /\ (b < a ->
      ~ In (habit_id, c)
           (list_checkins_between (date_isoformat a) (date_isoformat b) db)).
Proof.
  intros Ha Hb Hd Ec.
  assert (In (habit_id, c)
             (list_checkins_between (date_isoformat a) (date_isoformat b) db)
          <-> (exists r, In r (checkins db) /\ row_habit_id r = habit_id
                         /\ checkin_of_row r = c)
              /\ a <= d <= b) as Hiff.
  { unfold list_checkins_between, connect_read. simpl.
    rewrite in_map_iff. split.
    - intros (r & Er & Hr). apply filter_In in Hr as [Hr Hb'].
      injection Er as E1 E2.
      assert (row_day r = date_isoformat d) as Eday by (rewrite <- Ec, <- E2; reflexivity).
      rewrite Eday, !date_isoformat_leb in Hb' by assumption.
      apply andb_true_iff in Hb' as [H1 H2]. apply Z.leb_le in H1, H2.
      split; [exists r; auto|lia].
    - intros [(r & Hr & E1 & E2) Hrange]. exists r.
      split; [rewrite E1, E2; reflexivity|].
      apply filter_In. split; [exact Hr|].
      assert (row_day r = date_isoformat d) as Eday by (rewrite <- Ec, <- E2; reflexivity).
      rewrite Eday, !date_isoformat_leb by assumption.
      apply andb_true_iff. split; apply Z.leb_le; lia. }
  split; [exact Hiff|]. intros Hlt Hin. apply Hiff in Hin. lia.
Qed.

End IsoOrderFacts.

Module WorkedDates.
Import Py Db Gregorian IsoOrderFacts.

Lemma list_checkins_for_habit_chronological_witness :
  map day (list_checkins_for_habit 1 Examples.late_entry)
  = map date_isoformat [ymd2ord 2024 1 1; ymd2ord 2024 1 3]
  /\ Sorted Z.lt [ymd2ord 2024 1 1; ymd2ord 2024 1 3].
Proof.
  assert (map day (list_checkins_for_habit 1 Examples.late_entry)
          = map date_isoformat [ymd2ord 2024 1 1; ymd2ord 2024 1 3]) as E
      by (vm_compute; reflexivity).
  split; [exact E|].
  refine (proj2 (list_checkins_for_habit_chronological 1 Examples.late_entry
                   [ymd2ord 2024 1 1; ymd2ord 2024 1 3] _ E) _).
  - repeat constructor; vm_compute; discriminate.
  - apply (UpsertFacts.run_unique).
Defined.

Lemma list_checkins_between_dates_witness :
  In (1, {| day := "2024-01-03"; done := 1; note := Some ""%string |})
     (list_checkins_between (date_isoformat (ymd2ord 2024 1 2))
                            (date_isoformat (ymd2ord 2024 1 31))
                            Examples.late_entry)
  <-> (exists r, In r (checkins Examples.late_entry) /\ row_habit_id r = 1
         /\ checkin_of_row r
            = {| day := "2024-01-03"; done := 1; note := Some ""%string |})
      /\ ymd2ord 2024 1 2 <= ymd2ord 2024 1 3 <= ymd2ord 2024 1 31.
Proof.
  refine (proj1 (list_checkins_between_dates Examples.late_entry
            (ymd2ord 2024 1 2) (ymd2ord 2024 1 31) (ymd2ord 2024 1 3) 1
            {| day := "2024-01-03"; done := 1; note := Some ""%string |}
            _ _ _ _)).
  - split; vm_compute; discriminate.
  - split; vm_compute; discriminate.
  - split; vm_compute; discriminate.
  - vm_compute. reflexivity.
Defined.

End WorkedDates.

(* ================================================================== *)
(** * The check-in page *)
(* ================================================================== *)

Module CheckinPageFacts.
Import Py Db Metrics CheckinPage StoreFacts.

(** What one [upsert_checkin] changes, as [get_checkin] shows it. *)
Lemma upsert_checkin_effect habit_id dy dn nt cat db :
  exists db' r,
    upsert_checkin habit_id dy dn nt cat db = Ok db'
    /\ get_checkin habit_id dy db' = Some r
    /\ row_done r = (if dn then 1 else 0)
    /\ row_note r = Some (strip nt)
    /\ (forall habit_id' dy', (habit_id', dy') <> (habit_id, dy) ->
          get_checkin habit_id' dy' db' = get_checkin habit_id' dy' db)
    /\ habits db' = habits db.
Proof.
  destruct (UpsertFacts.upsert_checkin_cases habit_id dy dn nt cat db)
    as (db' & E & Hh & [[Ex Hc]|[Ex Hc]]); exists db'.
  - destruct (find_existsb _ _ Ex) as (r0 & Hr0).
    exists (update_row (if dn then 1 else 0) (strip nt) r0).
    split; [exact E|]. unfold get_checkin, connect_read. simpl. rewrite Hc.
    split; [apply find_same_key_update; exact Hr0|].
    split; [reflexivity|]. split; [reflexivity|]. split; [|exact Hh].
    intros h' d' Hne. apply find_other_key_update. exact Hne.
  - eexists. split; [exact E|]. unfold get_checkin, connect_read. simpl. rewrite Hc.
    split.
    { rewrite find_snoc_absent by exact Ex. unfold same_key. simpl.
      rewrite Z.eqb_refl, String.eqb_refl. reflexivity. }
    simpl. split; [reflexivity|]. split; [reflexivity|]. split; [|exact Hh].
    intros h' d' Hne. apply find_snoc_other. unfold same_key. simpl.
    destruct (Z.eqb_spec habit_id h'), (String.eqb_spec dy d'); simpl;
      try reflexivity. congruence.
Qed.

Section WithCalendar.
Context `{Calendar}.

Lemma existing_lookup db chosen l : forall (m : gmap Z (option checkin_row)) h,
  In h l \/ m !! id h = Some (get_checkin (id h) (isoformat chosen) db) ->
  foldl (fun m h => <[id h := get_checkin (id h) (isoformat chosen) db]> m) m l
    !! id h
  = Some (get_checkin (id h) (isoformat chosen) db).
Proof.
  induction l as [|x l IH]; intros m h Hor; simpl.
  - destruct Hor as [[]|Hm]. exact Hm.
  - apply IH. destruct (Z.eq_dec (id x) (id h)) as [E|Hne].
    + right. rewrite E. apply lookup_insert_eq.
    + destruct Hor as [[->|Hin]|Hm]; [contradiction|left; exact Hin|].
      right. rewrite lookup_insert_ne by exact Hne. exact Hm.
Qed.


(** The loop of "Mark all done", from any point of its run: [db0] is the
    store the page has read, [cur] the store the loop has reached. *)
Lemma mark_all_spec ex chosen now_iso db0 : forall l k cur,
  NoDup (map id l) ->
  (forall h, In h l ->
     ex !! id h = Some (get_checkin (id h) (isoformat chosen) db0)) ->
  (forall h, In h l ->
     get_checkin (id h) (isoformat chosen) cur
     = get_checkin (id h) (isoformat chosen) db0) ->
  (forall h r, In h l ->
     get_checkin (id h) (isoformat chosen) db0 = Some r -> row_note r <> None) ->
  exists db',
    mark_all ex chosen now_iso k l cur = Saved db'
    /\ habits db' = habits cur
    /\ (forall h, In h l ->
          exists r nt,
            get_checkin (id h) (isoformat chosen) db' = Some r
            /\ row_done r = 1
            /\ note_of (ex !! id h) = Some nt
            /\ row_note r = Some (strip nt))
    /\ (forall habit_id dy,
          dy <> isoformat chosen \/ ~ In habit_id (map id l) ->
          get_checkin habit_id dy db' = get_checkin habit_id dy cur).
Proof.
  induction l as [|h l IH]; intros k cur Hnd Hex Hcur Hnotes.
  - exists cur. split; [reflexivity|]. split; [reflexivity|].
    split; [intros h []|reflexivity].
  - simpl in Hnd. apply NoDup_cons in Hnd as [Hni Hnd].
    assert (exists nt, note_of (ex !! id h) = Some nt) as [nt Hnt].
    { rewrite (Hex h (or_introl eq_refl)). simpl.
      destruct (get_checkin (id h) (isoformat chosen) db0) as [r|] eqn:Eg;
        [|eexists; reflexivity].
      destruct (row_note r) as [n|] eqn:En; [eexists; reflexivity|].
      exfalso. exact (Hnotes h r (or_introl eq_refl) Eg En). }
    destruct (upsert_checkin_effect (id h) (isoformat chosen) true nt (now_iso k) cur)
      as (db1 & r1 & E1 & Hg1 & Hd1 & Hn1 & Hother & Hh1).
    assert (forall h', In h' l -> id h' <> id h) as Hids.
    { intros h' Hin E. apply Hni. rewrite <- E. apply list_elem_of_In.
      apply in_map. exact Hin. }
    destruct (IH (S k) db1 Hnd) as (db' & E' & Hh' & Hdone & Hkeep).
    + intros h' Hin. apply Hex. right. exact Hin.
    + intros h' Hin. rewrite Hother; [apply Hcur; right; exact Hin|].
      intros E. injection E as E. exact (Hids h' Hin E).
    + intros h' r Hin. apply Hnotes. right. exact Hin.
    + exists db'. split; [simpl; rewrite Hnt, E1; exact E'|].
      split; [rewrite Hh'; exact Hh1|]. split.
      * intros h' [<-|Hin]; [|apply Hdone; exact Hin].
        exists r1, nt. split.
        { rewrite Hkeep; [exact Hg1|]. right. intros Hin.
          apply Hni. apply list_elem_of_In. exact Hin. }
        split; [exact Hd1|]. split; [exact Hnt|exact Hn1].
      * intros habit_id dy Hor. rewrite Hkeep.
        { apply Hother. intros E. injection E as E1' E2'.
          destruct Hor as [Hdy|Hid]; [contradiction|].
          apply Hid. left. symmetry. exact E1'. }
        { destruct Hor as [Hdy|Hid]; [left; exact Hdy|].
          right. intros Hin. apply Hid. right. exact Hin. }
Qed.

(** X23.  The button "Mark all done".  In a store where the ids of the
    habits are distinct and no note is NULL, as the application leaves it,
    the click succeeds; afterwards every habit that is due on the chosen
    day has a check-in for that day marked done, whose note is the stripped
    note it had before or the empty text if there was none; the habits and
    every other check-in are as before. *)
Theorem mark_all_done_marks (db : database) (chosen : date)
  (now_iso : nat -> string) :
  NoDup (map id (habits db)) ->
  (forall r, In r (checkins db) -> row_note r <> None) ->
  exists db',
    mark_all_done db chosen now_iso = Saved db'
    /\ habits db' = habits db
    /\ (forall h, In h (habits db) -> is_due_on h chosen = true ->
          exists r,
            get_checkin (id h) (isoformat chosen) db' = Some r
            /\ row_done r = 1
            /\ (forall r0,
                  get_checkin (id h) (isoformat chosen) db = Some r0 ->
                  exists n, row_note r0 = Some n /\ row_note r = Some (strip n))
            /\ (get_checkin (id h) (isoformat chosen) db = None ->
                row_note r = Some ""%string))
    /\ (forall habit_id dy,
          dy <> isoformat chosen
          \/ (forall h, In h (habits db) -> is_due_on h chosen = true ->
                id h <> habit_id) ->
          get_checkin habit_id dy db' = get_checkin habit_id dy db).
Proof.
  intros Hnd Hnotes. unfold mark_all_done.
  set (l := due (list_habits db) chosen).
  assert (forall h, In h l <-> In h (habits db) /\ is_due_on h chosen = true) as Hl.
  { intros h. unfold l, due, list_habits, connect_read. simpl.
    rewrite filter_In, <- !list_elem_of_In, merge_sort_Permutation. reflexivity. }
  assert (NoDup (map id l)) as Hndl.
  { unfold l, due. apply LookupFacts.NoDup_map_filter.
    unfold list_habits, connect_read. simpl.
    rewrite (Permutation_map id (merge_sort_Permutation _ _)). exact Hnd. }
  destruct (mark_all_spec (existing db l chosen) chosen now_iso db l 0%nat db Hndl)
    as (db' & E & Hh & Hdone & Hkeep).
  - intros h Hin. unfold existing. apply existing_lookup. left. exact Hin.
  - reflexivity.
  - intros h r _ Eg. apply Hnotes.
    unfold get_checkin, connect_read in Eg. simpl in Eg.
    apply find_some in Eg as [Hin _]. exact Hin.
  - exists db'. split; [exact E|]. split; [exact Hh|]. split.
    + intros h Hin Hdue.
      destruct (Hdone h (proj2 (Hl h) (conj Hin Hdue))) as (r & nt & Hg & Hd & Hnt & Hn).
      exists r. split; [exact Hg|]. split; [exact Hd|].
      unfold existing in Hnt.
      rewrite (existing_lookup db chosen l ∅ h) in Hnt
        by (left; apply Hl; split; assumption).
      simpl in Hnt. split.
      * intros r0 E0. rewrite E0 in Hnt. exists nt. split; [exact Hnt|exact Hn].
      * intros E0. rewrite E0 in Hnt. injection Hnt as <-. exact Hn.
    + intros habit_id dy Hor. apply Hkeep.
      destruct Hor as [Hdy|Hid]; [left; exact Hdy|]. right.
      intros Hin. apply in_map_iff in Hin as (h & Eh & Hin).
      apply Hl in Hin as [Hin Hdue]. exact (Hid h Hin Hdue Eh).
Qed.

End WithCalendar.
End CheckinPageFacts.

Module WorkedCheckin.
Import Py Db CheckinPage CheckinPageFacts.
Local Existing Instance Gregorian.calendar.

Lemma mark_all_done_marks_witness :
  exists db',
    mark_all_done Examples.late_entry (Gregorian.ymd2ord 2024 1 2)
                  (fun _ => "2024-01-05T10:00:00"%string) = Saved db'
    /\ habits db' = habits Examples.late_entry.
Proof.
  destruct (mark_all_done_marks Examples.late_entry (Gregorian.ymd2ord 2024 1 2)
              (fun _ => "2024-01-05T10:00:00"%string))
    as (db' & E & Hh & _).
  - vm_compute. apply NoDup_singleton.
  - intros r Hin. vm_compute in Hin.
    destruct Hin as [<-|[<-|[]]]; discriminate.
  - exists db'. split; [exact E|exact Hh].
Defined.

End WorkedCheckin.

(* ================================================================== *)
(** * The texts of the store *)
(* ================================================================== *)

Module StripFacts.
Import Py Db TextFacts.

Lemma lstrip_idem s : lstrip (lstrip s) = lstrip s.
Proof.
  induction s as [|c s IH]; [reflexivity|].
  simpl. destruct (isspace c) eqn:E; [exact IH|]. simpl. rewrite E. reflexivity.
Qed.

Lemma rstrip_idem s : rstrip (rstrip s) = rstrip s.
Proof.
  unfold rstrip. rewrite rev_involutive, lstrip_idem. reflexivity.
Qed.

Lemma rev_app_app w : forall v acc,
  String.rev_app (w ++ v) acc = String.rev_app v (String.rev_app w acc).
Proof.
  induction w as [|c w IH]; intros v acc; [reflexivity|].
  change (String.rev_app (w ++ v) (String c acc)
          = String.rev_app v (String.rev_app w (String c acc))).
  apply IH.
Qed.

Lemma append_assoc (a b c : string) : ((a ++ b) ++ c = a ++ (b ++ c))%string.
Proof.
  induction a as [|x a IH]; [reflexivity|].
  change (String x ((a ++ b) ++ c) = String x (a ++ (b ++ c)))%string.
  f_equal. exact IH.
Qed.

Lemma rev_app_acc s : forall acc,
  String.rev_app s acc = (String.rev_app s "" ++ acc)%string.
Proof.
  induction s as [|c s IH]; intros acc; [reflexivity|].
  simpl. rewrite (IH (String c acc)), (IH (String c "")).
  rewrite append_assoc. reflexivity.
Qed.

(** [lstrip] does not reach past a character that is not white space. *)
Lemma lstrip_snoc w c :
  isspace c = false ->
  exists w', lstrip (w ++ String c "") = (w' ++ String c "")%string.
Proof.
  intros Hc. induction w as [|a w IH].
  - exists ""%string. simpl. rewrite Hc. reflexivity.
  - change (exists w', (if isspace a then lstrip (w ++ String c "")
                        else String a (w ++ String c ""))
                       = (w' ++ String c ""))%string.
    destruct (isspace a); [exact IH|]. exists (String a w). reflexivity.
Qed.

(** [rstrip] keeps a first character that is not white space. *)
Lemma rstrip_head c u :
  isspace c = false -> exists u', rstrip (String c u) = String c u'.
Proof.
  intros Hc. unfold rstrip, String.rev.
  change (String.rev_app (String c u) "") with (String.rev_app u (String c "")).
  rewrite (rev_app_acc u (String c "")).
  destruct (lstrip_snoc (String.rev_app u "") c Hc) as [w' ->].
  rewrite rev_app_app. simpl. eexists. reflexivity.
Qed.

Lemma strip_idem s : strip (strip s) = strip s.
Proof.
  unfold strip.
  assert (lstrip (rstrip (lstrip s)) = rstrip (lstrip s)) as ->.
  { pose proof (lstrip_idem s) as Hl. destruct (lstrip s) as [|c u] eqn:E.
    - reflexivity.
    - simpl in Hl. destruct (isspace c) eqn:Ec.
      + (* a stripped text does not start with white space *)
        exfalso. clear Hl. revert E. clear - Ec.
        induction s as [|a s IH]; simpl; [discriminate|].
        destruct (isspace a) eqn:Ea; [exact IH|].
        intros E. injection E as -> _. congruence.
      + destruct (rstrip_head c u Ec) as [u' ->]. simpl. rewrite Ec. reflexivity. }
  apply rstrip_idem.
Qed.


Lemma stripped_strip s : stripped (Some (strip s)).
Proof. exists (strip s). split; [reflexivity|apply strip_idem]. Qed.

Lemma apply_op_text_stripped db o :
  text_stripped db -> text_stripped (apply_op db o).
Proof.
  intros Hs. unfold apply_op. destruct (run_op o db) as [db'|e] eqn:E; [|exact Hs].
  destruct Hs as [Hh Hc]. destruct o; simpl in E.
  - injection E as <-. split; assumption.
  - destruct (StoreFacts.create_habit_cases nm desc st cd cat db) as [[_ E']|[_ E']];
      rewrite E' in E; [discriminate|]. injection E as <-.
    split; [|exact Hc]. simpl. intros h Hin. apply in_app_iff in Hin as [Hin|[<-|[]]].
    + apply Hh. exact Hin.
    + simpl. split; [apply strip_idem|]. split; [apply stripped_strip|].
      split; [discriminate|apply stripped_strip].
  - destruct (StoreFacts.update_habit_cases habit_id nm desc st cd db)
      as [[_ E']|[_ E']]; rewrite E' in E; [discriminate|]. injection E as <-.
    split; [|exact Hc]. simpl. intros h Hin. apply in_map_iff in Hin as (h0 & <- & Hin).
    destruct (id h0 =? habit_id); [|apply Hh; exact Hin].
    simpl. split; [apply strip_idem|]. split; [apply stripped_strip|].
    split; [discriminate|apply stripped_strip].
  - injection E as <-. split; simpl.
    + intros h Hin. apply filter_In in Hin as [Hin _]. apply Hh. exact Hin.
    + exact Hc.
  - destruct (UpsertFacts.upsert_checkin_cases habit_id dy dn nt cat db)
      as (db1 & E1 & Hh1 & Hcases). rewrite E1 in E. injection E as <-.
    split; [rewrite Hh1; exact Hh|].
    intros r Hin. destruct Hcases as [[_ Hrows]|[_ Hrows]]; rewrite Hrows in Hin.
    + apply in_map_iff in Hin as (r0 & <- & Hin).
      destruct (same_key habit_id dy r0); [apply stripped_strip|apply Hc; exact Hin].
    + apply in_app_iff in Hin as [Hin|[<-|[]]]; [apply Hc; exact Hin|].
      apply stripped_strip.
  - injection E as <-. split; assumption.
Qed.

(** X24.  No text of the store is NULL or padded.  Whatever the
    application has done to the file, every habit has a name, a description
    and a custom-days text that [strip] leaves alone and a schedule type,
    and every check-in has a note that [strip] leaves alone; in particular
    no such column holds NULL. *)
Theorem run_text_stripped (ops : list op) : text_stripped (run ops).
Proof.
  unfold run.
  assert (text_stripped empty_database) as H0 by (split; intros x []).
  revert H0. generalize empty_database.
  induction ops as [|o ops IH]; intros db Hs; [exact Hs|].
  simpl. apply IH, apply_op_text_stripped, Hs.
Qed.

End StripFacts.

(* ================================================================== *)
(** * The ids of the habits *)
(* ================================================================== *)

Module IdFacts.
Import Py Db StoreFacts.

(** One operation: the counter does not go down, and a habit whose id is
    within the old counter is an old habit, with its id and creation time. *)
Lemma apply_op_ids db o :
  habits_seq db <= habits_seq (apply_op db o)
  /\ forall h, In h (habits (apply_op db o)) -> id h <= habits_seq db ->
       exists h0, In h0 (habits db) /\ id h0 = id h
                  /\ created_at h0 = created_at h.
Proof.
  unfold apply_op. destruct (run_op o db) as [db'|e] eqn:E.
  2:{ split; [lia|]. intros h Hin _. exists h. auto. }
  destruct o; simpl in E.
  - injection E as <-. split; [lia|]. intros h Hin _. exists h. auto.
  - destruct (create_habit_cases nm desc st cd cat db) as [[_ E']|[_ E']];
      rewrite E' in E; [discriminate|]. injection E as <-. simpl.
    split; [lia|]. intros h Hin Hle. apply in_app_iff in Hin as [Hin|[<-|[]]].
    + exists h. auto.
    + simpl in Hle. lia.
  - destruct (update_habit_cases habit_id nm desc st cd db) as [[_ E']|[_ E']];
      rewrite E' in E; [discriminate|]. injection E as <-. simpl.
    split; [lia|]. intros h Hin _. apply in_map_iff in Hin as (h0 & <- & Hin).
    exists h0. split; [exact Hin|]. destruct (id h0 =? habit_id); split; reflexivity.
  - injection E as <-. simpl. split; [lia|]. intros h Hin _.
    apply filter_In in Hin as [Hin _]. exists h. auto.
  - destruct (UpsertFacts.upsert_checkin_cases habit_id dy dn nt cat db)
      as (db1 & E1 & Hh1 & _). rewrite E1 in E. injection E as <-.
    unfold upsert_checkin, connect, upsert_checkin_row in E1. simpl in E1.
    destruct (existsb _ _) in E1; injection E1 as <-; simpl;
      (split; [lia|]; intros h Hin _; exists h; auto).
  - injection E as <-. simpl. split; [lia|]. intros h Hin _. exists h. auto.
Qed.

Lemma fold_apply_op_ids ops : forall db,
  habits_seq db <= habits_seq (fold_left apply_op ops db)
  /\ forall h, In h (habits (fold_left apply_op ops db)) ->
       id h <= habits_seq db ->
       exists h0, In h0 (habits db) /\ id h0 = id h
                  /\ created_at h0 = created_at h.
Proof.
  induction ops as [|o ops IH]; intros db.
  - split; [simpl; lia|]. intros h Hin _. exists h. auto.
  - simpl. destruct (apply_op_ids db o) as [Hle1 Hold1].
    destruct (IH (apply_op db o)) as [Hle Hold]. split; [lia|].
    intros h Hin Hid. destruct (Hold h Hin) as (h1 & Hin1 & Eid & Ecat); [lia|].
    destruct (Hold1 h1 Hin1) as (h0 & Hin0 & Eid0 & Ecat0); [lia|].
    exists h0. split; [exact Hin0|]. split; congruence.
Qed.

(** X25.  Ids of habits are not used twice.  Along any run of the
    application the AUTOINCREMENT counter never goes down, and a habit
    found later with an id within an earlier counter is a habit of that
    earlier time, with the same id and creation time: once a habit is
    deleted, no later habit gets its id, so the check-ins it left behind
    are never taken for those of a new habit. *)
Theorem habit_ids_not_reused (ops1 ops2 : list op) (h : habit) :
  In h (habits (run (ops1 ++ ops2))) ->
  id h <= habits_seq (run ops1) ->
  habits_seq (run ops1) <= habits_seq (run (ops1 ++ ops2))
  /\ exists h0, In h0 (habits (run ops1)) /\ id h0 = id h
                /\ created_at h0 = created_at h.
Proof.
  unfold run. rewrite fold_left_app. intros Hin Hle.
  destruct (fold_apply_op_ids ops2 (fold_left apply_op ops1 empty_database))
    as [Hmono Hold].
  split; [exact Hmono|]. apply Hold; assumption.
Qed.

Lemma habit_ids_not_reused_witness :
  exists h0,
    In h0 (habits (run [OpInit; OpCreateHabit "Read" "" "daily" "" "t1";
                        OpCreateHabit "Run" "" "daily" "" "t2";
                        OpDeleteHabit 1]))
    /\ id h0 = 2 /\ created_at h0 = "t2"%string.
Proof.
  refine (proj2 (habit_ids_not_reused
            [OpInit; OpCreateHabit "Read" "" "daily" "" "t1";
             OpCreateHabit "Run" "" "daily" "" "t2"; OpDeleteHabit 1]
            [OpCreateHabit "Swim" "" "daily" "" "t3";
             OpUpdateHabit 2 "Jog" "" "weekdays" "" ]
            {| id := 2; name := "Jog"; description := Some ""%string;
               schedule_type := Some "weekdays"%string;
               custom_days := Some ""%string; created_at := "t2" |} _ _)).
  - vm_compute. left. reflexivity.
  - vm_compute. discriminate.
Defined.

End IdFacts.

(* ================================================================== *)
(** * The form of the habits page *)
(* ================================================================== *)

Module FormFacts.
Import Py Db Metrics HabitsPage StoreFacts ScheduleFacts ParserFacts TextFacts
       RoundTripFacts.

Lemma new_selected_sorted ticked :
  Sorted Z.lt (new_selected ticked)
  /\ Forall (fun d => 0 <= d <= 6) (new_selected ticked).
Proof.
  unfold new_selected. simpl.
  destruct (ticked 0), (ticked 1), (ticked 2), (ticked 3), (ticked 4),
           (ticked 5), (ticked 6);
    (split; [repeat constructor|repeat constructor; lia]).
Qed.

Lemma new_selected_elem ticked n :
  0 <= n <= 6 -> (In n (new_selected ticked) <-> ticked n = true).
Proof.
  intros Hn. unfold new_selected. rewrite filter_In. split.
  - intros [_ Ht]. exact Ht.
  - intros Ht. split; [simpl; lia|exact Ht].
Qed.

(** The text of the ticked days, and what the two parsers read from it. *)
Lemma ticks_round_trip ticked :
  exists s,
    days_to_string (new_selected ticked) = Ok s
    /\ strip s = s
    /\ string_to_days (Some s) = new_selected ticked
    /\ parse_custom_days (Some s) = list_to_set (new_selected ticked).
Proof.
  destruct (new_selected_sorted ticked) as [Hsorted Hrange].
  set (sel := new_selected ticked) in *.
  destruct (Sorted_lt_le sel Hsorted) as [Hle Hnd].
  assert (merge_sort Z.le sel = sel) as Hsort.
  { apply (Sorted_unique Z.le); [apply Sorted_merge_sort, Z_le_total|exact Hle|].
    apply merge_sort_Permutation. }
  destruct (map_result_total str sel) as [parts Hparts].
  { eapply Forall_impl; [exact Hrange|]. intros d Hd. apply str_of_weekday, Hd. }
  assert (days_to_string sel = Ok (String.concat "," parts)) as E
      by (unfold days_to_string; rewrite Hsort, Hparts; reflexivity).
  exists (String.concat "," parts). split; [exact E|].
  destruct (days_to_string_read sel _ E) as (Hstrip & Hparse & Hform).
  split; [exact Hstrip|]. rewrite Hsort in Hparse, Hform. split; [|exact Hparse].
  rewrite Hform.
  assert (List.filter (fun d => (0 <=? d) && (d <=? 6)) sel = sel) as ->.
  { clear - Hrange. induction Hrange as [|d l Hd Hl IH]; [reflexivity|].
    simpl. rewrite (proj2 (in_range_spec d) Hd), IH. reflexivity. }
  apply (Sorted_unique Z.le); [apply Sorted_merge_sort, Z_le_total|exact Hle|].
  rewrite merge_sort_Permutation. apply elements_list_to_set. exact Hnd.
Qed.

(** X26.  Saving a new habit with custom days.  A click on "Save" with a
    blank name writes nothing; with a name that is taken the store refuses
    and nothing is written; otherwise the habit is stored under the next id,
    it is due exactly on the days whose weekday box was ticked, the form
    shows the same boxes ticked when the habit is edited, and no check-in
    changes. *)
Theorem save_custom_habit (db : database) (nm desc : string)
  (ticked : Z -> bool) (now : string) :
  habits_wf db ->
  (strip nm = ""%string ->
   save db None nm desc "custom" ticked now = Ok NoName)
  /\ (strip nm <> ""%string -> name_taken (strip nm) None db = true ->
      save db None nm desc "custom" ticked now = Ok (NotSaved IntegrityError))
  /\ (strip nm <> ""%string -> name_taken (strip nm) None db = false ->
      exists db' h,
        save db None nm desc "custom" ticked now = Ok (SavedAs db')
        /\ get_habit (habits_seq db + 1) db' = Some h
        /\ name h = strip nm
        /\ (forall d, is_due_on h d = ticked (weekday d))
        /\ string_to_days (custom_days h) = new_selected ticked
        /\ checkins db' = checkins db).
Proof.
  intros Hwf. destruct (ticks_round_trip ticked) as (s & Es & Hstrip & Hform & Hparse).
  unfold save. change (String.eqb "custom" "custom") with true. cbv iota.
  rewrite Es. simpl bind.
  destruct (String.eqb_spec (strip nm) "") as [Eblank|Hnm].
  - split; [reflexivity|]. split; intros Hne; contradiction.
  - split; [intros E; contradiction|].
    destruct (create_habit_cases nm desc "custom" s now db) as [[Ht E]|[Hf E]];
      rewrite E.
    + split; [reflexivity|]. intros _ Hfree. congruence.
    + split; [intros _ Ht; congruence|]. intros _ _.
      eexists. eexists. split; [reflexivity|].
      destruct Hwf as (Hn & Hi & H0 & Hb). split.
      * unfold get_habit, connect_read. simpl.
        apply (find_id_snoc (habits db)
                 {| id := habits_seq db + 1; name := strip nm;
                    description := Some (strip desc);
                    schedule_type := Some "custom"%string;
                    custom_days := Some (strip s); created_at := now |}).
        simpl. intros Hin. apply in_map_iff in Hin as (h & Eh & Hin).
        specialize (Hb h Hin). lia.
      * split; [reflexivity|]. simpl. rewrite Hstrip.
        split; [|split; [exact Hform|reflexivity]].
        intros d. unfold is_due_on. simpl. rewrite Hparse.
        pose proof (weekday_range d) as Hw.
        pose proof (new_selected_elem ticked (weekday d) Hw) as Hel.
        destruct (ticked (weekday d)).
        -- apply bool_decide_eq_true. apply elem_of_list_to_set, list_elem_of_In.
           apply Hel. reflexivity.
        -- apply bool_decide_eq_false. rewrite elem_of_list_to_set, list_elem_of_In.
           intros Hin. apply Hel in Hin. discriminate.
Qed.

Lemma save_custom_habit_witness :
  exists db' h,
    save Examples.late_entry None " Swim " "" "custom" (fun d => d =? 2) "t"
    = Ok (SavedAs db')
    /\ get_habit (habits_seq Examples.late_entry + 1) db' = Some h
    /\ name h = "Swim"%string
    /\ forall d, is_due_on h d = (weekday d =? 2).
Proof.
  destruct (proj2 (proj2 (save_custom_habit Examples.late_entry " Swim " ""
                            (fun d => d =? 2) "t" (run_wf _))))
    as (db' & h & E & Hg & Hn & Hdue & _).
  - vm_compute. discriminate.
  - vm_compute. reflexivity.
  - exists db', h. split; [exact E|]. split; [exact Hg|].
    split; [exact Hn|exact Hdue].
Defined.

End FormFacts.

(* ================================================================== *)
(** * The dashboard of today *)
(* ================================================================== *)

Module TodayFacts.
Import Py Db Metrics Gregorian StoreFacts CurrentStreakFacts.

Section AnyCalendar.
Context `{Calendar}.

(** Once the streak has begun, the walk can only add to it. *)
Lemma loop_keeps_streak (h : habit) (lookup : gmap string Z) (today : date) :
  forall fuel cur streak r,
    1 <= streak ->
    current_streak_loop fuel h lookup today cur streak = Some r ->
    streak <= r.
Proof.
  induction fuel as [|fuel IH]; intros cur streak r Hs E; [discriminate|].
  simpl in E. destruct (is_due_on h cur); simpl in E.
  - destruct (is_done lookup (isoformat cur)).
    + apply IH in E; lia.
    + injection E as <-. lia.
  - destruct (Z.eqb_spec streak 0) as [E0|_]; [lia|]. simpl in E.
    apply IH in E; lia.
Qed.

Lemma loop_due_step (h : habit) (lookup : gmap string Z) (today cur : date)
  fuel streak :
  is_due_on h cur = true ->
  current_streak_loop (S fuel) h lookup today cur streak
  = if is_done lookup (isoformat cur)
    then current_streak_loop fuel h lookup today (cur - 1) (streak + 1)
    else Some streak.
Proof. intros Hdue. simpl. rewrite Hdue. reflexivity. Qed.

(** A due day that is done today starts the streak; one that is not done
    ends it at once. *)
Lemma loop_today (h : habit) (lookup : gmap string Z) (today : date) fuel r :
  is_due_on h today = true ->
  current_streak_loop (S fuel) h lookup today today 0 = Some r ->
  (is_done lookup (isoformat today) = true -> 1 <= r)
  /\ (is_done lookup (isoformat today) = false -> r = 0).
Proof.
  intros Hdue E. rewrite (loop_due_step h lookup today today fuel 0 Hdue) in E.
  destruct (is_done lookup (isoformat today)).
  - split; [|discriminate]. intros _.
    apply loop_keeps_streak in E; lia.
  - split; [discriminate|]. intros _. injection E as <-. reflexivity.
Qed.

End AnyCalendar.

Local Existing Instance Gregorian.calendar.

(** X27.  Marking today done starts the streak.  For a habit that is due
    today, the button "Mark done" stores a done check-in for today, after
    which the streak shown for the habit is at least 1; as long as today's
    check-in is missing or not done, the streak shown is 0. *)
Theorem mark_done_starts_streak (db : database) (h : habit) (today : date)
  (nt cat : string) :
  checkins_unique db ->
  is_due_on h today = true ->
  7 * (Z.of_nat (length (checkins db)) + 2) <= today <= MAXORDINAL ->
  (is_done (checkin_lookup (list_checkins_for_habit (id h) db))
           (date_isoformat today) = false ->
   current_streak h (list_checkins_for_habit (id h) db) today = Some 0)
  /\ exists db' r,
       upsert_checkin (id h) (date_isoformat today) true nt cat db = Ok db'
       /\ current_streak h (list_checkins_for_habit (id h) db') today = Some r
       /\ 1 <= r.
Proof.
  intros Hu Hdue Htoday.
  assert (forall db0, (length (checkins db0) <= S (length (checkins db)))%nat ->
            exists r, current_streak h (list_checkins_for_habit (id h) db0) today
                      = Some r
                      /\ current_streak_loop
                           (S (current_streak_fuel (list_checkins_for_habit (id h) db0)))
                           h (checkin_lookup (list_checkins_for_habit (id h) db0))
                           today today 0 = Some r) as Hret.
  { intros db0 Hlen.
    assert (length (list_checkins_for_habit (id h) db0) <= length (checkins db0))%nat
      as Hl.
    { unfold list_checkins_for_habit, connect_read. simpl.
      rewrite (Permutation_length (merge_sort_Permutation _ _)), length_map.
      apply filter_length_le. }
    destruct (current_streak_terminates h (list_checkins_for_habit (id h) db0) today)
      as (r & Er & _ & Hfuel).
    - intros a b Ha Hb. apply GregorianFacts.date_isoformat_inj; lia.
    - exists r. split; [exact Er|]. apply Hfuel. apply Nat.le_succ_diag_r. }
  split.
  - intros Hmiss. destruct (Hret db ltac:(lia)) as (r & Er & El).
    rewrite Er. f_equal.
    apply (proj2 (loop_today h _ today _ r Hdue El)). exact Hmiss.
  - destruct (UpsertFacts.upsert_checkin_cases (id h) (date_isoformat today) true
                nt cat db) as (db' & E & _ & Hcases).
    pose proof (UpsertFacts.upsert_checkin_unique _ _ _ _ _ _ _ Hu E) as Hu'.
    assert (exists r0, In r0 (checkins db') /\ row_habit_id r0 = id h
                       /\ row_day r0 = date_isoformat today /\ row_done r0 = 1)
      as (r0 & Hin & Hid & Hday & Hdone).
    { destruct Hcases as [[Ex Hrows]|[Ex Hrows]]; rewrite Hrows.
      - apply existsb_exists in Ex as (r1 & Hin1 & Hk).
        exists (update_row 1 (strip nt) r1).
        apply UpsertFacts.same_key_spec in Hk. injection Hk as Hk1 Hk2.
        split; [|split; [exact Hk1|split; [exact Hk2|reflexivity]]].
        apply in_map_iff. exists r1. split; [|exact Hin1].
        unfold same_key. rewrite Hk1, Hk2, Z.eqb_refl, String.eqb_refl. reflexivity.
      - eexists. split; [apply in_app_iff; right; left; reflexivity|].
        simpl. auto. }
    assert (length (checkins db') <= S (length (checkins db)))%nat as Hlen.
    { destruct Hcases as [[_ Hrows]|[_ Hrows]]; rewrite Hrows.
      - rewrite length_map. lia.
      - rewrite length_app. simpl. lia. }
    destruct (Hret db' Hlen) as (r & Er & El).
    exists db', r. split; [exact E|]. split; [exact Er|].
    apply (proj1 (loop_today h _ today _ r Hdue El)).
    unfold is_done. pose proof (LookupFacts.stored_row_lookup db' r0 Hu' Hin) as Hl.
    rewrite Hid, Hday in Hl.
    change (isoformat today) with (date_isoformat today).
    rewrite Hl, Hdone. reflexivity.
Qed.

Lemma mark_done_starts_streak_witness :
  exists db' r,
    upsert_checkin 1 (date_isoformat (ymd2ord 2024 1 4)) true "" "t"
                   Examples.late_entry = Ok db'
    /\ current_streak Examples.read_habit (list_checkins_for_habit 1 db')
                      (ymd2ord 2024 1 4) = Some r
    /\ 1 <= r.
Proof.
  refine (proj2 (mark_done_starts_streak Examples.late_entry Examples.read_habit
                   (ymd2ord 2024 1 4) "" "t" _ _ _)).
  - apply UpsertFacts.run_unique.
  - reflexivity.
  - split; vm_compute; discriminate.
Defined.

End TodayFacts.

(* ================================================================== *)
(** * The metrics of the month *)
(* ================================================================== *)

Module MonthFacts.
Import Py Db Metrics Dashboard Spec RangeFacts DashboardFacts FrameFacts.

Lemma total_map_add {A} (f g : A -> Z) l :
  total (map (fun x => f x + g x) l) = total (map f l) + total (map g l).
Proof.
  unfold total. induction l as [|x l IH]; simpl; [reflexivity|]. rewrite IH. lia.
Qed.

Lemma total_map_bit {A} (p : A -> bool) l :
  total (map (fun x => if p x then 1 else 0) l)
  = Z.of_nat (length (List.filter p l)).
Proof.
  unfold total. induction l as [|x l IH]; simpl; [reflexivity|].
  rewrite IH. destruct (p x); simpl; lia.
Qed.

Lemma total_map_zero {A} (l : list A) : total (map (fun _ => 0) l) = 0.
Proof. unfold total. induction l as [|x l IH]; simpl; [reflexivity|exact IH]. Qed.

Lemma filter_filter_andb {A} (p q : A -> bool) l :
  List.filter q (List.filter p l) = List.filter (fun x => p x && q x) l.
Proof.
  induction l as [|x l IH]; simpl; [reflexivity|].
  destruct (p x); simpl; [destruct (q x); rewrite IH; reflexivity|exact IH].
Qed.

Lemma last_nth {A} (l : list A) x d :
  last l = Some x -> nth (length l - 1) l d = x.
Proof.
  induction l as [|y [|z l] IH]; simpl; [discriminate| |].
  - intros E. injection E as ->. reflexivity.
  - intros E. specialize (IH E). simpl in IH.
    rewrite Nat.sub_0_r in IH. exact IH.
Qed.

Section WithCalendar.
Context `{Calendar}.

(** The counts of a range, summed over the days, are the due days and the
    done days of the habits, summed over the habits. *)
Lemma total_due_count hs days :
  total (map (due_count hs) days)
  = total (map (fun h => Z.of_nat (length (List.filter (is_due_on h) days))) hs).
Proof.
  induction hs as [|h hs IH].
  - unfold due_count. simpl. apply total_map_zero.
  - transitivity (total (map (fun d => (if is_due_on h d then 1 else 0)
                                       + due_count hs d) days)).
    + f_equal. apply map_ext. intros d. unfold due_count. simpl.
      destruct (is_due_on h d); simpl; lia.
    + rewrite total_map_add, total_map_bit, IH. reflexivity.
Qed.

Lemma total_done_count db hs days :
  total (map (done_count db hs) days)
  = total (map (fun h => Z.of_nat (length
       (List.filter (fun d => is_done
            (checkin_lookup (list_checkins_for_habit (id h) db)) (isoformat d))
          (List.filter (is_due_on h) days)))) hs).
Proof.
  induction hs as [|h hs IH].
  - unfold done_count. simpl. apply total_map_zero.
  - transitivity (total (map (fun d =>
        (if is_due_on h d
            && is_done (checkin_lookup (list_checkins_for_habit (id h) db))
                       (isoformat d) then 1 else 0)
        + done_count db hs d) days)).
    + f_equal. apply map_ext. intros d. unfold done_count. simpl.
      destruct (is_due_on h d && _); simpl; lia.
    + rewrite total_map_add, total_map_bit, IH. simpl.
      rewrite filter_filter_andb. reflexivity.
Qed.

(** The columns of the month frame. *)
Lemma daily_progress_frame_columns db hs ms me :
  exists rows,
    daily_progress_frame db hs ms me = Ok rows
    /\ map pr_due rows = map (due_count hs) (daterange ms me)
    /\ map pr_done rows = map (done_count db hs) (daterange ms me)
    /\ map pr_cum_due rows = cumsum (map (due_count hs) (daterange ms me))
    /\ map pr_cum_done rows = cumsum (map (done_count db hs) (daterange ms me)).
Proof.
  unfold daily_progress_frame. set (days := daterange ms me).
  destruct (foldl (count_habit db days) (zero_counts days, zero_counts days) hs)
    as [due_counts done_counts] eqn:Ef.
  assert (map (fun d => default 0 (due_counts !! d)) days = map (due_count hs) days
          /\ map (fun d => default 0 (done_counts !! d)) days
             = map (done_count db hs) days) as [-> ->].
  { split; apply map_ext_in; intros d Hd;
      destruct (count_habit_lookup db days d hs (zero_counts days) (zero_counts days)
                  0 0 (daterange_NoDup ms me) Hd (zero_counts_lookup days d Hd)
                  (zero_counts_lookup days d Hd)) as [E1 E2];
      rewrite Ef in E1, E2; simpl in E1, E2; rewrite ?E1, ?E2; reflexivity. }
  destruct (frame_rows_columns days (map (due_count hs) days)
              (map (done_count db hs) days)
              (cumsum (map (due_count hs) days))
              (cumsum (map (done_count db hs) days)))
    as (rows & E & Hd & Hu & Hn & Hcu & Hcn & Hr).
  { apply length_map. }
  { apply length_map. }
  { unfold cumsum. rewrite cumsum_from_length. apply length_map. }
  { unfold cumsum. rewrite cumsum_from_length. apply length_map. }
  { clear. induction days as [|d days IH]; simpl; constructor; [|exact IH].
    apply counts_bounds. }
  exists rows. auto.
Qed.

Lemma total_bounds db hs days :
  0 <= total (map (done_count db hs) days) <= total (map (due_count hs) days).
Proof.
  unfold total. induction days as [|d days IH]; simpl; [lia|].
  pose proof (counts_bounds db hs d). lia.
Qed.

Lemma cumsum_last l r :
  last (cumsum l) = Some r -> r = total l.
Proof.
  intros E. pose proof (last_nth (cumsum l) r 0 E) as En.
  unfold cumsum in *. rewrite cumsum_from_length in En.
  destruct l as [|x l]; [discriminate|].
  rewrite cumsum_from_lookup in En by (simpl; lia).
  replace (S (length (x :: l) - 1)) with (length (x :: l)) in En by (simpl; lia).
  rewrite firstn_all in En. lia.
Qed.


End WithCalendar.
End MonthFacts.
